(** * Lcnc_Logger: the position-logging core of [lcnc_logger.py]

    A shallow embedding of [MainWindow] of [src/lcnc_logger.py]: the widgets
    and attributes read or written by [log], [update], [check_lineEdit],
    [check_feed_arc_radius], [save] and [openFile] become one record [App];
    each method becomes a function on it.

    Numbers.  Python's [float] is the IEEE double, Rocq's primitive
    float.  The analog channels only compare floats, so their samples and
    thresholds are primitive floats.  The arithmetic of the arc (lines
    689-718) is embedded in doubles as [arc_lines], with the functions of
    the C library it calls as the operations of the class [LibM]; what is
    proved about the values of I and J is proved there.  [log] itself
    carries the positions as real numbers [R] and decides the outcome of an
    arc move by [arc_solve], the same lines in exact arithmetic: it stands
    for the control flow of [log] (which entries are read, which dialog is
    shown, what is written), not for the rounding of its numbers.

    Python's [float(str)] and [str.format] belong to the runtime, not to
    the repository: they are the two operations of the class [PyRuntime]. *)

From Stdlib Require Import PrimFloat.
From Stdlib Require Import Reals Lra Lia ZArith Bool List String Ascii.
From Stdlib Require Import DecimalString.
Import ListNotations.

Open Scope string_scope.

(* ================================================================== *)
(** ** Python runtime *)

(** The exceptions the embedded methods can raise. *)
Inductive PyExc : Type :=
| ValueError      (* float() of a text that is no number *)
| IndexError      (* list index out of range *)
| AttributeError. (* .text() of a label that is None *)

(** A computation that returns or raises. *)
Inductive Res (A : Type) : Type :=
| Ret (x : A)
| Raise (e : PyExc).
Arguments Ret {A} x.
Arguments Raise {A} e.

Class PyRuntime : Type := {
  (** [float(s)]: [None] stands for ValueError *)
  float_of_str : string -> option R;
  (** ['{0:.{1}f}'.format(x, p)] *)
  format_f : Z -> R -> string
}.

(** [str(n)] of an integer. *)
Definition str_of_int (n : Z) : string := NilZero.string_of_int (Z.to_int n).

(** [math.atan2(y, x)] on real numbers. *)
Definition atan2 (y x : R) : R :=
  if Rlt_dec 0 x then atan (y / x)
  else if Rlt_dec x 0 then
         if Rle_dec 0 y then atan (y / x) + PI else atan (y / x) - PI
       else if Rlt_dec 0 y then PI / 2
            else if Rlt_dec y 0 then - (PI / 2)
                 else 0%R.

(* ================================================================== *)
(** ** Widgets *)

(** The style sheets the program sets: ["background: white;"],
    ["background: yellow;"], ["background: red;"]; [Unstyled] is a widget
    whose style sheet was never set. *)
Inductive Style : Type := Unstyled | White | Yellow | Red.

(** ['background: white' in w.styleSheet()] *)
Definition is_white (s : Style) : bool :=
  match s with White => true | _ => false end.

(** Modelled from the spec: the [gcode] property of the radio buttons of
    [moveTypeGB] is set in [lcnc_logger.ui], which is not among the
    sources; the move types are Rapid, Linear, ArcCW and ArcCCW, and
    [log] compares the property with ['G1'], ['G2'] and ['G3']. *)
Inductive MoveType : Type := G0 | G1 | G2 | G3.

Definition gcode_of (m : MoveType) : string :=
  match m with G0 => "G0" | G1 => "G1" | G2 => "G2" | G3 => "G3" end.

(** [moveType in ['G1', 'G2', 'G3']] *)
Definition needs_feed (m : MoveType) : bool :=
  match m with G0 => false | _ => true end.

(** [moveType in ['G2', 'G3']] *)
Definition is_arc (m : MoveType) : bool :=
  match m with G2 | G3 => true | _ => false end.

(** Items of [ainOnLogic] / [aoutOnLogic]: ['>'] and ['<']. *)
Inductive Comparator : Type := GreaterThan | LessThan.

(** Items of [positionCB]. *)
Inductive PositionMode : Type := Relative | Absolute.

(** [dinSB]/[dinInput], [dinCB], [dinLogic] (and the same for [dout]);
    [dLogic] is [currentData() == 'true']. *)
Record DigitalConfig : Type := {
  dInput : Z;
  dCB : bool;
  dLogic : bool
}.

(** [ainInput], [ainCB], [ainOnLogic], [ainOnValue], [ainOffValue] (and
    the same for [aout]). *)
Record AnalogConfig : Type := {
  aInput : Z;
  aCB : bool;
  aOnLogic : Comparator;
  aOnValue : float;
  aOffValue : float
}.

(** The messages [log] shows through [mbox(message, 'critical')]. *)
Inductive Message : Type :=
| MissingFeedRate (m : MoveType)
    (* 'A feed rate must be entered for a {} move' *)
| MissingArcRadius (m : MoveType)
    (* '{} moves require an arc radius' *)
| NoPriorPosition (m : MoveType)
    (* 'A G0 or G1 move must be done before a {} move' *)
| DegenerateMove (m : MoveType)
    (* '{} move needs a different end point' *)
| RadiusTooSmall (minimum : R).
    (* 'Radius can not be smaller than {0:0.4f}'.format(distance/2) *)

(** The widgets the operator sets; [log] and [update] only read them. *)
Record Panel : Type := {
  axis_cbs : list (option bool);   (* None: no such axis; Some c: isChecked *)
  positionCB : PositionMode;
  precisionSB : Z;
  moveTypeEnableCB : bool;
  moveType : MoveType;             (* the checked radio button *)
  feedLE : string;                 (* feedLE.text() *)
  arcRadiusLE : string;            (* arcRadiusLE.text() *)
  logCommentLE : string;
  screenShotEnableCB : bool;
  imgFileName2CmntCB : bool;
  autoIncrementCB : bool;
  imgFileNameLE : string;
  prescriptCB : bool;
  postscriptCB : bool;
  din : DigitalConfig;
  dout : DigitalConfig;
  ain : AnalogConfig;
  aout : AnalogConfig
}.

(** The state [log], [update], [check_feed_arc_radius] and [openFile]
    write.  [dialogs] records the calls of [mbox], latest first. *)
Record App : Type := {
  panel : Panel;
  position_lbs : list (option string);  (* text of positionLB_i *)
  feedStyle : Style;                    (* feedLE.styleSheet() *)
  arcRadiusStyle : Style;               (* arcRadiusLE.styleSheet() *)
  prescriptLW : list string;
  gcodeLW : list string;
  postscriptLW : list string;
  logToLine : option Z;
  lastPosition : list R;
  logComment : string;
  imgName : option string;
  imgFileIndexSB : Z;
  dinLog : bool;
  doutLog : bool;
  ainLog : bool;
  aoutLog : bool;
  ainStyle : Style;      (* style sheet of ainOnValue and ainOffValue *)
  aoutStyle : Style;     (* style sheet of aoutOnValue and aoutOffValue *)
  dialogs : list Message
}.

Definition set_panel (v : Panel) (a : App) : App :=
  Build_App v (position_lbs a) (feedStyle a) (arcRadiusStyle a)
    (prescriptLW a) (gcodeLW a) (postscriptLW a) (logToLine a)
    (lastPosition a) (logComment a) (imgName a) (imgFileIndexSB a)
    (dinLog a) (doutLog a) (ainLog a) (aoutLog a) (ainStyle a) (aoutStyle a)
    (dialogs a).

Definition set_position_lbs (v : list (option string)) (a : App) : App :=
  Build_App (panel a) v (feedStyle a) (arcRadiusStyle a)
    (prescriptLW a) (gcodeLW a) (postscriptLW a) (logToLine a)
    (lastPosition a) (logComment a) (imgName a) (imgFileIndexSB a)
    (dinLog a) (doutLog a) (ainLog a) (aoutLog a) (ainStyle a) (aoutStyle a)
    (dialogs a).

Definition set_feedStyle (v : Style) (a : App) : App :=
  Build_App (panel a) (position_lbs a) v (arcRadiusStyle a)
    (prescriptLW a) (gcodeLW a) (postscriptLW a) (logToLine a)
    (lastPosition a) (logComment a) (imgName a) (imgFileIndexSB a)
    (dinLog a) (doutLog a) (ainLog a) (aoutLog a) (ainStyle a) (aoutStyle a)
    (dialogs a).

Definition set_arcRadiusStyle (v : Style) (a : App) : App :=
  Build_App (panel a) (position_lbs a) (feedStyle a) v
    (prescriptLW a) (gcodeLW a) (postscriptLW a) (logToLine a)
    (lastPosition a) (logComment a) (imgName a) (imgFileIndexSB a)
    (dinLog a) (doutLog a) (ainLog a) (aoutLog a) (ainStyle a) (aoutStyle a)
    (dialogs a).

Definition set_prescriptLW (v : list string) (a : App) : App :=
  Build_App (panel a) (position_lbs a) (feedStyle a) (arcRadiusStyle a)
    v (gcodeLW a) (postscriptLW a) (logToLine a)
    (lastPosition a) (logComment a) (imgName a) (imgFileIndexSB a)
    (dinLog a) (doutLog a) (ainLog a) (aoutLog a) (ainStyle a) (aoutStyle a)
    (dialogs a).

Definition set_gcodeLW (v : list string) (a : App) : App :=
  Build_App (panel a) (position_lbs a) (feedStyle a) (arcRadiusStyle a)
    (prescriptLW a) v (postscriptLW a) (logToLine a)
    (lastPosition a) (logComment a) (imgName a) (imgFileIndexSB a)
    (dinLog a) (doutLog a) (ainLog a) (aoutLog a) (ainStyle a) (aoutStyle a)
    (dialogs a).

Definition set_postscriptLW (v : list string) (a : App) : App :=
  Build_App (panel a) (position_lbs a) (feedStyle a) (arcRadiusStyle a)
    (prescriptLW a) (gcodeLW a) v (logToLine a)
    (lastPosition a) (logComment a) (imgName a) (imgFileIndexSB a)
    (dinLog a) (doutLog a) (ainLog a) (aoutLog a) (ainStyle a) (aoutStyle a)
    (dialogs a).

Definition set_logToLine (v : option Z) (a : App) : App :=
  Build_App (panel a) (position_lbs a) (feedStyle a) (arcRadiusStyle a)
    (prescriptLW a) (gcodeLW a) (postscriptLW a) v
    (lastPosition a) (logComment a) (imgName a) (imgFileIndexSB a)
    (dinLog a) (doutLog a) (ainLog a) (aoutLog a) (ainStyle a) (aoutStyle a)
    (dialogs a).

Definition set_lastPosition (v : list R) (a : App) : App :=
  Build_App (panel a) (position_lbs a) (feedStyle a) (arcRadiusStyle a)
    (prescriptLW a) (gcodeLW a) (postscriptLW a) (logToLine a)
    v (logComment a) (imgName a) (imgFileIndexSB a)
    (dinLog a) (doutLog a) (ainLog a) (aoutLog a) (ainStyle a) (aoutStyle a)
    (dialogs a).

Definition set_logComment (v : string) (a : App) : App :=
  Build_App (panel a) (position_lbs a) (feedStyle a) (arcRadiusStyle a)
    (prescriptLW a) (gcodeLW a) (postscriptLW a) (logToLine a)
    (lastPosition a) v (imgName a) (imgFileIndexSB a)
    (dinLog a) (doutLog a) (ainLog a) (aoutLog a) (ainStyle a) (aoutStyle a)
    (dialogs a).

Definition set_imgName (v : option string) (a : App) : App :=
  Build_App (panel a) (position_lbs a) (feedStyle a) (arcRadiusStyle a)
    (prescriptLW a) (gcodeLW a) (postscriptLW a) (logToLine a)
    (lastPosition a) (logComment a) v (imgFileIndexSB a)
    (dinLog a) (doutLog a) (ainLog a) (aoutLog a) (ainStyle a) (aoutStyle a)
    (dialogs a).

Definition set_imgFileIndexSB (v : Z) (a : App) : App :=
  Build_App (panel a) (position_lbs a) (feedStyle a) (arcRadiusStyle a)
    (prescriptLW a) (gcodeLW a) (postscriptLW a) (logToLine a)
    (lastPosition a) (logComment a) (imgName a) v
    (dinLog a) (doutLog a) (ainLog a) (aoutLog a) (ainStyle a) (aoutStyle a)
    (dialogs a).

Definition set_dinLog (v : bool) (a : App) : App :=
  Build_App (panel a) (position_lbs a) (feedStyle a) (arcRadiusStyle a)
    (prescriptLW a) (gcodeLW a) (postscriptLW a) (logToLine a)
    (lastPosition a) (logComment a) (imgName a) (imgFileIndexSB a)
    v (doutLog a) (ainLog a) (aoutLog a) (ainStyle a) (aoutStyle a)
    (dialogs a).

Definition set_doutLog (v : bool) (a : App) : App :=
  Build_App (panel a) (position_lbs a) (feedStyle a) (arcRadiusStyle a)
    (prescriptLW a) (gcodeLW a) (postscriptLW a) (logToLine a)
    (lastPosition a) (logComment a) (imgName a) (imgFileIndexSB a)
    (dinLog a) v (ainLog a) (aoutLog a) (ainStyle a) (aoutStyle a)
    (dialogs a).

Definition set_ainLog (v : bool) (a : App) : App :=
  Build_App (panel a) (position_lbs a) (feedStyle a) (arcRadiusStyle a)
    (prescriptLW a) (gcodeLW a) (postscriptLW a) (logToLine a)
    (lastPosition a) (logComment a) (imgName a) (imgFileIndexSB a)
    (dinLog a) (doutLog a) v (aoutLog a) (ainStyle a) (aoutStyle a)
    (dialogs a).

Definition set_aoutLog (v : bool) (a : App) : App :=
  Build_App (panel a) (position_lbs a) (feedStyle a) (arcRadiusStyle a)
    (prescriptLW a) (gcodeLW a) (postscriptLW a) (logToLine a)
    (lastPosition a) (logComment a) (imgName a) (imgFileIndexSB a)
    (dinLog a) (doutLog a) (ainLog a) v (ainStyle a) (aoutStyle a)
    (dialogs a).

Definition set_ainStyle (v : Style) (a : App) : App :=
  Build_App (panel a) (position_lbs a) (feedStyle a) (arcRadiusStyle a)
    (prescriptLW a) (gcodeLW a) (postscriptLW a) (logToLine a)
    (lastPosition a) (logComment a) (imgName a) (imgFileIndexSB a)
    (dinLog a) (doutLog a) (ainLog a) (aoutLog a) v (aoutStyle a)
    (dialogs a).

Definition set_aoutStyle (v : Style) (a : App) : App :=
  Build_App (panel a) (position_lbs a) (feedStyle a) (arcRadiusStyle a)
    (prescriptLW a) (gcodeLW a) (postscriptLW a) (logToLine a)
    (lastPosition a) (logComment a) (imgName a) (imgFileIndexSB a)
    (dinLog a) (doutLog a) (ainLog a) (aoutLog a) (ainStyle a) v
    (dialogs a).

(** [mbox(message, 'critical')]: the dialog is shown to the operator. *)
Definition mbox (m : Message) (a : App) : App :=
  Build_App (panel a) (position_lbs a) (feedStyle a) (arcRadiusStyle a)
    (prescriptLW a) (gcodeLW a) (postscriptLW a) (logToLine a)
    (lastPosition a) (logComment a) (imgName a) (imgFileIndexSB a)
    (dinLog a) (doutLog a) (ainLog a) (aoutLog a) (ainStyle a) (aoutStyle a)
    (m :: dialogs a).

(** The three line lists and the cursor: the ScriptDocument. *)
Definition document (a : App)
  : list string * list string * list string * option Z :=
  (prescriptLW a, gcodeLW a, postscriptLW a, logToLine a).

(** The four latches: the EdgeState of the channels. *)
Definition latches (a : App) : bool * bool * bool * bool :=
  (dinLog a, doutLog a, ainLog a, aoutLog a).

(* ================================================================== *)
(** ** Edge detection of [update] (lines 754-819) *)

(** One digital block of [update] (lines 755-766, and 768-779 for the
    outputs): the first component tells whether [self.log()] is called,
    the second is the latch once the block has run. *)
Definition digital_edge (c : DigitalConfig) (value latch : bool)
  : bool * bool :=
  if dLogic c then
    if value && dCB c && negb latch then (true, true)
    else if negb value && latch then (false, false)
    else (false, latch)
  else
    if negb value && dCB c && negb latch then (true, true)
    else if value && latch then (false, false)
    else (false, latch).

(** What one analog block of [update] does. *)
Record AnalogStep : Type := {
  a_fire : bool;     (* self.log() is called *)
  a_latch : bool;    (* the latch once the block has run *)
  a_style : Style    (* style sheet set on the two threshold boxes *)
}.

(** One analog block of [update] (lines 781-799, and 801-819 for the
    outputs).  [x > y] is [PrimFloat.ltb y x]. *)
Definition analog_edge (c : AnalogConfig) (value : float) (latch : bool)
  : AnalogStep :=
  match aOnLogic c with
  | GreaterThan =>
      if PrimFloat.ltb (aOffValue c) (aOnValue c) then
        if PrimFloat.ltb (aOnValue c) value && aCB c && negb latch
        then Build_AnalogStep true true White
        else if PrimFloat.ltb value (aOffValue c) && latch
             then Build_AnalogStep false false White
             else Build_AnalogStep false latch White
      else Build_AnalogStep false latch Yellow
  | LessThan =>
      if PrimFloat.ltb (aOnValue c) (aOffValue c) then
        if PrimFloat.ltb value (aOnValue c) && aCB c && negb latch
        then Build_AnalogStep true true White
        else if PrimFloat.ltb (aOffValue c) value && latch
             then Build_AnalogStep false false White
             else Build_AnalogStep false latch White
      else Build_AnalogStep false latch Yellow
  end.

(** The decisions of the edge function over a sequence of samples, each
    starting from the latch the one before computed: the blocks of
    [update] as long as [log] is not called or returns.  An exception that
    escapes [log] skips the assignment of the latch; the runs of [update]
    itself are [ticks] below. *)
Fixpoint digital_run (c : DigitalConfig) (latch : bool) (vs : list bool)
  : list bool :=
  match vs with
  | [] => []
  | v :: vs' =>
      fst (digital_edge c v latch)
      :: digital_run c (snd (digital_edge c v latch)) vs'
  end.

Fixpoint analog_run (c : AnalogConfig) (latch : bool) (vs : list float)
  : list AnalogStep :=
  match vs with
  | [] => []
  | v :: vs' =>
      analog_edge c v latch
      :: analog_run c (a_latch (analog_edge c v latch)) vs'
  end.

(** Number of samples on which the channel fired. *)
Definition fire_count (fires : list bool) : nat :=
  List.length (filter (fun b => b) fires).

(* ================================================================== *)
(** ** The line edits (lines 537-561) *)

(** [text == 0]: a [str] is never equal to an [int]. *)
Definition str_eq_int (text : string) (n : Z) : bool := false.

(** [check_lineEdit] (lines 549-561), as the style sheet it sets.  The
    first test is [not text or float(text == 0)]; [float(False)] is [0.0]
    and [float(True)] is [1.0], so the second operand is as true as the
    comparison is. *)
Definition check_lineEdit `{PyRuntime} (text : string) : Style :=
  if (text =? "") || str_eq_int text 0 then Yellow
  else match float_of_str text with
       | None => Red
       | Some x => if Rlt_dec x 0 then Red else White
       end.

(** [check_feed_arc_radius] (lines 537-547), the slot of the radio
    buttons' [toggled] and of the two line edits' [textEdited]. *)
Definition check_feed_arc_radius `{PyRuntime} (a : App) : App :=
  let p := panel a in
  let a1 :=
    if needs_feed (moveType p)
    then set_feedStyle (check_lineEdit (feedLE p)) a
    else set_feedStyle White a in
  if is_arc (moveType p)
  then set_arcRadiusStyle (check_lineEdit (arcRadiusLE p)) a1
  else set_arcRadiusStyle White a1.

(* ================================================================== *)
(** ** The arc geometry of [log] (lines 689-718) *)

Inductive Direction : Type := CW | CCW.

(** ['G2'] is the clockwise arc, ['G3'] the counter-clockwise one. *)
Definition direction_of (m : MoveType) : option Direction :=
  match m with G2 => Some CW | G3 => Some CCW | _ => None end.

Inductive ArcResult : Type :=
| ArcCenter (i j : R)
| ArcDegenerate                     (* 'needs a different end point' *)
| ArcRadiusTooSmall (minimum : R)   (* 'Radius can not be smaller than' *)
| ArcRadiusUnreadable.              (* float(arcRadiusLE.text()) raised *)

Open Scope R_scope.

(** [dx == 0 and dy == 0] (line 691) *)
Definition same_point (dx dy : R) : bool :=
  if Req_dec_T dx 0 then (if Req_dec_T dy 0 then true else false) else false.

(** Lines 691-718 in exact arithmetic, from [dx], [dy] and the value of
    [float(self.arcRadiusLE.text())], which the code evaluates after the
    test of the end point.  The doubles of these lines, with their
    rounding and their exceptions, are [arc_lines] below. *)
Definition arc_solve (d : Direction) (dx dy : R) (radius_text : option R)
  : ArcResult :=
  if same_point dx dy then ArcDegenerate
  else
    match radius_text with
    | None => ArcRadiusUnreadable
    | Some radius =>
        let angle := atan2 dy dx in
        let dxMid := dx / 2 in
        let dyMid := dy / 2 in
        let distance := sqrt (dx ^ 2 + dy ^ 2) in
        if Rlt_dec radius (distance / 2) then ArcRadiusTooSmall (distance / 2)
        else
          let center_offset := sqrt (radius ^ 2 - (distance / 2) ^ 2) in
          let offset_angle :=
            match d with CW => angle - PI / 2 | CCW => angle + PI / 2 end in
          ArcCenter (dxMid + center_offset * cos offset_angle)
                    (dyMid + center_offset * sin offset_angle)
    end.

Close Scope R_scope.

(* ================================================================== *)
(** ** The list widget (Qt's [QListWidget]) *)

(** [insertItem(row, text)]: Qt clamps the row into [0 .. count()]. *)
Definition insertItem (row : Z) (text : string) (l : list string)
  : list string :=
  let r := if (row <? 0)%Z then 0%nat
           else Nat.min (Z.to_nat row) (List.length l) in
  firstn r l ++ text :: skipn r l.

(** [takeItem(row)]: nothing is removed when the row is out of range. *)
Definition takeItem (row : Z) (l : list string) : list string :=
  if ((row <? 0) || (Z.of_nat (List.length l) <=? row))%Z then l
  else firstn (Z.to_nat row) l ++ skipn (S (Z.to_nat row)) l.

(** The context-menu action 'Log to this Line' of [eventFilter]
    (lines 369-370): [self.logToLine = source.currentRow()]. *)
Definition log_to_this_line (currentRow : Z) (a : App) : App :=
  set_logToLine (Some currentRow) a.

(* ================================================================== *)
(** ** Composing a line: [log], lines 662-726 *)

Definition axes_letters : list string :=
  ["X"; "Y"; "Z"; "A"; "B"; "C"; "U"; "V"; "W"].

(** Lines 662-665: the indices whose check box exists and is checked. *)
Definition checked_axes (cbs : list (option bool)) : list nat :=
  filter (fun cb => match nth_error cbs cb with
                    | Some (Some true) => true
                    | _ => false
                    end)
         (seq 0 (List.length cbs)).

(** The loop [for axis in axes] of lines 673-676, 722-725 and 736-737:
    [position_lbs[axis].text()] and [float(position)] for each axis in
    turn.  The result is what was read before the loop ended, and the
    exception that ended it, if any. *)
Fixpoint read_axes `{PyRuntime} (lbs : list (option string))
  (axes : list nat) : list (nat * string * R) * option PyExc :=
  match axes with
  | [] => ([], None)
  | axis :: rest =>
      match nth_error lbs axis with
      | None => ([], Some IndexError)
      | Some None => ([], Some AttributeError)
      | Some (Some position) =>
          match float_of_str position with
          | None => ([], Some ValueError)
          | Some x =>
              let (read, e) := read_axes lbs rest in
              ((axis, position, x) :: read, e)
          end
      end
  end.

Definition axis_value (r : nat * string * R) : R := snd r.

(** [self.axes_letters[axis] + position + ' '] *)
Definition axis_word (r : nat * string * R) : string :=
  nth (fst (fst r)) axes_letters "" ++ snd (fst r) ++ " ".

(** [position + ', '] *)
Definition axis_field (r : nat * string * R) : string :=
  snd (fst r) ++ ", ".

(** How an attempt to compose a line ends. *)
Inductive Attempt : Type :=
| Composed (line : string)
| Returned (m : Message)                     (* mbox(...); return *)
| Raised (shown : list Message) (e : PyExc). (* an exception escapes *)

(** Lines 662-726: the text [''.join(gcode)], from the state as it is
    after lines 655-661. *)
Definition compose `{PyRuntime} (a : App) : Attempt :=
  let p := panel a in
  let (read, exc) := read_axes (position_lbs a) (checked_axes (axis_cbs p)) in
  match exc with
  | Some e => Raised [] e
  | None =>
      let currentPosition := map axis_value read in
      if moveTypeEnableCB p then
        let m := moveType p in
        let words :=
          gcode_of m ++ " " ++ String.concat "" (map axis_word read) in
        let comment :=
          if logCommentLE p =? "" then "" else " ;" ++ logComment a in
        if needs_feed m then
          if negb (is_white (feedStyle a)) then Returned (MissingFeedRate m)
          else
            let words := words ++ "F" ++ feedLE p in
            match direction_of m with
            | None => Composed (words ++ comment)
            | Some d =>
                if negb (is_white (arcRadiusStyle a))
                then Returned (MissingArcRadius m)
                else
                  (* lines 687-688: the dialog, and no return *)
                  let shown :=
                    match lastPosition a with
                    | [] => [NoPriorPosition m]
                    | _ => []
                    end in
                  match currentPosition, lastPosition a with
                  | c0 :: c1 :: _, l0 :: l1 :: _ =>
                      match arc_solve d (c0 - l0) (c1 - l1)
                                      (float_of_str (arcRadiusLE p)) with
                      | ArcDegenerate => Returned (DegenerateMove m)
                      | ArcRadiusUnreadable => Raised shown ValueError
                      | ArcRadiusTooSmall r => Returned (RadiusTooSmall r)
                      | ArcCenter i j =>
                          Composed (words
                                    ++ " I" ++ format_f (precisionSB p) i
                                    ++ " J" ++ format_f (precisionSB p) j
                                    ++ comment)
                      end
                  | _, _ => Raised shown IndexError
                  end
            end
        else Composed (words ++ comment)
      else
        Composed (String.concat "" (map axis_field read) ++ logComment a)
  end.

(* ================================================================== *)
(** ** [log] (lines 654-740) *)

(** [snipFull] (lines 507-509) and [onSnippingCompleted] (480-501): the
    image is grabbed and written to disk; of the state embedded here only
    the index of the next image changes. *)
Definition snipFull (a : App) : App :=
  if autoIncrementCB (panel a)
  then set_imgFileIndexSB (imgFileIndexSB a + 1) a
  else a.

(** Lines 655-661. *)
Definition log_comment (a : App) : App :=
  let p := panel a in
  let a := set_logComment (logCommentLE p) a in
  if screenShotEnableCB p then
    let name :=
      imgFileNameLE p ++ "_" ++ str_of_int (imgFileIndexSB a) ++ ".png" in
    let a := set_imgName (Some name) a in
    let a := if imgFileName2CmntCB p
             then set_logComment (logCommentLE p ++ " " ++ name) a
             else a in
    snipFull a
  else a.

(** Lines 727-734. *)
Definition write_line (line : string) (a : App) : App :=
  match logToLine a with
  | Some row =>
      set_gcodeLW (takeItem (row + 1) (insertItem row line (gcodeLW a))) a
  | None => set_gcodeLW (gcodeLW a ++ [line]) a
  end.

(** [log].  The autosave of lines 739-740 writes the file through the
    file dialogs and the disk, and changes nothing of [App]. *)
Definition log `{PyRuntime} (a : App) : Attempt * App :=
  let a := log_comment a in
  match compose a with
  | Raised shown e => (Raised shown e, fold_right mbox a shown)
  | Returned m => (Returned m, mbox m a)
  | Composed line =>
      let a := write_line line a in
      let (read, exc) :=
        read_axes (position_lbs a) (checked_axes (axis_cbs (panel a))) in
      let a := set_lastPosition (map axis_value read) a in
      match exc with
      | Some e => (Raised [] e, a)
      | None => (Composed line, set_logToLine None a)
      end
  end.

(* ================================================================== *)
(** ** [update] (lines 742-819) *)

(** What [self.s.poll()] refreshes, as far as [update] reads it. *)
Record Stat : Type := {
  actual_position : list R;
  g5x_offset : list R;
  g92_offset : list R;
  tool_offset : list R;
  stat_din : Z -> bool;
  stat_dout : Z -> bool;
  stat_ain : Z -> float;
  stat_aout : Z -> float
}.

(** [tuple(-sum(i) for i in zip(g5x_offset, g92_offset, tool_offset))] *)
Fixpoint offsets (g5x g92 tool : list R) : list R :=
  match g5x, g92, tool with
  | x :: g5x', y :: g92', z :: tool' =>
      (- (x + y + z))%R :: offsets g5x' g92' tool'
  | _, _, _ => []
  end.

(** [tuple(sum(i) for i in zip(offsets, actual_position))] *)
Fixpoint zip_sum (l1 l2 : list R) : list R :=
  match l1, l2 with
  | x :: l1', y :: l2' => (x + y)%R :: zip_sum l1' l2'
  | _, _ => []
  end.

(** Lines 744-749, the sums in exact arithmetic. *)
Definition display (mode : PositionMode) (s : Stat) : list R :=
  match mode with
  | Relative =>
      zip_sum (offsets (g5x_offset s) (g92_offset s) (tool_offset s))
              (actual_position s)
  | Absolute => actual_position s
  end.

(** [l[i] = v] for an index in range. *)
Fixpoint list_set {A : Type} (i : nat) (v : A) (l : list A) : list A :=
  match l, i with
  | [], _ => []
  | _ :: l', O => v :: l'
  | x :: l', S i' => x :: list_set i' v l'
  end.

(** [self.axes]: the axes of the machine, those [setupAxes] made a check
    box and a label for. *)
Definition machine_axes (cbs : list (option bool)) : list nat :=
  filter (fun i => match nth_error cbs i with
                   | Some (Some _) => true
                   | _ => false
                   end)
         (seq 0 (List.length cbs)).

(** Lines 750-753: the labels, and the exception that ended the loop. *)
Fixpoint refresh_labels `{PyRuntime} (shown : list R) (precision : Z)
  (axes : list nat) (lbs : list (option string))
  : list (option string) * option PyExc :=
  match axes with
  | [] => (lbs, None)
  | i :: rest =>
      match nth_error lbs i with
      | None => (lbs, Some IndexError)
      | Some None => refresh_labels shown precision rest lbs
      | Some (Some _) =>
          match nth_error shown i with
          | None => (lbs, Some IndexError)
          | Some x =>
              refresh_labels shown precision rest
                (list_set i (Some (format_f precision x)) lbs)
          end
      end
  end.

(** A digital block of [update]: [self.log()] when [digital_edge] says
    so, then the assignment to the latch, which an exception escaping
    [log] skips. *)
Definition digital_block `{PyRuntime} (c : DigitalConfig) (value : bool)
  (latch : App -> bool) (set_latch : bool -> App -> App) (a : App)
  : option PyExc * App :=
  let (fire, after) := digital_edge c value (latch a) in
  if fire then
    match log a with
    | (Raised _ e, a') => (Some e, a')
    | (_, a') => (None, set_latch after a')
    end
  else (None, set_latch after a).

(** An analog block of [update]; the style sheets are set after the
    inner [if], or in the final [else]. *)
Definition analog_block `{PyRuntime} (c : AnalogConfig) (value : float)
  (latch : App -> bool) (set_latch : bool -> App -> App)
  (set_style : Style -> App -> App) (a : App)
  : option PyExc * App :=
  let step := analog_edge c value (latch a) in
  if a_fire step then
    match log a with
    | (Raised _ e, a') => (Some e, a')
    | (_, a') => (None, set_style (a_style step) (set_latch (a_latch step) a'))
    end
  else (None, set_style (a_style step) (set_latch (a_latch step) a)).

(** Sequencing of two statements, the second skipped by an exception. *)
Definition and_then (r : option PyExc * App)
  (k : App -> option PyExc * App) : option PyExc * App :=
  match r with
  | (None, a) => k a
  | (Some e, a) => (Some e, a)
  end.

Definition update_din `{PyRuntime} (s : Stat) (a : App) :=
  let c := din (panel a) in
  digital_block c (stat_din s (dInput c)) dinLog set_dinLog a.

Definition update_dout `{PyRuntime} (s : Stat) (a : App) :=
  let c := dout (panel a) in
  digital_block c (stat_dout s (dInput c)) doutLog set_doutLog a.

Definition update_ain `{PyRuntime} (s : Stat) (a : App) :=
  let c := ain (panel a) in
  analog_block c (stat_ain s (aInput c)) ainLog set_ainLog set_ainStyle a.

Definition update_aout `{PyRuntime} (s : Stat) (a : App) :=
  let c := aout (panel a) in
  analog_block c (stat_aout s (aInput c)) aoutLog set_aoutLog set_aoutStyle a.

(** [update], the slot of the 100 ms timer, on the status [s] that
    [poll()] delivered.  [None]: the tick returned. *)
Definition update `{PyRuntime} (s : Stat) (a : App) : option PyExc * App :=
  let p := panel a in
  let (lbs, exc) :=
    refresh_labels (display (positionCB p) s) (precisionSB p)
                   (machine_axes (axis_cbs p)) (position_lbs a) in
  and_then (exc, set_position_lbs lbs a) (fun a =>
  and_then (update_din s a) (fun a =>
  and_then (update_dout s a) (fun a =>
  and_then (update_ain s a) (fun a =>
  update_aout s a)))).

(* ================================================================== *)
(** ** [save] (lines 630-643) and [openFile] (lines 578-603) *)

Definition LF : ascii := "010"%char.
Definition CR : ascii := "013"%char.

(** The one-character string ['\n']. *)
Definition nl : string := String LF EmptyString.

(** The text [save] writes: the file is opened in text mode on Linux,
    where ['\n'] is written as it is. *)
Definition save (a : App) : string :=
  let prescript := String.concat nl (prescriptLW a) in
  let gcode := String.concat nl (gcodeLW a) in
  let postscript := String.concat nl (postscriptLW a) in
  (if prescriptCB (panel a)
   then ";prescript_start" ++ nl ++ prescript ++ nl ++ ";prescript_end" ++ nl
   else "")
  ++ gcode
  ++ (if postscriptCB (panel a)
      then nl ++ ";postscript_start" ++ nl ++ postscript
           ++ nl ++ ";postscript_end" ++ nl
      else "").

(** Reading in text mode: ['\r\n'] and ['\r'] arrive as ['\n']. *)
Fixpoint universal_newlines (s : string) : string :=
  match s with
  | EmptyString => EmptyString
  | String c s' =>
      if Ascii.eqb c CR then
        match s' with
        | String c' s'' =>
            if Ascii.eqb c' LF then String LF (universal_newlines s'')
            else String LF (universal_newlines s')
        | EmptyString => String LF EmptyString
        end
      else String c (universal_newlines s')
  end.

(** [for line in f: line = line.strip('\n')]: the lines of a text, each
    without the ['\n'] that ends it; a last line need not be ended. *)
Fixpoint lines_of (s : string) : list string :=
  match s with
  | EmptyString => []
  | String c s' =>
      if Ascii.eqb c LF then EmptyString :: lines_of s'
      else match lines_of s' with
           | line :: rest => String c line :: rest
           | [] => [String c EmptyString]
           end
  end.

Definition file_lines (text : string) : list string :=
  lines_of (universal_newlines text).

(** The values of [gcode_type]. *)
Inductive GcodeType : Type := TypeLog | TypePrescript | TypePostscript.

(** The body of the loop of [openFile] (lines 587-603). *)
Definition open_line (st : GcodeType * App) (line : string)
  : GcodeType * App :=
  let (gcode_type, a) := st in
  if line =? ";prescript_start" then (TypePrescript, a)
  else if line =? ";prescript_end" then (TypeLog, a)
  else if line =? ";postscript_start" then (TypePostscript, a)
  else if line =? ";postscript_end" then (TypeLog, a)
  else
    match gcode_type with
    | TypePrescript =>
        (gcode_type,
         if prescriptCB (panel a)
         then set_prescriptLW (prescriptLW a ++ [line]) a else a)
    | TypeLog => (gcode_type, set_gcodeLW (gcodeLW a ++ [line]) a)
    | TypePostscript =>
        (gcode_type,
         if postscriptCB (panel a)
         then set_postscriptLW (postscriptLW a ++ [line]) a else a)
    end.

(** Lines 579-583. *)
Definition clear_lists (a : App) : App :=
  let a := set_gcodeLW [] a in
  let a := if prescriptCB (panel a) then set_prescriptLW [] a else a in
  if postscriptCB (panel a) then set_postscriptLW [] a else a.

(** [openFile] once the operator has chosen a file, whose content is
    [text]. *)
Definition openFile (text : string) (a : App) : App :=
  snd (fold_left open_line (file_lines text) (TypeLog, clear_lists a)).

(** The three regions of the document. *)
Definition regions (a : App) : list string * list string * list string :=
  (prescriptLW a, gcodeLW a, postscriptLW a).

(* ================================================================== *)
(** ** The specification's words *)

(** SignalEdgeDetector, digital channel: "in logged state" is
    [value == (triggerLogic == ActiveHigh)]. *)
Definition in_logged_state (c : DigitalConfig) (value : bool) : bool :=
  Bool.eqb value (dLogic c).


(** Analog channel: the thresholds are ordered according to the
    on-comparator (for GreaterThan, [onThreshold > offThreshold]). *)
Definition thresholds_ordered (c : AnalogConfig) : bool :=
  match aOnLogic c with
  | GreaterThan => PrimFloat.ltb (aOffValue c) (aOnValue c)
  | LessThan => PrimFloat.ltb (aOnValue c) (aOffValue c)
  end.

(** The value satisfies the on-comparator against [onThreshold]. *)
Definition satisfies_on (c : AnalogConfig) (value : float) : bool :=
  match aOnLogic c with
  | GreaterThan => PrimFloat.ltb (aOnValue c) value
  | LessThan => PrimFloat.ltb value (aOnValue c)
  end.

(** The value satisfies the complementary comparator against
    [offThreshold]. *)
Definition satisfies_off (c : AnalogConfig) (value : float) : bool :=
  match aOnLogic c with
  | GreaterThan => PrimFloat.ltb value (aOffValue c)
  | LessThan => PrimFloat.ltb (aOffValue c) value
  end.

(** The value a label shows, if the axis has a label with a number. *)
Definition label_value `{PyRuntime} (lbs : list (option string)) (axis : nat)
  : option R :=
  match nth_error lbs axis with
  | Some (Some position) => float_of_str position
  | _ => None
  end.

(** The X/Y coordinate pair the labels show (axes 0 and 1). *)
Definition xy_pair `{PyRuntime} (a : App) : option (list R) :=
  match label_value (position_lbs a) 0, label_value (position_lbs a) 1 with
  | Some x, Some y => Some [x; y]
  | _, _ => None
  end.

(** The four region markers of the script file. *)
Definition is_marker (line : string) : bool :=
  (line =? ";prescript_start") || (line =? ";prescript_end")
  || (line =? ";postscript_start") || (line =? ";postscript_end").

(** The line holds neither ['\n'] nor ['\r']. *)
Fixpoint one_line (s : string) : bool :=
  match s with
  | EmptyString => true
  | String c s' => negb (Ascii.eqb c LF) && negb (Ascii.eqb c CR) && one_line s'
  end.

(** A line that is text of one line and no marker. *)
Definition plain_line (s : string) : bool := one_line s && negb (is_marker s).

(** Whether the block of a channel calls [log] on the status [s]. *)
Definition din_fires (s : Stat) (a : App) : bool :=
  fst (digital_edge (din (panel a)) (stat_din s (dInput (din (panel a))))
         (dinLog a)).

Definition dout_fires (s : Stat) (a : App) : bool :=
  fst (digital_edge (dout (panel a)) (stat_dout s (dInput (dout (panel a))))
         (doutLog a)).

Definition ain_fires (s : Stat) (a : App) : bool :=
  a_fire (analog_edge (ain (panel a)) (stat_ain s (aInput (ain (panel a))))
            (ainLog a)).

Definition aout_fires (s : Stat) (a : App) : bool :=
  a_fire (analog_edge (aout (panel a)) (stat_aout s (aInput (aout (panel a))))
            (aoutLog a)).

(* ================================================================== *)
(** ** Worked examples: a runtime and some states *)

(** A runtime for the examples: [float] reads the integer literals,
    which Python reads the same; the formatted text of a float is not
    computed. *)
Definition literal_runtime : PyRuntime := {|
  float_of_str := fun s =>
    match NilZero.int_of_string s with
    | Some d => Some (IZR (Z.of_int d))
    | None => None
    end;
  format_f := fun _ _ => "<float>"
|}.

Definition digital_off : DigitalConfig := Build_DigitalConfig 0 false true.
Definition digital_on : DigitalConfig := Build_DigitalConfig 0 true true.

(** [onThreshold=5, offThreshold=2, onComparator=GreaterThan] *)
Definition analog_5_2 (enabled : bool) : AnalogConfig :=
  Build_AnalogConfig 0 enabled GreaterThan 5%float 2%float.

(** [onThreshold=2, offThreshold=5, onComparator=GreaterThan] *)
Definition analog_2_5 : AnalogConfig :=
  Build_AnalogConfig 0 true GreaterThan 2%float 5%float.

(** A three-axis machine with the given check boxes, move type and
    feed; every channel disabled. *)
Definition example_panel (cbs : list (option bool)) (enable : bool)
  (m : MoveType) (feed radius : string) (d : DigitalConfig) : Panel :=
  Build_Panel cbs Absolute 4 enable m feed radius "" false false true
    "lcnc_logger_img" true true d digital_off (analog_5_2 false)
    (analog_5_2 false).

(** The state after [setupVars], with the given labels, style sheets
    and log lines. *)
Definition example_app (p : Panel) (lbs : list (option string))
  (feed_style radius_style : Style) (lines : list string) : App :=
  Build_App p lbs feed_style radius_style ["G21"] lines ["M2"] None []
    "" None 0 false false false false Unstyled Unstyled [].

Definition xyz_checked : list (option bool) :=
  [Some true; Some true; Some true; None; None; None; None; None; None].

Definition yz_checked : list (option bool) :=
  [Some false; Some true; Some true; None; None; None; None; None; None].

Definition xyz_labels (x y z : string) : list (option string) :=
  [Some x; Some y; Some z; None; None; None; None; None; None].

(** A G2 move with feed and radius entered, before any log. *)
Definition first_arc_app : App :=
  example_app (example_panel xyz_checked true G2 "100" "5" digital_off)
    (xyz_labels "10" "0" "0") White White [].

(** A G1 move whose feed rate entry holds [0], not yet checked. *)
Definition zero_feed_app : App :=
  example_app (example_panel xyz_checked true G1 "0" "" digital_off)
    (xyz_labels "1" "2" "3") Unstyled Unstyled [].

(** A G1 move with no feed rate, the digital input enabled. *)
Definition no_feed_app : App :=
  example_app (example_panel xyz_checked true G1 "" "" digital_on)
    (xyz_labels "1" "2" "3") Yellow White ["G0 X0 Y0 Z0 "].

(** Simple mode with the X check box cleared. *)
Definition yz_app : App :=
  example_app (example_panel yz_checked false G0 "" "" digital_off)
    (xyz_labels "1" "2" "3") White White [].

(** A status whose digital inputs are all high. *)
Definition high_stat : Stat :=
  Build_Stat [1%R; 2%R; 3%R] [] [] [] (fun _ => true) (fun _ => false)
    (fun _ => 0%float) (fun _ => 0%float).

(** A document whose log holds a line that reads as a marker. *)
Definition marker_app : App :=
  example_app (example_panel xyz_checked false G0 "" "" digital_off)
    (xyz_labels "1" "2" "3") White White [";prescript_start"; "G0 X1 "].

(** Three log lines, for the replacement at the cursor. *)
Definition three_lines_app : App :=
  example_app (example_panel xyz_checked false G0 "" "" digital_off)
    (xyz_labels "1" "2" "3") White White ["a"; "b"; "c"].

(* ================================================================== *)
(** ** The context menu of the lists: [eventFilter] (lines 348-379) *)

(** The three list widgets of [self.listWidgets]. *)
Inductive ListSource : Type := GcodeList | PrescriptList | PostscriptList.

(** What [contextMenu.exec_] returns; for 'Delete All Lines' also the
    answer to the dialog 'Delete all items in this list?'. *)
Inductive MenuAction : Type :=
| AddLineAbove
| AddLineBelow
| LogToThisLine          (* only in the menu of gcodeLW *)
| DeleteLine
| DeleteAll (yes : bool)
| Dismissed.             (* the menu was closed without a choice *)

Definition list_of (source : ListSource) (a : App) : list string :=
  match source with
  | GcodeList => gcodeLW a
  | PrescriptList => prescriptLW a
  | PostscriptList => postscriptLW a
  end.

Definition set_list_of (source : ListSource) (v : list string) (a : App)
  : App :=
  match source with
  | GcodeList => set_gcodeLW v a
  | PrescriptList => set_prescriptLW v a
  | PostscriptList => set_postscriptLW v a
  end.

(** [eventFilter] on a context-menu event of one of the lists, whose
    current row is [currentRow] (-1 when the list has no current item). *)
Definition eventFilter (source : ListSource) (currentRow : Z)
  (action : MenuAction) (a : App) : App :=
  match action with
  | AddLineAbove =>
      set_list_of source
        (insertItem currentRow ";new line" (list_of source a)) a
  | AddLineBelow =>
      set_list_of source
        (insertItem (currentRow + 1) ";new line" (list_of source a)) a
  | LogToThisLine =>
      match source with
      | GcodeList => log_to_this_line currentRow a
      | _ => a
      end
  | DeleteLine =>
      set_list_of source (takeItem currentRow (list_of source a)) a
  | DeleteAll true => set_list_of source [] a
  | DeleteAll false => a
  | Dismissed => a
  end.

(** [doubleClickedGcode], [doubleClickedPrescript] and
    [doubleClickedPostscript] (lines 425-444): the item becomes editable
    and the cursor is dropped. *)
Definition doubleClicked (a : App) : App := set_logToLine None a.

(* ================================================================== *)
(** ** [setupAxes] (lines 446-473) *)

(** [self.s.axis_mask & (1<<i)], as a truth value. *)
Definition axis_bit (axis_mask : Z) (i : nat) : bool :=
  negb (Z.land axis_mask (Z.shiftl 1 (Z.of_nat i)) =? 0)%Z.

(** [self.axes]: [[(i) for i in range(9) if self.s.axis_mask & (1<<i)]] *)
Definition axes_of_mask (axis_mask : Z) : list nat :=
  filter (axis_bit axis_mask) (seq 0 9).

(** The loop of lines 463-473 over the indices [indices], from the grid
    position [(row, col)], [bit i] telling whether axis [i] is in the
    mask: for each index the cell of its check box, if the axis is in the
    mask; the label goes to the cell on its right. *)
Fixpoint setup_loop (bit : nat -> bool) (indices : list nat) (row col : nat)
  : list (option (nat * nat)) :=
  match indices with
  | [] => []
  | i :: rest =>
      if bit i then
        Some (row, col)
        :: (if (S row =? 6)%nat
            then setup_loop bit rest 0 2
            else setup_loop bit rest (S row) col)
      else None :: setup_loop bit rest row col
  end.

(** The cell of each check box after [setupAxes]. *)
Definition setup_cells (axis_mask : Z) : list (option (nat * nat)) :=
  setup_loop (axis_bit axis_mask) (seq 0 9) 0 0.

(** [self.axis_cbs] after [setupAxes]: every box made is checked. *)
Definition setup_axis_cbs (axis_mask : Z) : list (option bool) :=
  map (fun cell => match cell with Some _ => Some true | None => None end)
      (setup_cells axis_mask).

(** [self.position_lbs] after [setupAxes]: [QLabel('pos'+str(i))]. *)
Definition setup_position_lbs (axis_mask : Z) : list (option string) :=
  map (fun i => if axis_bit axis_mask i
                then Some ("pos" ++ str_of_int (Z.of_nat i))
                else None)
      (seq 0 9).

(** The cells of the grid that hold a widget: each check box and, on its
    right, its label. *)
Definition occupied_cells (cells : list (option (nat * nat)))
  : list (nat * nat) :=
  flat_map (fun cell => match cell with
                        | Some (row, col) => [(row, col); (row, S col)]
                        | None => []
                        end) cells.

(** No cell occurs twice. *)
Fixpoint distinct_cells (l : list (nat * nat)) : bool :=
  match l with
  | [] => true
  | (r, c) :: rest =>
      negb (existsb (fun x => (fst x =? r)%nat && (snd x =? c)%nat) rest)
      && distinct_cells rest
  end.

(* ================================================================== *)
(** ** Words for the properties of the script file *)

(** A region as it comes back from the file: an empty region is written
    as an empty line. *)
Definition or_blank (l : list string) : list string :=
  match l with
  | [] => [""]
  | _ => l
  end.

(** The list without its last line when that line is empty. *)
Fixpoint without_last_blank (l : list string) : list string :=
  match l with
  | [] => []
  | [x] => if x =? "" then [] else [x]
  | x :: rest => x :: without_last_blank rest
  end.

(* ================================================================== *)
(** ** More states for the worked examples *)

Definition x_checked : list (option bool) :=
  [Some true; Some false; Some false; None; None; None; None; None; None].

(** A G2 move from the last position (0, 0, 0) to the labels
    (10, 0, 0), radius 5. *)
Definition second_arc_app : App :=
  set_lastPosition [0%R; 0%R; 0%R] first_arc_app.

(** A G3 move with only X checked, after a log that recorded one
    value. *)
Definition one_axis_arc_app : App :=
  set_lastPosition [3%R]
    (example_app (example_panel x_checked true G3 "100" "5" digital_off)
       (xyz_labels "10" "0" "0") White White ["G1 X3 F100"]).

(** A G2 move before any log, the digital input enabled. *)
Definition first_arc_din_app : App :=
  example_app (example_panel xyz_checked true G2 "100" "5" digital_on)
    (xyz_labels "10" "0" "0") White White [].

(** [a'] is [a] with at most [n] lines more in the log list, none less,
    and the same prescript, postscript and widgets. *)
Definition grown_by (n : nat) (a a' : App) : Prop :=
  prescriptLW a' = prescriptLW a
  /\ postscriptLW a' = postscriptLW a
  /\ panel a' = panel a
  /\ (List.length (gcodeLW a) <= List.length (gcodeLW a')
      <= List.length (gcodeLW a) + n)%nat.

(** A setter that writes neither a list nor a widget. *)
Definition keeps_script (set : App -> App) : Prop :=
  forall x, grown_by 0 x (set x).

(** Both regions disabled; the log ends with an empty line. *)
Definition plain_log_app : App :=
  example_app
    (Build_Panel xyz_checked Absolute 4 false G0 "" "" "" false false true
       "lcnc_logger_img" false false digital_off digital_off
       (analog_5_2 false) (analog_5_2 false))
    (xyz_labels "1" "2" "3") White White ["G0 X1 "; ""].

(** Every widget of the grid lies in rows 0 to 5 and columns 0 to 3. *)
Definition in_grid (cell : nat * nat) : bool :=
  (fst cell <? 6)%nat && (snd cell <? 4)%nat.

(** The truth values of a mask as a table, and all tables of a given
    length. *)
Definition bit_at (bits : list bool) (i : nat) : bool := nth i bits false.

Fixpoint all_bits (n : nat) : list (list bool) :=
  match n with
  | O => [[]]
  | S n' => map (cons true) (all_bits n') ++ map (cons false) (all_bits n')
  end.

(** The grid of the axes whose bits are [bits] is well laid out. *)
Definition grid_ok (bits : list bool) : bool :=
  distinct_cells (occupied_cells (setup_loop (bit_at bits) (seq 0 9) 0 0))
  && forallb in_grid
       (occupied_cells (setup_loop (bit_at bits) (seq 0 9) 0 0)).

(* ================================================================== *)
(** ** The arc arithmetic in doubles (lines 689-718) *)

(** Python's [+], [-], [*], [/], [==] and [<] on floats are the IEEE
    operations, and so is [math.sqrt], correctly rounded: they are the
    primitive ones.  The other functions belong to the platform's C
    library: [pow] behind [**], and [atan2], [cos] and [sin] behind the
    functions of [math] ([libm_atan2] is CPython's [m_atan2], which sorts
    out the infinities and calls [atan2]). *)
Class LibM : Type := {
  libm_pow : float -> float -> float;
  libm_atan2 : float -> float -> float;   (* atan2(y, x) *)
  libm_cos : float -> float;
  libm_sin : float -> float
}.

(** The exceptions of the arithmetic. *)
Inductive ArithExc : Type :=
| OverflowError      (* 'Numerical result out of range', 'math range error' *)
| MathDomainError.   (* ValueError: 'math domain error' *)

(** A float, or the exception raised in its place. *)
Inductive Arith : Type :=
| Val (x : float)
| Exc (e : ArithExc).

Open Scope float_scope.

Definition is_finite (x : float) : bool :=
  negb (is_nan x) && negb (is_infinity x).

(** [x ** 2], CPython's [float_pow] with the exponent 2.0: the special
    cases it sorts out itself, then [pow] on the absolute value; a result
    that is an infinity is reported as OverflowError, one that underflows
    is returned. *)
Definition float_square `{LibM} (x : float) : Arith :=
  if is_nan x then Val x
  else if is_infinity x then Val infinity
  else if x =? 0 then Val 0
  else if abs x =? 1 then Val 1
  else let ix := libm_pow (abs x) 2 in
       if is_infinity ix then Exc OverflowError else Val ix.

(** [math_1] of CPython's [mathmodule.c], the wrapper of [math.sqrt],
    [math.cos] and [math.sin]: a NaN result of an argument that is none,
    or an infinite result of a finite argument, is a 'math domain
    error'. *)
Definition math_1 (f : float -> float) (x : float) : Arith :=
  let r := f x in
  if is_nan r && negb (is_nan x) then Exc MathDomainError
  else if is_infinity r && is_finite x then Exc MathDomainError
  else Val r.

Definition math_sqrt (x : float) : Arith := math_1 PrimFloat.sqrt x.
Definition math_cos `{LibM} (x : float) : Arith := math_1 libm_cos x.
Definition math_sin `{LibM} (x : float) : Arith := math_1 libm_sin x.

(** [math.atan2(y, x)], through [math_2]. *)
Definition math_atan2 `{LibM} (y x : float) : Arith :=
  let r := libm_atan2 y x in
  if is_nan r && negb (is_nan y) && negb (is_nan x) then Exc MathDomainError
  else if is_infinity r && is_finite y && is_finite x then Exc OverflowError
  else Val r.

(** [math.pi] *)
Definition math_pi : float := 0x1.921fb54442d18p+1.

(** What lines 689-718 come to. *)
Inductive ArcOutcome : Type :=
| IJ (i j : float)                       (* the I and J words are appended *)
| DegenerateMoveError                    (* 'needs a different end point' *)
| RadiusTooSmallError (minimum : float)  (* 'Radius can not be smaller than' *)
| ArcRaises (e : ArithExc).              (* an exception escapes [log] *)

(** Sequencing: an exception ends the computation. *)
Definition arith_bind (r : Arith) (k : float -> ArcOutcome) : ArcOutcome :=
  match r with
  | Val x => k x
  | Exc e => ArcRaises e
  end.

Notation "'let*' x ':=' r 'in' k" := (arith_bind r (fun x => k))
  (at level 10, x name, r at level 100, k at level 200).

(** Lines 689-718 on doubles, from the start point [lastPosition[0..1]],
    the end point [currentPosition[0..1]] and the value of
    [float(self.arcRadiusLE.text())]. *)
Definition arc_lines `{LibM} (d : Direction)
  (start_x start_y end_x end_y radius : float) : ArcOutcome :=
  let dx := end_x - start_x in
  let dy := end_y - start_y in
  if (dx =? 0) && (dy =? 0) then DegenerateMoveError
  else
    let* angle := math_atan2 dy dx in
    let dxMid := dx / 2 in
    let dyMid := dy / 2 in
    let* dx2 := float_square dx in
    let* dy2 := float_square dy in
    let* distance := math_sqrt (dx2 + dy2) in
    if radius <? distance / 2 then RadiusTooSmallError (distance / 2)
    else
      let* radius2 := float_square radius in
      let* half2 := float_square (distance / 2) in
      let* center_offset := math_sqrt (radius2 - half2) in
      let offset_angle :=
        match d with
        | CW => angle - math_pi / 2
        | CCW => angle + math_pi / 2
        end in
      let* c := math_cos offset_angle in
      let i := dxMid + center_offset * c in
      let* s := math_sin offset_angle in
      let j := dyMid + center_offset * s in
      IJ i j.

(** A C library for the examples: the square is the rounded product, as
    a correctly rounded [pow] has it; the other three functions are
    tabulated where an example uses their value, at [atan2(0, x)] for a
    positive [x] and at the angles plus and minus [math.pi/2]. *)
Definition table_libm : LibM := {|
  libm_pow := fun x _ => x * x;
  libm_atan2 := fun _ _ => 0;
  libm_cos := fun _ => 0x1.1a62633145c07p-54;
  libm_sin := fun x => if x <? 0 then -1 else 1
|}.

Close Scope float_scope.

(* ================================================================== *)
(** ** Runs of ticks *)

(** The timer calls [update] every 100 ms.  A run of ticks on the
    statuses [ss] that [poll()] delivers: each status with the state in
    which its tick starts, the state the tick before left, also when an
    exception escaped that tick and was reported. *)
Fixpoint ticks `{PyRuntime} (ss : list Stat) (a : App) : list (Stat * App) :=
  match ss with
  | [] => []
  | s :: rest => (s, a) :: ticks rest (snd (update s a))
  end.

(** The tick returns: no exception escapes [update]. *)
Definition tick_returns `{PyRuntime} (t : Stat * App) : Prop :=
  fst (update (fst t) (snd t)) = None.

(** For each tick of a run, whether the channel calls [log]. *)
Definition fires_of (fires : Stat -> App -> bool) (run : list (Stat * App))
  : list bool :=
  map (fun t => fires (fst t) (snd t)) run.

(** The sample of each channel on a status, as the block of the channel
    reads it. *)
Definition din_value (a : App) (s : Stat) : bool :=
  stat_din s (dInput (din (panel a))).

Definition dout_value (a : App) (s : Stat) : bool :=
  stat_dout s (dInput (dout (panel a))).

Definition ain_value (a : App) (s : Stat) : float :=
  stat_ain s (aInput (ain (panel a))).

Definition aout_value (a : App) (s : Stat) : float :=
  stat_aout s (aInput (aout (panel a))).

(* ================================================================== *)
(** ** States and statuses for the runs *)

Definition none_checked : list (option bool) :=
  [Some false; Some false; Some false; None; None; None; None; None; None].

(** A status with the given digital inputs and analog inputs. *)
Definition sample_stat (d : bool) (v : float) : Stat :=
  Build_Stat [1%R; 2%R; 3%R] [] [] [] (fun _ => d) (fun _ => false)
    (fun _ => v) (fun _ => 0%float).

(** Simple mode with every axis box cleared, so that a log writes the
    comment alone; the digital input is enabled, and so is the analog
    input, with [onThreshold=5, offThreshold=2, onComparator=GreaterThan]. *)
Definition watch_app : App :=
  example_app
    (Build_Panel none_checked Absolute 4 false G0 "" "" "" false false true
       "lcnc_logger_img" true true digital_on digital_off
       (analog_5_2 true) (analog_5_2 false))
    (xyz_labels "1" "2" "3") White White [].

(** A G2 move with every axis box cleared, after a log that recorded two
    values; the digital input and the analog input are enabled as in
    [watch_app]. *)
Definition no_axis_arc_app : App :=
  set_lastPosition [3%R; 4%R]
    (example_app
       (Build_Panel none_checked Absolute 4 true G2 "100" "5" "" false false
          true "lcnc_logger_img" true true digital_on digital_off
          (analog_5_2 true) (analog_5_2 false))
       (xyz_labels "1" "2" "3") White White ["G1 X3 Y4 F100"]).

(** A G2 move with the X box cleared, after a log that recorded Y = 0
    and Z = 0; the labels show X = 1, Y = 10, Z = 0. *)
Definition yz_arc_app : App :=
  set_lastPosition [0%R; 0%R]
    (example_app (example_panel yz_checked true G2 "100" "5" digital_off)
       (xyz_labels "1" "10" "0") White White ["G1 Y0 Z0 F100"]).

(* ================================================================== *)
(** * Properties *)

(** ** Setters *)

Create Rewrite HintDb app_fields.

Lemma document_mbox (m : Message) (a : App) :
  document (mbox m a) = document a.
Proof. reflexivity. Qed.

Lemma latches_mbox (m : Message) (a : App) :
  latches (mbox m a) = latches a.
Proof. reflexivity. Qed.

Lemma document_shown (shown : list Message) (a : App) :
  document (fold_right mbox a shown) = document a.
Proof. induction shown as [|m shown IH]; simpl; [reflexivity | exact IH]. Qed.

Lemma latches_shown (shown : list Message) (a : App) :
  latches (fold_right mbox a shown) = latches a.
Proof. induction shown as [|m shown IH]; simpl; [reflexivity | exact IH]. Qed.

Lemma lastPosition_shown (shown : list Message) (a : App) :
  lastPosition (fold_right mbox a shown) = lastPosition a.
Proof. induction shown as [|m shown IH]; simpl; [reflexivity | exact IH]. Qed.

#[local] Hint Rewrite document_mbox latches_mbox document_shown latches_shown
  lastPosition_shown : app_fields.

(** Lines 655-661 touch neither the document, nor the latches, nor the
    last position, nor what [compose] reads besides [logComment]. *)
Lemma log_comment_frame (a : App) :
  document (log_comment a) = document a
  /\ latches (log_comment a) = latches a
  /\ lastPosition (log_comment a) = lastPosition a
  /\ panel (log_comment a) = panel a
  /\ position_lbs (log_comment a) = position_lbs a
  /\ feedStyle (log_comment a) = feedStyle a
  /\ arcRadiusStyle (log_comment a) = arcRadiusStyle a
  /\ dialogs (log_comment a) = dialogs a.
Proof.
  unfold log_comment, snipFull; simpl.
  destruct (screenShotEnableCB (panel a)); simpl;
    [destruct (imgFileName2CmntCB (panel a)); simpl;
     destruct (autoIncrementCB (panel a)); simpl |];
    repeat split; reflexivity.
Qed.

(* ================================================================== *)
(** ** The digital channels *)


(* ================================================================== *)
(** ** The analog channels *)

Lemma analog_edge_misconfigured (c : AnalogConfig) (value : float)
  (latch : bool) :
  thresholds_ordered c = false ->
  analog_edge c value latch = Build_AnalogStep false latch Yellow.
Proof.
  unfold thresholds_ordered, analog_edge.
  destruct (aOnLogic c); intros ->; reflexivity.
Qed.

Lemma analog_edge_ordered (c : AnalogConfig) (value : float) (latch : bool) :
  thresholds_ordered c = true ->
  analog_edge c value latch
  = if satisfies_on c value && aCB c && negb latch
    then Build_AnalogStep true true White
    else if satisfies_off c value && latch
         then Build_AnalogStep false false White
         else Build_AnalogStep false latch White.
Proof.
  unfold thresholds_ordered, analog_edge, satisfies_on, satisfies_off.
  destruct (aOnLogic c); intros ->; reflexivity.
Qed.

(** C6.  For an analog channel whose thresholds are not ordered
    according to the on-comparator, over any sequence of values and from
    any latch: no sample calls [log], every sample sets the yellow style
    sheet on the threshold boxes (the configuration error shown to the
    operator) and the latch stays as it was; the block of [update] returns
    with nothing but that style and the latch written back.  Thresholds 2
    and 5 with GreaterThan are such a channel. *)
Theorem misconfigured_analog_never_fires :
  forall (c : AnalogConfig) (latch : bool) (vs : list float),
    thresholds_ordered c = false ->
    analog_run c latch vs
    = map (fun _ => Build_AnalogStep false latch Yellow) vs
    /\ (forall (rt : PyRuntime) (v : float) (get : App -> bool)
               (set_latch : bool -> App -> App)
               (set_style : Style -> App -> App) (a : App),
           analog_block c v get set_latch set_style a
           = (None, set_style Yellow (set_latch (get a) a)))
    /\ thresholds_ordered analog_2_5 = false.
Proof.
  intros c latch vs Hbad. split; [|split].
  - induction vs as [|v vs IH]; [reflexivity|].
    cbn [analog_run map].
    rewrite (analog_edge_misconfigured c v latch Hbad). cbn [a_latch].
    rewrite IH. reflexivity.
  - intros rt v get set_latch set_style a. unfold analog_block.
    rewrite (analog_edge_misconfigured c v (get a) Hbad). reflexivity.
  - reflexivity.
Qed.

Lemma misconfigured_analog_witness :
  thresholds_ordered analog_2_5 = false
  /\ (analog_run analog_2_5 false [1%float; 6%float; 6%float; 1%float]
      = map (fun _ => Build_AnalogStep false false Yellow)
            [1%float; 6%float; 6%float; 1%float]
      /\ (forall (rt : PyRuntime) (v : float) (get : App -> bool)
                 (set_latch : bool -> App -> App)
                 (set_style : Style -> App -> App) (a : App),
             analog_block analog_2_5 v get set_latch set_style a
             = (None, set_style Yellow (set_latch (get a) a)))
      /\ thresholds_ordered analog_2_5 = false).
Proof.
  split; [reflexivity|].
  apply (misconfigured_analog_never_fires analog_2_5 false
           [1%float; 6%float; 6%float; 1%float]).
  reflexivity.
Defined.

(* ================================================================== *)
(** ** The arc geometry *)

Lemma same_point_true (dx dy : R) :
  same_point dx dy = true <-> dx = 0%R /\ dy = 0%R.
Proof.
  unfold same_point.
  destruct (Req_dec_T dx 0) as [Hx|Hx]; [destruct (Req_dec_T dy 0) as [Hy|Hy]|];
    split; intros H; try discriminate; try (split; assumption);
    try reflexivity; destruct H; contradiction.
Qed.

Lemma sqrt_100 : sqrt (10 ^ 2 + 0 ^ 2) = 10%R.
Proof.
  replace (10 ^ 2 + 0 ^ 2)%R with (Rsqr 10) by (unfold Rsqr; ring).
  apply sqrt_Rsqr. lra.
Qed.

(* ================================================================== *)
(** ** [log] *)

Section Log.
Context {rt : PyRuntime}.

(** The loop over the axes reads one entry per axis and the value of
    each is what its label shows. *)
Lemma read_axes_complete (lbs : list (option string)) (axes : list nat) :
  snd (read_axes lbs axes) = None ->
  map (fun r => fst (fst r)) (fst (read_axes lbs axes)) = axes
  /\ Forall (fun r => label_value lbs (fst (fst r)) = Some (axis_value r))
            (fst (read_axes lbs axes)).
Proof.
  induction axes as [|axis rest IH]; cbn [read_axes]; [split; constructor|].
  unfold label_value at 1.
  destruct (nth_error lbs axis) as [[position|]|] eqn:Hnth;
    try discriminate.
  destruct (float_of_str position) as [x|] eqn:Hx; try discriminate.
  destruct (read_axes lbs rest) as [read e]. cbn [fst snd] in *.
  intros He. destruct (IH He) as [IH1 IH2]. split.
  - cbn [map fst]. rewrite IH1. reflexivity.
  - constructor; [|exact IH2].
    unfold label_value, axis_value. cbn [fst snd]. rewrite Hnth. exact Hx.
Qed.

(** When [compose] gives a line the labels of the checked axes were all
    read. *)
Lemma compose_read (a : App) (line : string) :
  compose a = Composed line ->
  snd (read_axes (position_lbs a) (checked_axes (axis_cbs (panel a)))) = None.
Proof.
  unfold compose.
  destruct (read_axes (position_lbs a) (checked_axes (axis_cbs (panel a))))
    as [read [e|]]; [discriminate | reflexivity].
Qed.

(** [compose] never returns after the NoPriorPosition dialog. *)
Lemma compose_returned (a : App) (m : Message) :
  compose a = Returned m ->
  m = MissingFeedRate (moveType (panel a))
  \/ m = MissingArcRadius (moveType (panel a))
  \/ m = DegenerateMove (moveType (panel a))
  \/ exists r, m = RadiusTooSmall r.
Proof.
  unfold compose.
  destruct (read_axes (position_lbs a) (checked_axes (axis_cbs (panel a))))
    as [read [e|]]; [discriminate|].
  destruct (moveTypeEnableCB (panel a)); [|discriminate].
  destruct (needs_feed (moveType (panel a))); [|discriminate].
  destruct (negb (is_white (feedStyle a)));
    [intros H; injection H as <-; left; reflexivity|].
  destruct (direction_of (moveType (panel a))) as [d|]; [|discriminate].
  destruct (negb (is_white (arcRadiusStyle a)));
    [intros H; injection H as <-; right; left; reflexivity|].
  destruct (map axis_value read) as [|c0 [|c1 cs]]; try discriminate.
  destruct (lastPosition a) as [|l0 [|l1 ls]]; try discriminate.
  destruct (arc_solve d (c0 - l0) (c1 - l1)
              (float_of_str (arcRadiusLE (panel a)))); try discriminate;
    intros H; injection H as <-.
  - right; right; left; reflexivity.
  - right; right; right. eexists; reflexivity.
Qed.

(** What [write_line] leaves alone. *)
Lemma write_line_frame (line : string) (a : App) :
  panel (write_line line a) = panel a
  /\ position_lbs (write_line line a) = position_lbs a
  /\ prescriptLW (write_line line a) = prescriptLW a
  /\ postscriptLW (write_line line a) = postscriptLW a
  /\ latches (write_line line a) = latches a.
Proof.
  unfold write_line. destruct (logToLine a); repeat split; reflexivity.
Qed.

(** A returning [log] did just the dialog. *)
Lemma log_returned (a : App) (m : Message) :
  fst (log a) = Returned m ->
  compose (log_comment a) = Returned m
  /\ snd (log a) = mbox m (log_comment a).
Proof.
  unfold log. destruct (compose (log_comment a)) as [line|m'|shown e] eqn:Hc.
  - destruct (write_line_frame line (log_comment a)) as (Hp & Hl & _).
    rewrite Hp, Hl.
    destruct (read_axes (position_lbs (log_comment a))
                (checked_axes (axis_cbs (panel (log_comment a)))))
      as [read [e|]]; discriminate.
  - cbn [fst snd]. intros H; injection H as ->. split; reflexivity.
  - discriminate.
Qed.

(** A successful [log] wrote the line, the last position and the
    cursor. *)
Lemma log_composed (a : App) (line : string) :
  fst (log a) = Composed line ->
  compose (log_comment a) = Composed line
  /\ snd (log a)
     = set_logToLine None
         (set_lastPosition
            (map axis_value
               (fst (read_axes (position_lbs a)
                       (checked_axes (axis_cbs (panel a))))))
            (write_line line (log_comment a))).
Proof.
  unfold log. destruct (compose (log_comment a)) as [line'|m'|shown e] eqn:Hc.
  - destruct (write_line_frame line' (log_comment a)) as (Hp & Hl & _).
    rewrite Hp, Hl.
    destruct (log_comment_frame a) as (_ & _ & _ & Hp' & Hl' & _).
    rewrite Hp', Hl'.
    destruct (read_axes (position_lbs a) (checked_axes (axis_cbs (panel a))))
      as [read [e|]]; cbn [fst snd]; [discriminate|].
    intros H; injection H as ->. split; reflexivity.
  - discriminate.
  - discriminate.
Qed.

(** The re-reading of the labels in lines 735-737 cannot raise. *)
Lemma log_raises_in_compose (a : App) (shown : list Message) (e : PyExc) :
  fst (log a) = Raised shown e ->
  compose (log_comment a) = Raised shown e
  /\ snd (log a) = fold_right mbox (log_comment a) shown.
Proof.
  unfold log. destruct (compose (log_comment a)) as [line'|m'|shown' e'] eqn:Hc.
  - pose proof (compose_read _ _ Hc) as Hread.
    destruct (write_line_frame line' (log_comment a)) as (Hp & Hl & _).
    rewrite Hp, Hl.
    destruct (read_axes (position_lbs (log_comment a))
                (checked_axes (axis_cbs (panel (log_comment a)))))
      as [read [e'|]]; cbn [fst snd] in *; discriminate.
  - discriminate.
  - cbn [fst snd]. intros H; injection H as -> ->. split; reflexivity.
Qed.

(** Whatever way [log] ends without a line, the document, the last
    position and the latches are as before. *)
Lemma log_without_line_frame (a : App) :
  (forall line, fst (log a) <> Composed line) ->
  document (snd (log a)) = document a
  /\ lastPosition (snd (log a)) = lastPosition a
  /\ latches (snd (log a)) = latches a.
Proof.
  intros Hno.
  destruct (log_comment_frame a) as (Hd & Hla & Hlp & _).
  destruct (fst (log a)) as [line|m|shown e] eqn:Hfst.
  - exfalso. exact (Hno line eq_refl).
  - destruct (log_returned a m Hfst) as [_ ->].
    autorewrite with app_fields. cbn [mbox lastPosition].
    repeat split; assumption.
  - destruct (log_raises_in_compose a shown e Hfst) as [_ ->].
    autorewrite with app_fields.
    repeat split; assumption.
Qed.

End Log.

(* ================================================================== *)
(** ** Replacing the line at the cursor *)

(** [insertItem] at a row in range, then [takeItem] of the row below. *)
Lemma replace_row (line : string) (l : list string) (n : nat) :
  (n < List.length l)%nat ->
  (firstn (S n) (firstn n l ++ line :: skipn n l)
   ++ skipn (S (S n)) (firstn n l ++ line :: skipn n l)
   = firstn n l ++ line :: skipn (S n) l)%list.
Proof.
  revert n. induction l as [|x l IH]; intros n Hn; [inversion Hn|].
  destruct n as [|n]; [reflexivity|].
  cbn [List.length] in Hn. apply PeanoNat.lt_S_n in Hn.
  specialize (IH n Hn).
  change (firstn (S n) (x :: l)) with (x :: firstn n l).
  change (skipn (S n) (x :: l)) with (skipn n l).
  change (skipn (S (S n)) (x :: l)) with (skipn (S n) l).
  cbn [app]. cbn [firstn skipn app] in *. f_equal. exact IH.
Qed.

Lemma take_insert (line : string) (l : list string) (k : Z) :
  (0 <= k < Z.of_nat (List.length l))%Z ->
  takeItem (k + 1) (insertItem k line l)
  = (firstn (Z.to_nat k) l ++ line :: skipn (S (Z.to_nat k)) l)%list.
Proof.
  intros Hk. unfold insertItem.
  destruct (k <? 0)%Z eqn:Hneg; [apply Z.ltb_lt in Hneg; lia|].
  rewrite Nat.min_l by lia.
  unfold takeItem.
  assert (Hlen : List.length
                   (firstn (Z.to_nat k) l ++ line :: skipn (Z.to_nat k) l)%list
                 = S (List.length l)).
  { rewrite length_app. cbn [List.length]. rewrite length_firstn, length_skipn.
    lia. }
  rewrite Hlen.
  destruct ((k + 1 <? 0) || (Z.of_nat (S (List.length l)) <=? k + 1))%Z
    eqn:Hout.
  - apply orb_true_iff in Hout. destruct Hout as [H|H];
      [apply Z.ltb_lt in H | apply Z.leb_le in H]; lia.
  - replace (Z.to_nat (k + 1)) with (S (Z.to_nat k)) by lia.
    apply replace_row. lia.
Qed.

Lemma replaced_row (line : string) (l : list string) (n : nat) :
  (n < List.length l)%nat ->
  List.length (firstn n l ++ line :: skipn (S n) l)%list = List.length l
  /\ nth_error (firstn n l ++ line :: skipn (S n) l)%list n = Some line
  /\ (forall i, i <> n ->
        nth_error (firstn n l ++ line :: skipn (S n) l)%list i
        = nth_error l i).
Proof.
  revert n. induction l as [|x l IH]; intros n Hn; [inversion Hn|].
  destruct n as [|n].
  - repeat split. intros [|i] Hi; [contradiction|reflexivity].
  - cbn [List.length] in Hn. apply PeanoNat.lt_S_n in Hn.
    destruct (IH n Hn) as (H1 & H2 & H3).
    change (firstn (S n) (x :: l)) with (x :: firstn n l).
    change (skipn (S (S n)) (x :: l)) with (skipn (S n) l).
    cbn [app List.length nth_error]. repeat split.
    + rewrite H1. reflexivity.
    + exact H2.
    + intros [|i] Hi; [reflexivity|]. cbn [nth_error]. apply H3. congruence.
Qed.

(** C9.  For any log list and any row [k] inside it: after 'Log to this
    Line' on row [k] and one [log] that composes a line, the list has the
    length it had, row [k] holds the new line, every other row and the
    prescript and postscript are unchanged, and the cursor is cleared, so
    that the next [log] that composes a line appends it. *)
Theorem replace_at_cursor :
  forall (rt : PyRuntime) (a : App) (k : Z) (line : string),
    (0 <= k < Z.of_nat (List.length (gcodeLW a)))%Z ->
    fst (log (log_to_this_line k a)) = Composed line ->
    List.length (gcodeLW (snd (log (log_to_this_line k a))))
    = List.length (gcodeLW a)
    /\ nth_error (gcodeLW (snd (log (log_to_this_line k a)))) (Z.to_nat k)
       = Some line
    /\ (forall i, i <> Z.to_nat k ->
          nth_error (gcodeLW (snd (log (log_to_this_line k a)))) i
          = nth_error (gcodeLW a) i)
    /\ prescriptLW (snd (log (log_to_this_line k a))) = prescriptLW a
    /\ postscriptLW (snd (log (log_to_this_line k a))) = postscriptLW a
    /\ logToLine (snd (log (log_to_this_line k a))) = None
    /\ (forall line2,
          fst (log (snd (log (log_to_this_line k a)))) = Composed line2 ->
          gcodeLW (snd (log (snd (log (log_to_this_line k a)))))
          = (gcodeLW (snd (log (log_to_this_line k a))) ++ [line2])%list).
Proof.
  intros rt a k line Hk Hlog.
  destruct (log_composed _ _ Hlog) as [_ Hsnd].
  set (b := snd (log (log_to_this_line k a))) in *.
  destruct (log_comment_frame (log_to_this_line k a))
    as (Hdoc & _).
  unfold document in Hdoc. injection Hdoc as Hpre Hg Hpost Hcur.
  cbn [log_to_this_line set_logToLine prescriptLW gcodeLW postscriptLW
       logToLine] in Hpre, Hg, Hpost, Hcur.
  assert (Hlines : gcodeLW b
                   = (firstn (Z.to_nat k) (gcodeLW a)
                      ++ line :: skipn (S (Z.to_nat k)) (gcodeLW a))%list).
  { rewrite Hsnd. cbn [set_logToLine set_lastPosition gcodeLW].
    unfold write_line. rewrite Hcur. cbn [set_gcodeLW gcodeLW].
    rewrite Hg. apply take_insert. exact Hk. }
  assert (Hn : (Z.to_nat k < List.length (gcodeLW a))%nat) by lia.
  destruct (replaced_row line (gcodeLW a) (Z.to_nat k) Hn) as (H1 & H2 & H3).
  assert (Hnone : logToLine b = None) by (rewrite Hsnd; reflexivity).
  rewrite Hlines. repeat split; try assumption.
  - rewrite Hsnd. cbn [set_logToLine set_lastPosition prescriptLW].
    destruct (write_line_frame line (log_comment (log_to_this_line k a)))
      as (_ & _ & -> & _). exact Hpre.
  - rewrite Hsnd. cbn [set_logToLine set_lastPosition postscriptLW].
    destruct (write_line_frame line (log_comment (log_to_this_line k a)))
      as (_ & _ & _ & -> & _). exact Hpost.
  - intros line2 Hlog2.
    destruct (log_composed _ _ Hlog2) as [_ Hsnd2]. rewrite Hsnd2.
    cbn [set_logToLine set_lastPosition gcodeLW].
    destruct (log_comment_frame b) as (Hdoc2 & _).
    unfold document in Hdoc2. injection Hdoc2 as _ Hg2 _ Hcur2.
    unfold write_line. rewrite Hcur2, Hnone. cbn [set_gcodeLW gcodeLW].
    rewrite Hg2, Hlines. reflexivity.
Qed.

Lemma replace_at_cursor_witness :
  (0 <= 1 < Z.of_nat (List.length (gcodeLW three_lines_app)))%Z
  /\ fst (@log literal_runtime (log_to_this_line 1 three_lines_app))
     = Composed "1, 2, 3, "
  /\ gcodeLW (snd (@log literal_runtime (log_to_this_line 1 three_lines_app)))
     = ["a"; "1, 2, 3, "; "c"]
  /\ nth_error
       (gcodeLW (snd (@log literal_runtime
                        (log_to_this_line 1 three_lines_app))))
       (Z.to_nat 1)
     = Some "1, 2, 3, ".
Proof.
  assert (H1 : (0 <= 1 < Z.of_nat (List.length (gcodeLW three_lines_app)))%Z)
    by (cbn; lia).
  assert (H2 : fst (@log literal_runtime (log_to_this_line 1 three_lines_app))
               = Composed "1, 2, 3, ") by (vm_compute; reflexivity).
  split; [exact H1|]. split; [exact H2|]. split; [vm_compute; reflexivity|].
  exact (proj1 (proj2 (replace_at_cursor literal_runtime three_lines_app 1
                         "1, 2, 3, " H1 H2))).
Defined.

(* ================================================================== *)
(** ** Arc moves before any log *)

(** C1, at the code.  An arc move (G2 or G3, move types enabled) with the
    feed rate and the arc radius accepted, the labels readable and
    [lastPosition] empty: [log] shows the NoPriorPosition dialog, does not
    return after it as the other checks do, and the next statement,
    [currentPosition[0] - self.lastPosition[0]], raises IndexError.  The
    document is not changed. *)
Theorem arc_without_prior_position_raises :
  forall (rt : PyRuntime) (a : App) (d : Direction),
    moveTypeEnableCB (panel a) = true ->
    direction_of (moveType (panel a)) = Some d ->
    is_white (feedStyle a) = true ->
    is_white (arcRadiusStyle a) = true ->
    snd (read_axes (position_lbs a) (checked_axes (axis_cbs (panel a))))
    = None ->
    lastPosition a = [] ->
    log a = (Raised [NoPriorPosition (moveType (panel a))] IndexError,
             mbox (NoPriorPosition (moveType (panel a))) (log_comment a))
    /\ document (snd (log a)) = document a.
Proof.
  intros rt a d Hen Hdir Hfeed Hrad Hread Hlast.
  assert (Hlog : log a
                 = (Raised [NoPriorPosition (moveType (panel a))] IndexError,
                    mbox (NoPriorPosition (moveType (panel a)))
                      (log_comment a))).
  { unfold log, compose.
    destruct (log_comment_frame a)
      as (_ & _ & Hlp & Hp & Hl & Hfs & Hrs & _).
    rewrite Hp, Hl, Hfs, Hrs, Hlp.
    destruct (read_axes (position_lbs a) (checked_axes (axis_cbs (panel a))))
      as [read exc]. cbn [snd] in Hread. subst exc.
    rewrite Hen, Hdir, Hfeed, Hrad, Hlast.
    assert (Hneeds : needs_feed (moveType (panel a)) = true)
      by (destruct (moveType (panel a)); try discriminate; reflexivity).
    rewrite Hneeds. cbn [negb].
    destruct (map axis_value read) as [|c0 [|c1 cs]]; reflexivity. }
  split; [exact Hlog|].
  rewrite Hlog. cbn [snd]. rewrite document_mbox.
  apply log_comment_frame.
Qed.

Lemma arc_without_prior_position_witness :
  moveTypeEnableCB (panel first_arc_app) = true
  /\ direction_of (moveType (panel first_arc_app)) = Some CW
  /\ is_white (feedStyle first_arc_app) = true
  /\ is_white (arcRadiusStyle first_arc_app) = true
  /\ snd (@read_axes literal_runtime (position_lbs first_arc_app)
            (checked_axes (axis_cbs (panel first_arc_app)))) = None
  /\ lastPosition first_arc_app = []
  /\ fst (@log literal_runtime first_arc_app)
     = Raised [NoPriorPosition G2] IndexError.
Proof.
  assert (Hread : snd (@read_axes literal_runtime (position_lbs first_arc_app)
                         (checked_axes (axis_cbs (panel first_arc_app))))
                  = None) by (vm_compute; reflexivity).
  repeat (split; [first [exact Hread | reflexivity]|]).
  exact (f_equal fst
           (proj1 (arc_without_prior_position_raises literal_runtime
                     first_arc_app CW eq_refl eq_refl eq_refl eq_refl
                     Hread eq_refl))).
Defined.

(* ================================================================== *)
(** ** The feed rate *)

Section Feed.
Context {rt : PyRuntime}.

(** What [check_lineEdit] does with a text. *)
Lemma check_lineEdit_cases (text : string) :
  (text = "" -> check_lineEdit text = Yellow)
  /\ (text <> "" -> float_of_str text = None -> check_lineEdit text = Red)
  /\ (forall x, text <> "" -> float_of_str text = Some x ->
        (x < 0)%R -> check_lineEdit text = Red)
  /\ (forall x, text <> "" -> float_of_str text = Some x ->
        (0 <= x)%R -> check_lineEdit text = White).
Proof.
  unfold check_lineEdit, str_eq_int. repeat split.
  - intros ->. reflexivity.
  - intros Hne Hf. apply String.eqb_neq in Hne. rewrite Hne, Hf. reflexivity.
  - intros x Hne Hf Hx. apply String.eqb_neq in Hne. rewrite Hne, Hf.
    cbn [orb]. destruct (Rlt_dec x 0); [reflexivity|contradiction].
  - intros x Hne Hf Hx. apply String.eqb_neq in Hne. rewrite Hne, Hf.
    cbn [orb]. destruct (Rlt_dec x 0); [lra|reflexivity].
Qed.

(** A G1, G2 or G3 move whose feed entry is not white is refused with
    the MissingFeedRate dialog. *)
Lemma log_without_feed (a : App) :
  moveTypeEnableCB (panel a) = true ->
  needs_feed (moveType (panel a)) = true ->
  is_white (feedStyle a) = false ->
  snd (read_axes (position_lbs a) (checked_axes (axis_cbs (panel a)))) = None ->
  log a = (Returned (MissingFeedRate (moveType (panel a))),
           mbox (MissingFeedRate (moveType (panel a))) (log_comment a)).
Proof.
  intros Hen Hneeds Hfeed Hread. unfold log, compose.
  destruct (log_comment_frame a) as (_ & _ & _ & Hp & Hl & Hfs & _).
  rewrite Hp, Hl, Hfs.
  destruct (read_axes (position_lbs a) (checked_axes (axis_cbs (panel a))))
    as [read exc]. cbn [snd] in Hread. subst exc.
  rewrite Hen, Hneeds, Hfeed. reflexivity.
Qed.

(** A G1 move whose feed entry is white is logged with the text of the
    entry after [F]. *)
Lemma log_linear_with_feed (a : App) :
  moveTypeEnableCB (panel a) = true ->
  moveType (panel a) = G1 ->
  is_white (feedStyle a) = true ->
  snd (read_axes (position_lbs a) (checked_axes (axis_cbs (panel a)))) = None ->
  fst (log a)
  = Composed
      ((("G1 "
         ++ String.concat ""
              (map axis_word
                 (fst (read_axes (position_lbs a)
                         (checked_axes (axis_cbs (panel a)))))))
        ++ "F" ++ feedLE (panel a))
       ++ (if logCommentLE (panel a) =? "" then ""
           else " ;" ++ logComment (log_comment a))).
Proof.
  intros Hen Hm Hfeed Hread.
  destruct (fst (log a)) as [line|m|shown e] eqn:Hfst.
  - destruct (log_composed a line Hfst) as [Hc _]. revert Hc.
    unfold compose.
    destruct (log_comment_frame a) as (_ & _ & _ & Hp & Hl & Hfs & _).
    rewrite Hp, Hl, Hfs.
    destruct (read_axes (position_lbs a) (checked_axes (axis_cbs (panel a))))
      as [read exc]. cbn [snd fst] in *. subst exc.
    rewrite Hen, Hm, Hfeed. cbn [needs_feed negb direction_of gcode_of].
    intros H; injection H as <-. reflexivity.
  - destruct (log_returned a m Hfst) as [Hc _]. revert Hc.
    unfold compose.
    destruct (log_comment_frame a) as (_ & _ & _ & Hp & Hl & Hfs & _).
    rewrite Hp, Hl, Hfs.
    destruct (read_axes (position_lbs a) (checked_axes (axis_cbs (panel a))))
      as [read exc]. cbn [snd fst] in *. subst exc.
    rewrite Hen, Hm, Hfeed. cbn [needs_feed negb direction_of gcode_of].
    discriminate.
  - destruct (log_raises_in_compose a shown e Hfst) as [Hc _]. revert Hc.
    unfold compose.
    destruct (log_comment_frame a) as (_ & _ & _ & Hp & Hl & Hfs & _).
    rewrite Hp, Hl, Hfs.
    destruct (read_axes (position_lbs a) (checked_axes (axis_cbs (panel a))))
      as [read exc]. cbn [snd fst] in *. subst exc.
    rewrite Hen, Hm, Hfeed. cbn [needs_feed negb direction_of gcode_of].
    discriminate.
Qed.

End Feed.

(** C3, at the code.  With [0] typed into the feed entry of a G1 move,
    [check_lineEdit] leaves the entry white, because its test for zero,
    [float(lineEdit.text() == 0)], compares the text with the integer,
    and [log] writes the line with [F0]. *)
Theorem zero_feed_rate_is_logged :
  @check_lineEdit literal_runtime "0" = White
  /\ feedStyle (@check_feed_arc_radius literal_runtime zero_feed_app) = White
  /\ fst (@log literal_runtime
            (@check_feed_arc_radius literal_runtime zero_feed_app))
     = Composed "G1 X1 Y2 Z3 F0".
Proof.
  assert (Hzero : @check_lineEdit literal_runtime "0" = White).
  { apply (proj2 (proj2 (proj2 (@check_lineEdit_cases literal_runtime "0"))))
      with (x := 0%R); [discriminate | reflexivity | lra]. }
  assert (Hstyle : feedStyle (@check_feed_arc_radius literal_runtime
                                zero_feed_app) = White).
  { unfold check_feed_arc_radius. cbn. exact Hzero. }
  split; [exact Hzero|]. split; [exact Hstyle|].
  rewrite (@log_linear_with_feed literal_runtime).
  - vm_compute. reflexivity.
  - reflexivity.
  - reflexivity.
  - rewrite Hstyle. reflexivity.
  - vm_compute. reflexivity.
Qed.

(* ================================================================== *)
(** ** The last position *)

Lemma checked_axes_xy (rest : list (option bool)) :
  exists others,
    checked_axes (Some true :: Some true :: rest) = 0%nat :: 1%nat :: others.
Proof.
  unfold checked_axes. cbn [List.length seq filter nth_error].
  eexists. reflexivity.
Qed.

(** What [log] reads and records.  After every [log] that composes a
    line (move types or simple mode), [lastPosition] holds the values
    shown by the labels of the checked axes, one per checked axis in axis
    order; it begins with the X/Y pair when the X and Y boxes are both
    checked.  For an arc move the I and J words of the line come from the
    first two entries of [lastPosition] and the first two values of the
    checked axes. *)
Lemma lastPosition_after_log :
  forall (rt : PyRuntime) (a : App) (line : string),
    fst (log a) = Composed line ->
    lastPosition (snd (log a))
    = map axis_value
        (fst (read_axes (position_lbs a) (checked_axes (axis_cbs (panel a)))))
    /\ map (fun r => fst (fst r))
           (fst (read_axes (position_lbs a)
                   (checked_axes (axis_cbs (panel a)))))
       = checked_axes (axis_cbs (panel a))
    /\ Forall (fun r => label_value (position_lbs a) (fst (fst r))
                        = Some (axis_value r))
              (fst (read_axes (position_lbs a)
                      (checked_axes (axis_cbs (panel a)))))
    /\ (forall rest,
          axis_cbs (panel a) = Some true :: Some true :: rest ->
          exists x y more,
            xy_pair a = Some [x; y]
            /\ lastPosition (snd (log a)) = x :: y :: more)
    /\ (forall d,
          moveTypeEnableCB (panel a) = true ->
          direction_of (moveType (panel a)) = Some d ->
          exists c0 c1 cs l0 l1 ls i j words comment,
            map axis_value
              (fst (read_axes (position_lbs a)
                      (checked_axes (axis_cbs (panel a)))))
            = c0 :: c1 :: cs
            /\ lastPosition a = l0 :: l1 :: ls
            /\ arc_solve d (c0 - l0) (c1 - l1)
                 (float_of_str (arcRadiusLE (panel a)))
               = ArcCenter i j
            /\ line = words ++ " I" ++ format_f (precisionSB (panel a)) i
                            ++ " J" ++ format_f (precisionSB (panel a)) j
                            ++ comment).
Proof.
  intros rt a line Hlog.
  destruct (log_composed a line Hlog) as [Hc Hsnd].
  destruct (log_comment_frame a) as (_ & _ & Hlp & Hp & Hl & Hfs & Hrs & _).
  pose proof (compose_read _ _ Hc) as Hread. rewrite Hp, Hl in Hread.
  destruct (read_axes_complete _ _ Hread) as [Haxes Hvalues].
  assert (Hlast : lastPosition (snd (log a))
                  = map axis_value
                      (fst (read_axes (position_lbs a)
                              (checked_axes (axis_cbs (panel a))))))
    by (rewrite Hsnd; reflexivity).
  split; [exact Hlast|]. split; [exact Haxes|]. split; [exact Hvalues|].
  split.
  - intros rest Hcbs. rewrite Hlast.
    destruct (checked_axes_xy rest) as [others Hxy].
    rewrite Hcbs, Hxy in Haxes, Hvalues |- *.
    destruct (fst (read_axes (position_lbs a) (0%nat :: 1%nat :: others)))
      as [|r0 [|r1 rs]]; try discriminate.
    cbn [map] in Haxes. injection Haxes as H0 H1 _.
    inversion Hvalues as [|? ? V0 Hv']; subst.
    inversion Hv' as [|? ? V1 _]; subst.
    rewrite H0 in V0. rewrite H1 in V1.
    exists (axis_value r0), (axis_value r1), (map axis_value rs).
    split; [|reflexivity].
    unfold xy_pair. rewrite V0, V1. reflexivity.
  - intros d Hen Hdir. revert Hc. unfold compose.
    rewrite Hp, Hl, Hfs, Hrs, Hlp.
    destruct (read_axes (position_lbs a) (checked_axes (axis_cbs (panel a))))
      as [read exc]. cbn [fst snd] in *. subst exc.
    rewrite Hen, Hdir.
    assert (Hneeds : needs_feed (moveType (panel a)) = true)
      by (destruct (moveType (panel a)); try discriminate; reflexivity).
    rewrite Hneeds.
    destruct (negb (is_white (feedStyle a))); [discriminate|].
    destruct (negb (is_white (arcRadiusStyle a))); [discriminate|].
    destruct (map axis_value read) as [|c0 [|c1 cs]];
      try (destruct (lastPosition a); discriminate).
    destruct (lastPosition a) as [|l0 [|l1 ls]]; try discriminate.
    destruct (arc_solve d (c0 - l0) (c1 - l1)
                (float_of_str (arcRadiusLE (panel a))))
      as [i j| |r|] eqn:Harc; try discriminate.
    intros H; injection H as <-.
    exists c0, c1, cs, l0, l1, ls, i, j. do 2 eexists.
    repeat split. exact Harc.
Qed.

(** Simple mode with the X box cleared: with the labels showing 1, 2
    and 3 and only Y and Z checked, the log succeeds and [lastPosition]
    is [2, 3], not the X/Y pair [1, 2]. *)
Lemma lastPosition_is_not_the_xy_pair :
  fst (@log literal_runtime yz_app) = Composed "2, 3, "
  /\ @xy_pair literal_runtime yz_app = Some [1%R; 2%R]
  /\ lastPosition (snd (@log literal_runtime yz_app)) = [2%R; 3%R]
  /\ Some (lastPosition (snd (@log literal_runtime yz_app)))
     <> @xy_pair literal_runtime yz_app.
Proof.
  assert (Hlast : lastPosition (snd (@log literal_runtime yz_app))
                  = [2%R; 3%R]) by reflexivity.
  assert (Hxy : @xy_pair literal_runtime yz_app = Some [1%R; 2%R])
    by reflexivity.
  split; [vm_compute; reflexivity|].
  split; [exact Hxy|]. split; [exact Hlast|].
  rewrite Hlast, Hxy. intros H. injection H as H1 H2. lra.
Qed.

(* ================================================================== *)
(** ** Refused attempts *)

Lemma digital_edge_fire (c : DigitalConfig) (value latch : bool) :
  fst (digital_edge c value latch) = true ->
  digital_edge c value latch = (true, true).
Proof.
  unfold digital_edge.
  destruct (dLogic c), value, (dCB c), latch; cbn; intros H;
    first [reflexivity | discriminate].
Qed.

Lemma analog_edge_fire (c : AnalogConfig) (value : float) (latch : bool) :
  a_fire (analog_edge c value latch) = true ->
  analog_edge c value latch = Build_AnalogStep true true White.
Proof.
  unfold analog_edge.
  destruct (aOnLogic c).
  - destruct (PrimFloat.ltb (aOffValue c) (aOnValue c)); [|discriminate].
    destruct (PrimFloat.ltb (aOnValue c) value && aCB c && negb latch);
      [reflexivity|].
    destruct (PrimFloat.ltb value (aOffValue c) && latch); discriminate.
  - destruct (PrimFloat.ltb (aOnValue c) (aOffValue c)); [|discriminate].
    destruct (PrimFloat.ltb value (aOnValue c) && aCB c && negb latch);
      [reflexivity|].
    destruct (PrimFloat.ltb (aOffValue c) value && latch); discriminate.
Qed.

Section Refused.
Context {rt : PyRuntime}.

(** A digital block that fires on a [log] that returns, with or without
    a line, sets the latch and lets the tick go on. *)
Lemma digital_block_fired (c : DigitalConfig) (value : bool)
  (get : App -> bool) (set_latch : bool -> App -> App) (a : App) :
  fst (digital_edge c value (get a)) = true ->
  (forall shown e, fst (log a) <> Raised shown e) ->
  digital_block c value get set_latch a = (None, set_latch true (snd (log a))).
Proof.
  intros Hfire Hok. unfold digital_block.
  rewrite (digital_edge_fire _ _ _ Hfire).
  destruct (log a) as [[line|m|shown e] a']; cbn [fst snd] in *;
    [reflexivity | reflexivity | exfalso; exact (Hok shown e eq_refl)].
Qed.

Lemma analog_block_fired (c : AnalogConfig) (value : float)
  (get : App -> bool) (set_latch : bool -> App -> App)
  (set_style : Style -> App -> App) (a : App) :
  a_fire (analog_edge c value (get a)) = true ->
  (forall shown e, fst (log a) <> Raised shown e) ->
  analog_block c value get set_latch set_style a
  = (None, set_style White (set_latch true (snd (log a)))).
Proof.
  intros Hfire Hok. unfold analog_block.
  rewrite (analog_edge_fire _ _ _ Hfire). cbn [a_fire a_latch a_style].
  destruct (log a) as [[line|m|shown e] a']; cbn [fst snd] in *;
    [reflexivity | reflexivity | exfalso; exact (Hok shown e eq_refl)].
Qed.

End Refused.

(** C7 as stated fails on the latch: a G1 move without feed rate, the
    digital input enabled and high, the latch clear.  The attempt ends in
    MissingFeedRate and leaves the document alone, the tick returns, and
    the latch of the digital input is set. *)
Lemma refused_log_sets_the_latch :
  fst (@log literal_runtime no_feed_app) = Returned (MissingFeedRate G1)
  /\ din_fires high_stat no_feed_app = true
  /\ dinLog no_feed_app = false
  /\ fst (@update_din literal_runtime high_stat no_feed_app) = None
  /\ document (snd (@update_din literal_runtime high_stat no_feed_app))
     = document no_feed_app
  /\ dinLog (snd (@update_din literal_runtime high_stat no_feed_app)) = true
  /\ latches (snd (@update_din literal_runtime high_stat no_feed_app))
     <> latches no_feed_app.
Proof.
  assert (Hlatch : latches (snd (@update_din literal_runtime high_stat
                                   no_feed_app))
                   = (true, false, false, false)) by (vm_compute; reflexivity).
  repeat (split; [vm_compute; reflexivity|]).
  rewrite Hlatch. discriminate.
Qed.

(* ================================================================== *)
(** ** Saving and opening a script *)

Lemma string_app_assoc (s1 s2 s3 : string) :
  (s1 ++ s2) ++ s3 = s1 ++ s2 ++ s3.
Proof.
  induction s1 as [|c s1 IH]; cbn [String.append]; [reflexivity|].
  rewrite IH. reflexivity.
Qed.

(** A text that begins with a line and its ['\n'] reads as that line
    followed by the lines of the rest. *)
Lemma file_lines_line (x rest : string) :
  one_line x = true ->
  universal_newlines (x ++ String LF rest)
  = x ++ String LF (universal_newlines rest)
  /\ lines_of (x ++ String LF (universal_newlines rest))
     = x :: lines_of (universal_newlines rest).
Proof.
  induction x as [|c x IH]; intros Hx.
  - split; reflexivity.
  - cbn [one_line] in Hx.
    apply andb_true_iff in Hx. destruct Hx as [Hc Hx].
    apply andb_true_iff in Hc. destruct Hc as [Hlf Hcr].
    apply negb_true_iff in Hlf. apply negb_true_iff in Hcr.
    destruct (IH Hx) as [IH1 IH2]. split.
    + cbn [String.append universal_newlines]. rewrite Hcr, IH1. reflexivity.
    + cbn [String.append lines_of]. rewrite Hlf, IH2. reflexivity.
Qed.

Lemma file_lines_cons (x rest : string) :
  one_line x = true ->
  file_lines (x ++ nl ++ rest) = x :: file_lines rest.
Proof.
  intros Hx. unfold file_lines, nl. cbn [String.append].
  destruct (file_lines_line x rest Hx) as [-> ->]. reflexivity.
Qed.

(** The lines joined by ['\n'] and followed by one more ['\n'] read back
    as they are. *)
Lemma file_lines_join (l : list string) (rest : string) :
  l <> [] ->
  forallb one_line l = true ->
  file_lines (String.concat nl l ++ nl ++ rest) = (l ++ file_lines rest)%list.
Proof.
  induction l as [|x l IH]; intros Hne Hl; [contradiction|].
  cbn [forallb] in Hl. apply andb_true_iff in Hl. destruct Hl as [Hx Hl].
  destruct l as [|y l].
  - cbn [String.concat app]. apply file_lines_cons. exact Hx.
  - change (String.concat nl (x :: y :: l))
      with (x ++ nl ++ String.concat nl (y :: l)).
    rewrite !string_app_assoc. rewrite (file_lines_cons _ _ Hx).
    rewrite IH; [reflexivity | discriminate | exact Hl].
Qed.

Lemma plain_line_tests (line : string) :
  plain_line line = true ->
  (line =? ";prescript_start") = false
  /\ (line =? ";prescript_end") = false
  /\ (line =? ";postscript_start") = false
  /\ (line =? ";postscript_end") = false.
Proof.
  unfold plain_line, is_marker. intros H.
  apply andb_true_iff in H. destruct H as [_ H].
  apply negb_true_iff in H.
  repeat (apply orb_false_iff in H; destruct H as [H ?]).
  repeat split; assumption.
Qed.

(** The loop of [openFile] over plain lines, in each of the three
    states. *)
Lemma open_prescript_lines (ls : list string) (a : App) :
  prescriptCB (panel a) = true ->
  forallb plain_line ls = true ->
  fold_left open_line ls (TypePrescript, a)
  = (TypePrescript, set_prescriptLW (prescriptLW a ++ ls) a).
Proof.
  revert a. induction ls as [|l ls IH]; intros a Hcb Hls.
  - destruct a. cbn. rewrite app_nil_r. reflexivity.
  - cbn [forallb] in Hls. apply andb_true_iff in Hls. destruct Hls as [Hl Hls].
    destruct (plain_line_tests l Hl) as (T1 & T2 & T3 & T4).
    cbn [fold_left]. unfold open_line at 2. rewrite T1, T2, T3, T4, Hcb.
    rewrite IH; [|exact Hcb|exact Hls].
    cbn. rewrite <- app_assoc. reflexivity.
Qed.

Lemma open_log_lines (ls : list string) (a : App) :
  forallb plain_line ls = true ->
  fold_left open_line ls (TypeLog, a)
  = (TypeLog, set_gcodeLW (gcodeLW a ++ ls) a).
Proof.
  revert a. induction ls as [|l ls IH]; intros a Hls.
  - destruct a. cbn. rewrite app_nil_r. reflexivity.
  - cbn [forallb] in Hls. apply andb_true_iff in Hls. destruct Hls as [Hl Hls].
    destruct (plain_line_tests l Hl) as (T1 & T2 & T3 & T4).
    cbn [fold_left]. unfold open_line at 2. rewrite T1, T2, T3, T4.
    rewrite IH; [|exact Hls].
    cbn. rewrite <- app_assoc. reflexivity.
Qed.

Lemma open_postscript_lines (ls : list string) (a : App) :
  postscriptCB (panel a) = true ->
  forallb plain_line ls = true ->
  fold_left open_line ls (TypePostscript, a)
  = (TypePostscript, set_postscriptLW (postscriptLW a ++ ls) a).
Proof.
  revert a. induction ls as [|l ls IH]; intros a Hcb Hls.
  - destruct a. cbn. rewrite app_nil_r. reflexivity.
  - cbn [forallb] in Hls. apply andb_true_iff in Hls. destruct Hls as [Hl Hls].
    destruct (plain_line_tests l Hl) as (T1 & T2 & T3 & T4).
    cbn [fold_left]. unfold open_line at 2. rewrite T1, T2, T3, T4, Hcb.
    rewrite IH; [|exact Hcb|exact Hls].
    cbn. rewrite <- app_assoc. reflexivity.
Qed.

Lemma plain_lines_one_line (l : list string) :
  forallb plain_line l = true -> forallb one_line l = true.
Proof.
  induction l as [|x l IH]; [reflexivity|].
  cbn [forallb]. intros H. apply andb_true_iff in H. destruct H as [Hx Hl].
  unfold plain_line in Hx. apply andb_true_iff in Hx. destruct Hx as [Hx _].
  rewrite Hx, (IH Hl). reflexivity.
Qed.

(** The lines of the file [save] writes when both regions are enabled
    and none of the three lists is empty. *)
Lemma file_lines_save (a : App) :
  prescriptCB (panel a) = true ->
  postscriptCB (panel a) = true ->
  prescriptLW a <> [] ->
  gcodeLW a <> [] ->
  postscriptLW a <> [] ->
  forallb one_line (prescriptLW a) = true ->
  forallb one_line (gcodeLW a) = true ->
  forallb one_line (postscriptLW a) = true ->
  file_lines (save a)
  = (";prescript_start" :: prescriptLW a
     ++ ";prescript_end" :: gcodeLW a
     ++ ";postscript_start" :: postscriptLW a
     ++ [";postscript_end"])%list.
Proof.
  intros Hp Hq Np Ng Nq Lp Lg Lq. unfold save. rewrite Hp, Hq.
  rewrite !string_app_assoc.
  rewrite (file_lines_cons ";prescript_start") by reflexivity.
  rewrite (file_lines_join (prescriptLW a)) by assumption.
  rewrite (file_lines_cons ";prescript_end") by reflexivity.
  rewrite (file_lines_join (gcodeLW a)) by assumption.
  rewrite (file_lines_cons ";postscript_start") by reflexivity.
  rewrite (file_lines_join (postscriptLW a)) by assumption.
  reflexivity.
Qed.

Lemma clear_lists_checked (b : App) :
  prescriptCB (panel b) = true ->
  postscriptCB (panel b) = true ->
  clear_lists b = set_postscriptLW [] (set_prescriptLW [] (set_gcodeLW [] b)).
Proof.
  intros Hp Hq. destruct b. cbn [panel] in Hp, Hq.
  unfold clear_lists. cbn. rewrite Hp. cbn. rewrite Hq. reflexivity.
Qed.

(** C8, as the code has it.  A document whose prescript, log and
    postscript are non-empty, whose lines hold no line break and are none
    of the four markers, saved with both regions enabled and opened with
    both regions enabled, comes back as it was: the markers are consumed
    and every other line returns to its region. *)
Theorem open_saved_script :
  forall (a b : App),
    prescriptCB (panel a) = true ->
    postscriptCB (panel a) = true ->
    prescriptCB (panel b) = true ->
    postscriptCB (panel b) = true ->
    prescriptLW a <> [] ->
    gcodeLW a <> [] ->
    postscriptLW a <> [] ->
    forallb plain_line (prescriptLW a) = true ->
    forallb plain_line (gcodeLW a) = true ->
    forallb plain_line (postscriptLW a) = true ->
    regions (openFile (save a) b) = regions a.
Proof.
  intros a b Hp Hq Hpb Hqb Np Ng Nq Lp Lg Lq.
  unfold openFile.
  rewrite (file_lines_save a Hp Hq Np Ng Nq
             (plain_lines_one_line _ Lp) (plain_lines_one_line _ Lg)
             (plain_lines_one_line _ Lq)).
  rewrite (clear_lists_checked b Hpb Hqb).
  set (c := set_postscriptLW [] (set_prescriptLW [] (set_gcodeLW [] b))).
  assert (Hpc : prescriptCB (panel c) = true) by exact Hpb.
  assert (Hqc : postscriptCB (panel c) = true) by exact Hqb.
  cbn [fold_left].
  change (open_line (TypeLog, ?s) ";prescript_start") with (TypePrescript, s).
  rewrite fold_left_app, open_prescript_lines by assumption.
  cbn [fold_left].
  change (open_line (TypePrescript, ?s) ";prescript_end") with (TypeLog, s).
  rewrite fold_left_app, open_log_lines by assumption.
  cbn [fold_left].
  change (open_line (TypeLog, ?s) ";postscript_start")
    with (TypePostscript, s).
  rewrite fold_left_app, open_postscript_lines by assumption.
  reflexivity.
Qed.

Lemma open_saved_script_witness :
  prescriptCB (panel three_lines_app) = true
  /\ postscriptCB (panel three_lines_app) = true
  /\ prescriptLW three_lines_app <> []
  /\ gcodeLW three_lines_app <> []
  /\ postscriptLW three_lines_app <> []
  /\ forallb plain_line (prescriptLW three_lines_app) = true
  /\ forallb plain_line (gcodeLW three_lines_app) = true
  /\ forallb plain_line (postscriptLW three_lines_app) = true
  /\ regions (openFile (save three_lines_app) three_lines_app)
     = regions three_lines_app.
Proof.
  repeat (split; [first [reflexivity | discriminate]|]).
  apply (open_saved_script three_lines_app three_lines_app);
    first [reflexivity | discriminate].
Defined.

(** C8 as stated fails on a document with a line that reads as a marker:
    the three regions are non-empty and both regions are enabled, the log
    holds [;prescript_start] and a move; opened again, the move is in the
    prescript and the log is empty. *)
Lemma marker_line_breaks_round_trip :
  prescriptCB (panel marker_app) = true
  /\ postscriptCB (panel marker_app) = true
  /\ regions marker_app = (["G21"], [";prescript_start"; "G0 X1 "], ["M2"])
  /\ regions (openFile (save marker_app) marker_app)
     = (["G21"; "G0 X1 "], [], ["M2"])
  /\ regions (openFile (save marker_app) marker_app) <> regions marker_app.
Proof.
  repeat (split; [vm_compute; reflexivity|]).
  vm_compute. discriminate.
Qed.

(* ================================================================== *)
(** ** A tick of the timer *)

(** Projections of the state through the setters. *)
Ltac app_fields :=
  cbn [panel position_lbs dinLog doutLog ainLog aoutLog
       set_position_lbs set_dinLog set_doutLog set_ainLog set_aoutLog
       set_ainStyle set_aoutStyle].

(** X16.  A tick on which the labels are refreshed and no channel fires
    returns, and leaves the document and the last position alone: the
    four blocks only write their latches and style sheets. *)
Lemma update_quiet (rt : PyRuntime) (s : Stat) (a : App) :
  snd (refresh_labels (display (positionCB (panel a)) s)
         (precisionSB (panel a)) (machine_axes (axis_cbs (panel a)))
         (position_lbs a)) = None ->
  din_fires s a = false ->
  dout_fires s a = false ->
  ain_fires s a = false ->
  aout_fires s a = false ->
  fst (update s a) = None
  /\ document (snd (update s a)) = document a
  /\ lastPosition (snd (update s a)) = lastPosition a.
Proof.
  unfold din_fires, dout_fires, ain_fires, aout_fires, update.
  destruct (refresh_labels (display (positionCB (panel a)) s)
              (precisionSB (panel a)) (machine_axes (axis_cbs (panel a)))
              (position_lbs a)) as [lbs exc].
  cbn [snd]. intros -> Hdin Hdout Hain Haout.
  unfold and_then, update_din, update_dout, update_ain, update_aout,
    digital_block, analog_block.
  app_fields.
  destruct (digital_edge (din (panel a))
              (stat_din s (dInput (din (panel a)))) (dinLog a))
    as [fire1 after1]. cbn [fst] in Hdin. subst fire1.
  app_fields.
  destruct (digital_edge (dout (panel a))
              (stat_dout s (dInput (dout (panel a)))) (doutLog a))
    as [fire2 after2]. cbn [fst] in Hdout. subst fire2.
  app_fields. rewrite Hain. app_fields. rewrite Haout.
  repeat split.
Qed.

(** [log] never writes a latch. *)
Lemma log_latches (rt : PyRuntime) (a : App) :
  latches (snd (log a)) = latches a.
Proof.
  destruct (fst (log a)) as [line|m|shown e] eqn:Hfst.
  - destruct (log_composed a line Hfst) as [_ ->].
    change (latches (write_line line (log_comment a)) = latches a).
    destruct (write_line_frame line (log_comment a)) as (_ & _ & _ & _ & ->).
    apply log_comment_frame.
  - apply log_without_line_frame. intros line. rewrite Hfst. discriminate.
  - apply log_without_line_frame. intros line. rewrite Hfst. discriminate.
Qed.

(* ================================================================== *)
(** * Further properties of the code *)

(** ** Edge detection *)

Lemma digital_edge_disabled (c : DigitalConfig) (value latch : bool) :
  dCB c = false ->
  digital_edge c value latch
  = (false, latch && in_logged_state c value).
Proof.
  intros Hcb. unfold digital_edge, in_logged_state. rewrite Hcb.
  destruct (dLogic c), value, latch; reflexivity.
Qed.

Lemma analog_edge_disabled (c : AnalogConfig) (value : float) (latch : bool) :
  aCB c = false ->
  a_fire (analog_edge c value latch) = false
  /\ (latch = false -> a_latch (analog_edge c value latch) = false).
Proof.
  intros Hcb. unfold analog_edge. rewrite Hcb.
  rewrite !andb_false_r. cbn [andb].
  split; [|intros ->];
    destruct (aOnLogic c);
    repeat match goal with
           | |- context [if ?b then _ else _] => destruct b
           end; reflexivity.
Qed.

(** X1.  A channel whose check box is cleared never calls [log], over any
    sequence of samples and from any latch, digital or analog; and its
    latch, once clear, stays clear. *)
Theorem disabled_channels_never_fire :
  forall (dc : DigitalConfig) (ac : AnalogConfig) (latch : bool)
         (bs : list bool) (fs : list float),
    dCB dc = false ->
    aCB ac = false ->
    fire_count (digital_run dc latch bs) = 0%nat
    /\ fire_count (map a_fire (analog_run ac latch fs)) = 0%nat
    /\ (forall v, snd (digital_edge dc v false) = false)
    /\ (forall v, a_latch (analog_edge ac v false) = false).
Proof.
  intros dc ac latch bs fs Hd Ha. repeat split.
  - revert latch. induction bs as [|b bs IH]; intros latch; [reflexivity|].
    cbn [digital_run]. rewrite (digital_edge_disabled dc b latch Hd).
    cbn [fst snd]. unfold fire_count in *. cbn [filter]. apply IH.
  - revert latch. induction fs as [|f fs IH]; intros latch; [reflexivity|].
    cbn [analog_run map].
    destruct (analog_edge_disabled ac f latch Ha) as [Hfire _].
    unfold fire_count in *. cbn [filter]. rewrite Hfire. apply IH.
  - intros v. rewrite (digital_edge_disabled dc v false Hd). reflexivity.
  - intros v. apply (analog_edge_disabled ac v false Ha). reflexivity.
Qed.

Lemma disabled_channels_witness :
  dCB digital_off = false
  /\ aCB (analog_5_2 false) = false
  /\ fire_count (digital_run digital_off true [true; false; true]) = 0%nat
  /\ fire_count (map a_fire (analog_run (analog_5_2 false) true
                               [6%float; 1%float; 6%float])) = 0%nat.
Proof.
  split; [reflexivity|]. split; [reflexivity|].
  pose proof (disabled_channels_never_fire digital_off (analog_5_2 false)
                true [true; false; true] [6%float; 1%float; 6%float]
                eq_refl eq_refl) as T.
  split; [exact (proj1 T) | exact (proj1 (proj2 T))].
Defined.

(** X3.  Hysteresis.  A validly configured analog channel whose latch is
    set stays latched, and does not fire, over any run of values that do
    not cross the off threshold, whether or not they are beyond the on
    threshold; and a value between the thresholds changes nothing,
    whatever the latch. *)
Theorem latched_analog_holds :
  forall (c : AnalogConfig) (vs : list float),
    thresholds_ordered c = true ->
    forallb (fun v => negb (satisfies_off c v)) vs = true ->
    analog_run c true vs = map (fun _ => Build_AnalogStep false true White) vs
    /\ (forall v latch,
          satisfies_on c v = false -> satisfies_off c v = false ->
          analog_edge c v latch = Build_AnalogStep false latch White).
Proof.
  intros c vs Hord Hvs. split.
  - induction vs as [|v vs IH]; [reflexivity|].
    cbn [forallb] in Hvs. apply andb_true_iff in Hvs. destruct Hvs as [Hv Hvs].
    apply negb_true_iff in Hv.
    cbn [analog_run map]. rewrite (analog_edge_ordered c v true Hord), Hv.
    rewrite andb_false_r. cbn [andb a_latch]. rewrite (IH Hvs). reflexivity.
  - intros v latch Hon Hoff.
    rewrite (analog_edge_ordered c v latch Hord), Hon, Hoff. reflexivity.
Qed.

Lemma latched_analog_holds_witness :
  thresholds_ordered (analog_5_2 true) = true
  /\ forallb (fun v => negb (satisfies_off (analog_5_2 true) v))
             [6%float; 3%float; 2%float; 9%float] = true
  /\ analog_run (analog_5_2 true) true [6%float; 3%float; 2%float; 9%float]
     = map (fun _ => Build_AnalogStep false true White)
           [6%float; 3%float; 2%float; 9%float].
Proof.
  split; [reflexivity|]. split; [reflexivity|].
  exact (proj1 (latched_analog_holds (analog_5_2 true)
                  [6%float; 3%float; 2%float; 9%float] eq_refl eq_refl)).
Defined.

(* ================================================================== *)
(** ** What [log] writes *)

Lemma length_insertItem (row : Z) (text : string) (l : list string) :
  List.length (insertItem row text l) = S (List.length l).
Proof.
  unfold insertItem.
  set (r := if (row <? 0)%Z then 0%nat
            else Nat.min (Z.to_nat row) (List.length l)).
  rewrite length_app. cbn [List.length].
  rewrite length_firstn, length_skipn. lia.
Qed.

Lemma length_takeItem (row : Z) (l : list string) :
  List.length (takeItem row l)
  = if ((row <? 0) || (Z.of_nat (List.length l) <=? row))%Z
    then List.length l else Nat.pred (List.length l).
Proof.
  unfold takeItem.
  destruct ((row <? 0) || (Z.of_nat (List.length l) <=? row))%Z eqn:Hout;
    [reflexivity|].
  apply orb_false_iff in Hout. destruct Hout as [H1 H2].
  apply Z.ltb_ge in H1. apply Z.leb_gt in H2.
  rewrite length_app, length_firstn, length_skipn. lia.
Qed.

(** The lines 727-734 for a row that is no row of the list. *)
Lemma take_insert_outside (line : string) (l : list string) (row : Z) :
  (row = -1 ->
   takeItem (row + 1) (insertItem row line l) = l)%Z
  /\ ((Z.of_nat (List.length l) <= row)%Z ->
      takeItem (row + 1) (insertItem row line l) = (l ++ [line])%list).
Proof.
  split.
  - intros ->. unfold insertItem. cbn [Z.ltb Z.compare firstn skipn app].
    unfold takeItem. cbn [List.length].
    change (-1 + 1)%Z with 0%Z.
    replace ((0 <? 0) || (Z.of_nat (S (List.length l)) <=? 0))%Z with false
      by (symmetry; apply orb_false_iff; split;
          [reflexivity | apply Z.leb_gt; lia]).
    reflexivity.
  - intros Hrow. unfold takeItem. rewrite length_insertItem.
    replace ((row + 1 <? 0) || (Z.of_nat (S (List.length l)) <=? row + 1))%Z
      with true
      by (symmetry; apply orb_true_iff; right; apply Z.leb_le; lia).
    unfold insertItem.
    replace (row <? 0)%Z with false by (symmetry; apply Z.ltb_ge; lia).
    rewrite Nat.min_r by lia.
    rewrite firstn_all, skipn_all. reflexivity.
Qed.

(** X4.  [log] writes the document only together with a line: whenever
    it ends otherwise, after a dialog or by an exception, the three lists,
    the cursor, the last position and the latches are as they were. *)
Theorem log_writes_only_with_a_line :
  forall (rt : PyRuntime) (a : App),
    match fst (log a) with
    | Composed _ => True
    | _ => document (snd (log a)) = document a
           /\ lastPosition (snd (log a)) = lastPosition a
           /\ latches (snd (log a)) = latches a
    end.
Proof.
  intros rt a.
  destruct (fst (log a)) as [line|m|shown e] eqn:Hfst; [exact I| |];
    apply log_without_line_frame; intros line; rewrite Hfst; discriminate.
Qed.

(** X5.  With no cursor set, a [log] that composes a line appends it as
    the last line of the log list and leaves the rest of the document,
    and the latches, as they were. *)
Theorem log_appends_without_cursor :
  forall (rt : PyRuntime) (a : App) (line : string),
    logToLine a = None ->
    fst (log a) = Composed line ->
    gcodeLW (snd (log a)) = (gcodeLW a ++ [line])%list
    /\ prescriptLW (snd (log a)) = prescriptLW a
    /\ postscriptLW (snd (log a)) = postscriptLW a
    /\ logToLine (snd (log a)) = None
    /\ latches (snd (log a)) = latches a.
Proof.
  intros rt a line Hcur Hlog.
  destruct (log_composed a line Hlog) as [_ Hsnd].
  destruct (log_comment_frame a) as (Hdoc & Hlat & _).
  unfold document in Hdoc. injection Hdoc as Hp Hg Hq Hc.
  destruct (write_line_frame line (log_comment a))
    as (_ & _ & Hwp & Hwq & Hwl).
  rewrite Hsnd.
  cbn [set_logToLine set_lastPosition gcodeLW prescriptLW postscriptLW
       logToLine].
  repeat split.
  - unfold write_line. rewrite Hc, Hcur. cbn [set_gcodeLW gcodeLW].
    rewrite Hg. reflexivity.
  - rewrite Hwp. exact Hp.
  - rewrite Hwq. exact Hq.
  - change (latches (write_line line (log_comment a)) = latches a).
    rewrite Hwl. exact Hlat.
Qed.

Lemma log_appends_without_cursor_witness :
  logToLine yz_app = None
  /\ fst (@log literal_runtime yz_app) = Composed "2, 3, "
  /\ gcodeLW (snd (@log literal_runtime yz_app))
     = (gcodeLW yz_app ++ ["2, 3, "])%list.
Proof.
  assert (H : fst (@log literal_runtime yz_app) = Composed "2, 3, ")
    by (vm_compute; reflexivity).
  split; [reflexivity|]. split; [exact H|].
  exact (proj1 (log_appends_without_cursor literal_runtime yz_app "2, 3, "
                  eq_refl H)).
Defined.

(** X6.  A cursor that is no row of the log list.  When 'Log to this
    Line' was chosen with no current item the cursor is -1: the next
    [log] that composes a line inserts it at the top and takes it out
    again, so the list is unchanged and the line is lost.  When the
    cursor is at or beyond the end of the list (lines were deleted since)
    the line is appended.  In both cases the cursor is cleared. *)
Theorem log_with_cursor_outside :
  forall (rt : PyRuntime) (a : App) (row : Z) (line : string),
    logToLine a = Some row ->
    fst (log a) = Composed line ->
    (row = -1 -> gcodeLW (snd (log a)) = gcodeLW a)%Z
    /\ ((Z.of_nat (List.length (gcodeLW a)) <= row)%Z ->
        gcodeLW (snd (log a)) = (gcodeLW a ++ [line])%list)
    /\ logToLine (snd (log a)) = None.
Proof.
  intros rt a row line Hcur Hlog.
  destruct (log_composed a line Hlog) as [_ Hsnd].
  destruct (log_comment_frame a) as (Hdoc & _).
  unfold document in Hdoc. injection Hdoc as _ Hg _ Hc.
  assert (Hlines : gcodeLW (snd (log a))
                   = takeItem (row + 1) (insertItem row line (gcodeLW a))).
  { rewrite Hsnd. cbn [set_logToLine set_lastPosition gcodeLW].
    unfold write_line. rewrite Hc, Hcur. cbn [set_gcodeLW gcodeLW].
    rewrite Hg. reflexivity. }
  destruct (take_insert_outside line (gcodeLW a) row) as [Hminus Hbeyond].
  repeat split.
  - intros Hrow. rewrite Hlines. apply Hminus. exact Hrow.
  - intros Hrow. rewrite Hlines. apply Hbeyond. exact Hrow.
  - rewrite Hsnd. reflexivity.
Qed.

Lemma log_with_cursor_outside_witness :
  logToLine (log_to_this_line (-1) three_lines_app) = Some (-1)%Z
  /\ fst (@log literal_runtime (log_to_this_line (-1) three_lines_app))
     = Composed "1, 2, 3, "
  /\ gcodeLW (snd (@log literal_runtime
                     (log_to_this_line (-1) three_lines_app)))
     = gcodeLW (log_to_this_line (-1) three_lines_app).
Proof.
  assert (H : fst (@log literal_runtime
                     (log_to_this_line (-1) three_lines_app))
              = Composed "1, 2, 3, ") by (vm_compute; reflexivity).
  split; [reflexivity|]. split; [exact H|].
  exact (proj1 (log_with_cursor_outside literal_runtime
                  (log_to_this_line (-1) three_lines_app) (-1)
                  "1, 2, 3, " eq_refl H) eq_refl).
Defined.

(** X7.  Whatever way [log] ends, it leaves the prescript, the
    postscript, the widgets, the labels and the latches as they were, and
    the log list keeps its length or grows by one line: [log] never
    removes a line. *)
Theorem log_never_shrinks :
  forall (rt : PyRuntime) (a : App),
    prescriptLW (snd (log a)) = prescriptLW a
    /\ postscriptLW (snd (log a)) = postscriptLW a
    /\ panel (snd (log a)) = panel a
    /\ position_lbs (snd (log a)) = position_lbs a
    /\ latches (snd (log a)) = latches a
    /\ (List.length (gcodeLW a) <= List.length (gcodeLW (snd (log a)))
        <= S (List.length (gcodeLW a)))%nat.
Proof.
  intros rt a.
  destruct (log_comment_frame a)
    as (Hdoc & Hlat & _ & Hpanel & Hlbs & _).
  unfold document in Hdoc. injection Hdoc as Hp Hg Hq Hc.
  destruct (fst (log a)) as [line|m|shown e] eqn:Hfst.
  - destruct (log_composed a line Hfst) as [_ Hsnd].
    destruct (write_line_frame line (log_comment a))
      as (Hwpanel & Hwlbs & Hwp & Hwq & Hwl).
    rewrite Hsnd.
    cbn [set_logToLine set_lastPosition gcodeLW prescriptLW postscriptLW
         panel position_lbs].
    repeat split; try congruence.
    + change (latches (write_line line (log_comment a)) = latches a).
      congruence.
    + unfold write_line. destruct (logToLine (log_comment a)) as [row|];
        cbn [set_gcodeLW gcodeLW]; rewrite Hg.
      * rewrite length_takeItem, length_insertItem.
        destruct ((row + 1 <? 0)
                  || (Z.of_nat (S (List.length (gcodeLW a))) <=? row + 1))%Z;
          cbn [Nat.pred]; lia.
      * rewrite length_app. cbn [List.length]. lia.
    + unfold write_line. destruct (logToLine (log_comment a)) as [row|];
        cbn [set_gcodeLW gcodeLW]; rewrite Hg.
      * rewrite length_takeItem, length_insertItem.
        destruct ((row + 1 <? 0)
                  || (Z.of_nat (S (List.length (gcodeLW a))) <=? row + 1))%Z;
          cbn [Nat.pred]; lia.
      * rewrite length_app. cbn [List.length]. lia.
  - destruct (log_returned a m Hfst) as [_ ->].
    cbn [mbox prescriptLW postscriptLW panel position_lbs gcodeLW].
    rewrite latches_mbox, Hg. repeat split; try assumption; lia.
  - destruct (log_raises_in_compose a shown e Hfst) as [_ ->].
    rewrite latches_shown.
    pose proof (document_shown shown (log_comment a)) as Hd.
    unfold document in Hd. injection Hd as Hp' Hg' Hq' _.
    rewrite Hp', Hg', Hq', Hg.
    assert (Hsame : panel (fold_right mbox (log_comment a) shown)
                    = panel (log_comment a)
                    /\ position_lbs (fold_right mbox (log_comment a) shown)
                       = position_lbs (log_comment a)).
    { clear. induction shown as [|x shown IH]; [split; reflexivity|].
      cbn [fold_right mbox panel position_lbs]. exact IH. }
    destruct Hsame as [-> ->].
    repeat split; try assumption; lia.
Qed.

(* ================================================================== *)
(** ** The entries and the refusals of [log] *)

Section Entries.
Context {rt : PyRuntime}.

(** An entry is left white exactly when it is not empty and reads as a
    number that is not negative. *)
Lemma check_lineEdit_white (text : string) :
  check_lineEdit text = White
  <-> text <> "" /\ exists x, float_of_str text = Some x /\ (0 <= x)%R.
Proof.
  unfold check_lineEdit, str_eq_int. rewrite orb_false_r.
  destruct (text =? "") eqn:Hempty.
  - apply String.eqb_eq in Hempty. split; [discriminate|].
    intros [Hne _]. contradiction.
  - apply String.eqb_neq in Hempty.
    destruct (float_of_str text) as [x|].
    + destruct (Rlt_dec x 0) as [Hneg|Hpos].
      * split; [discriminate|]. intros (_ & y & Hy & Hle).
        injection Hy as <-. lra.
      * split; [|reflexivity]. intros _. split; [exact Hempty|].
        exists x. split; [reflexivity|lra].
    + split; [discriminate|]. intros (_ & y & Hy & _). discriminate.
Qed.

(** [check_feed_arc_radius] writes the two style sheets and nothing
    else. *)
Lemma check_feed_arc_radius_frame (a : App) :
  panel (check_feed_arc_radius a) = panel a
  /\ position_lbs (check_feed_arc_radius a) = position_lbs a
  /\ lastPosition (check_feed_arc_radius a) = lastPosition a
  /\ document (check_feed_arc_radius a) = document a
  /\ latches (check_feed_arc_radius a) = latches a
  /\ feedStyle (check_feed_arc_radius a)
     = (if needs_feed (moveType (panel a))
        then check_lineEdit (feedLE (panel a)) else White)
  /\ arcRadiusStyle (check_feed_arc_radius a)
     = (if is_arc (moveType (panel a))
        then check_lineEdit (arcRadiusLE (panel a)) else White).
Proof.
  unfold check_feed_arc_radius.
  destruct (needs_feed (moveType (panel a))),
    (is_arc (moveType (panel a))); repeat split.
Qed.

(** With the feed entry white [compose] never ends in MissingFeedRate. *)
Lemma compose_feed_white (a : App) (m : MoveType) :
  is_white (feedStyle a) = true ->
  compose a <> Returned (MissingFeedRate m).
Proof.
  intros Hw. unfold compose.
  destruct (read_axes (position_lbs a) (checked_axes (axis_cbs (panel a))))
    as [read [e|]]; [discriminate|].
  destruct (moveTypeEnableCB (panel a)); [|discriminate].
  destruct (needs_feed (moveType (panel a))); [|discriminate].
  rewrite Hw. cbn [negb].
  destruct (direction_of (moveType (panel a))) as [d|]; [|discriminate].
  destruct (negb (is_white (arcRadiusStyle a))); [discriminate|].
  destruct (map axis_value read) as [|c0 [|c1 cs]]; try discriminate;
    destruct (lastPosition a) as [|l0 [|l1 ls]]; try discriminate.
  destruct (arc_solve d (c0 - l0) (c1 - l1)
              (float_of_str (arcRadiusLE (panel a)))); discriminate.
Qed.

(** An arc move with accepted entries and readable labels, but fewer
    than two values to take X and Y from on either side. *)
Lemma compose_arc_short (a : App) (d : Direction) :
  moveTypeEnableCB (panel a) = true ->
  direction_of (moveType (panel a)) = Some d ->
  is_white (feedStyle a) = true ->
  is_white (arcRadiusStyle a) = true ->
  snd (read_axes (position_lbs a) (checked_axes (axis_cbs (panel a)))) = None ->
  (List.length (checked_axes (axis_cbs (panel a))) < 2
   \/ List.length (lastPosition a) < 2)%nat ->
  compose a
  = Raised match lastPosition a with
           | [] => [NoPriorPosition (moveType (panel a))]
           | _ => []
           end IndexError.
Proof.
  intros Hen Hdir Hfeed Hrad Hread Hshort.
  destruct (read_axes_complete _ _ Hread) as [Haxes _].
  unfold compose.
  destruct (read_axes (position_lbs a) (checked_axes (axis_cbs (panel a))))
    as [read exc]. cbn [fst snd] in *. subst exc.
  rewrite Hen, Hdir, Hfeed, Hrad.
  assert (Hneeds : needs_feed (moveType (panel a)) = true)
    by (destruct (moveType (panel a)); try discriminate; reflexivity).
  rewrite Hneeds. cbn [negb].
  rewrite <- Haxes, length_map in Hshort.
  destruct read as [|r0 [|r1 rs]]; cbn [map];
    destruct (lastPosition a) as [|l0 [|l1 ls]]; try reflexivity.
  cbn [List.length] in Hshort. lia.
Qed.

(** An arc move with accepted entries whose first two values are those
    of the last position. *)
Lemma compose_arc_same (a : App) (d : Direction) (c0 c1 : R)
  (cs ls : list R) :
  moveTypeEnableCB (panel a) = true ->
  direction_of (moveType (panel a)) = Some d ->
  is_white (feedStyle a) = true ->
  is_white (arcRadiusStyle a) = true ->
  snd (read_axes (position_lbs a) (checked_axes (axis_cbs (panel a)))) = None ->
  map axis_value
    (fst (read_axes (position_lbs a) (checked_axes (axis_cbs (panel a)))))
  = c0 :: c1 :: cs ->
  lastPosition a = c0 :: c1 :: ls ->
  compose a = Returned (DegenerateMove (moveType (panel a))).
Proof.
  intros Hen Hdir Hfeed Hrad Hread Hvals Hlast. unfold compose.
  destruct (read_axes (position_lbs a) (checked_axes (axis_cbs (panel a))))
    as [read exc]. cbn [fst snd] in *. subst exc.
  rewrite Hen, Hdir, Hfeed, Hrad, Hvals, Hlast.
  assert (Hneeds : needs_feed (moveType (panel a)) = true)
    by (destruct (moveType (panel a)); try discriminate; reflexivity).
  rewrite Hneeds. cbn [negb]. unfold arc_solve.
  assert (Hsame : same_point (c0 - c0) (c1 - c1) = true)
    by (apply same_point_true; split; ring).
  rewrite Hsame. reflexivity.
Qed.

(** What a [compose] that gives an arc line had to find. *)
Lemma compose_arc_composed (a : App) (d : Direction) (line : string) :
  moveTypeEnableCB (panel a) = true ->
  direction_of (moveType (panel a)) = Some d ->
  compose a = Composed line ->
  is_white (feedStyle a) = true
  /\ is_white (arcRadiusStyle a) = true
  /\ exists c0 c1 cs,
       map axis_value
         (fst (read_axes (position_lbs a)
                 (checked_axes (axis_cbs (panel a)))))
       = c0 :: c1 :: cs.
Proof.
  intros Hen Hdir. unfold compose.
  destruct (read_axes (position_lbs a) (checked_axes (axis_cbs (panel a))))
    as [read [e|]]; [discriminate|]. cbn [fst].
  rewrite Hen, Hdir.
  assert (Hneeds : needs_feed (moveType (panel a)) = true)
    by (destruct (moveType (panel a)); try discriminate; reflexivity).
  rewrite Hneeds.
  destruct (is_white (feedStyle a)); [|discriminate].
  destruct (is_white (arcRadiusStyle a)); [|discriminate]. cbn [negb].
  destruct (map axis_value read) as [|c0 [|c1 cs]];
    try (destruct (lastPosition a); discriminate).
  intros _. repeat split. exists c0, c1, cs. reflexivity.
Qed.

End Entries.

(** X8.  Once [check_feed_arc_radius] has run on the entries as they
    are, a G1, G2 or G3 [log] with readable labels ends in the
    MissingFeedRate dialog exactly when the feed text is empty, is no
    number, or is negative; a feed of 0 is accepted. *)
Theorem feed_gate_after_check :
  forall (rt : PyRuntime) (a : App),
    moveTypeEnableCB (panel a) = true ->
    needs_feed (moveType (panel a)) = true ->
    snd (read_axes (position_lbs a) (checked_axes (axis_cbs (panel a))))
    = None ->
    (fst (log (check_feed_arc_radius a))
     = Returned (MissingFeedRate (moveType (panel a)))
     <-> ~ (feedLE (panel a) <> ""
            /\ exists x, float_of_str (feedLE (panel a)) = Some x
                         /\ (0 <= x)%R)).
Proof.
  intros rt a Hen Hneeds Hread.
  destruct (check_feed_arc_radius_frame a)
    as (Hp & Hl & _ & _ & _ & Hfs & _).
  rewrite Hneeds in Hfs.
  rewrite <- check_lineEdit_white, <- Hfs.
  split.
  - intros Hlog Hwhite.
    destruct (log_returned _ _ Hlog) as [Hc _].
    apply (compose_feed_white (log_comment (check_feed_arc_radius a))
             (moveType (panel a))); [|exact Hc].
    destruct (log_comment_frame (check_feed_arc_radius a))
      as (_ & _ & _ & _ & _ & -> & _).
    rewrite Hwhite. reflexivity.
  - intros Hnot.
    rewrite <- Hp.
    rewrite log_without_feed; [reflexivity | | | |].
    + rewrite Hp. exact Hen.
    + rewrite Hp. exact Hneeds.
    + destruct (feedStyle (check_feed_arc_radius a));
        first [reflexivity | exfalso; apply Hnot; reflexivity].
    + rewrite Hp, Hl. exact Hread.
Qed.

Lemma feed_gate_after_check_witness :
  moveTypeEnableCB (panel no_feed_app) = true
  /\ needs_feed (moveType (panel no_feed_app)) = true
  /\ snd (@read_axes literal_runtime (position_lbs no_feed_app)
            (checked_axes (axis_cbs (panel no_feed_app)))) = None
  /\ fst (@log literal_runtime
            (@check_feed_arc_radius literal_runtime no_feed_app))
     = Returned (MissingFeedRate G1).
Proof.
  assert (Hread : snd (@read_axes literal_runtime (position_lbs no_feed_app)
                         (checked_axes (axis_cbs (panel no_feed_app))))
                  = None) by (vm_compute; reflexivity).
  split; [reflexivity|]. split; [reflexivity|]. split; [exact Hread|].
  apply (proj2 (feed_gate_after_check literal_runtime no_feed_app
                  eq_refl eq_refl Hread)).
  intros [Hne _]. apply Hne. reflexivity.
Defined.

(** X9.  An arc logged twice without moving.  After a G2 or G3 [log]
    that composed a line, a second [log] with the labels and entries
    unchanged is refused with the DegenerateMove dialog, the end point
    being the last position, and adds nothing to the log list. *)
Theorem arc_logged_twice_is_refused :
  forall (rt : PyRuntime) (a : App) (d : Direction) (line : string),
    moveTypeEnableCB (panel a) = true ->
    direction_of (moveType (panel a)) = Some d ->
    fst (log a) = Composed line ->
    fst (log (snd (log a))) = Returned (DegenerateMove (moveType (panel a)))
    /\ gcodeLW (snd (log (snd (log a)))) = gcodeLW (snd (log a)).
Proof.
  intros rt a d line Hen Hdir Hlog.
  destruct (log_composed a line Hlog) as [Hc Hsnd].
  destruct (log_comment_frame a) as (_ & _ & _ & Hp & Hl & Hfs & Hrs & _).
  pose proof (compose_read _ _ Hc) as Hread. rewrite Hp, Hl in Hread.
  destruct (compose_arc_composed (log_comment a) d line)
    as (Hfeed & Hrad & c0 & c1 & cs & Hvals);
    [rewrite Hp; exact Hen | rewrite Hp; exact Hdir | exact Hc |].
  rewrite Hp, Hl in Hvals. rewrite Hfs in Hfeed. rewrite Hrs in Hrad.
  set (b := snd (log a)) in *.
  assert (Hb : panel b = panel a /\ position_lbs b = position_lbs a
               /\ feedStyle b = feedStyle a
               /\ arcRadiusStyle b = arcRadiusStyle a
               /\ lastPosition b = c0 :: c1 :: cs).
  { rewrite Hsnd. unfold write_line.
    destruct (logToLine (log_comment a));
      cbn [set_logToLine set_lastPosition set_gcodeLW panel position_lbs
           feedStyle arcRadiusStyle lastPosition];
      rewrite Hvals; repeat split; assumption. }
  destruct Hb as (Hbp & Hbl & Hbf & Hbr & Hblast).
  destruct (log_comment_frame b)
    as (_ & _ & Hlp' & Hp' & Hl' & Hfs' & Hrs' & _).
  assert (Hc2 : compose (log_comment b)
                = Returned (DegenerateMove (moveType (panel a)))).
  { rewrite <- Hbp, <- Hp'.
    apply (compose_arc_same (log_comment b) d c0 c1 cs cs).
    - rewrite Hp', Hbp. exact Hen.
    - rewrite Hp', Hbp. exact Hdir.
    - rewrite Hfs', Hbf. exact Hfeed.
    - rewrite Hrs', Hbr. exact Hrad.
    - rewrite Hp', Hl', Hbp, Hbl. exact Hread.
    - rewrite Hp', Hl', Hbp, Hbl. exact Hvals.
    - rewrite Hlp'. exact Hblast. }
  assert (Hlog2 : fst (log b)
                  = Returned (DegenerateMove (moveType (panel a)))).
  { unfold log. rewrite Hc2. reflexivity. }
  split; [exact Hlog2|].
  destruct (log_returned b _ Hlog2) as [_ ->].
  cbn [mbox gcodeLW].
  destruct (log_comment_frame b) as (Hdoc & _).
  unfold document in Hdoc. injection Hdoc as _ Hg _ _. exact Hg.
Qed.

(** X10.  An arc move with accepted entries and readable labels raises
    IndexError, with the document unchanged, whenever fewer than two axes
    are checked or the last position holds fewer than two values (the
    previous log had one axis checked); unless the last position is empty
    no dialog is shown before. *)
Theorem arc_needs_two_coordinates :
  forall (rt : PyRuntime) (a : App) (d : Direction),
    moveTypeEnableCB (panel a) = true ->
    direction_of (moveType (panel a)) = Some d ->
    is_white (feedStyle a) = true ->
    is_white (arcRadiusStyle a) = true ->
    snd (read_axes (position_lbs a) (checked_axes (axis_cbs (panel a))))
    = None ->
    (List.length (checked_axes (axis_cbs (panel a))) < 2
     \/ List.length (lastPosition a) < 2)%nat ->
    fst (log a)
    = Raised match lastPosition a with
             | [] => [NoPriorPosition (moveType (panel a))]
             | _ => []
             end IndexError
    /\ document (snd (log a)) = document a
    /\ lastPosition (snd (log a)) = lastPosition a.
Proof.
  intros rt a d Hen Hdir Hfeed Hrad Hread Hshort.
  destruct (log_comment_frame a)
    as (_ & _ & Hlp & Hp & Hl & Hfs & Hrs & _).
  assert (Hc : compose (log_comment a)
               = Raised match lastPosition a with
                        | [] => [NoPriorPosition (moveType (panel a))]
                        | _ => []
                        end IndexError).
  { rewrite <- Hlp, <- Hp. apply (compose_arc_short (log_comment a) d).
    - rewrite Hp. exact Hen.
    - rewrite Hp. exact Hdir.
    - rewrite Hfs. exact Hfeed.
    - rewrite Hrs. exact Hrad.
    - rewrite Hp, Hl. exact Hread.
    - rewrite Hp, Hlp. exact Hshort. }
  assert (Hlog : fst (log a)
                 = Raised match lastPosition a with
                          | [] => [NoPriorPosition (moveType (panel a))]
                          | _ => []
                          end IndexError).
  { unfold log. rewrite Hc. reflexivity. }
  split; [exact Hlog|].
  destruct (log_without_line_frame a) as (Hdoc & Hlast & _);
    [intros line; rewrite Hlog; discriminate|].
  split; assumption.
Qed.

Lemma arc_needs_two_coordinates_witness :
  moveTypeEnableCB (panel one_axis_arc_app) = true
  /\ direction_of (moveType (panel one_axis_arc_app)) = Some CCW
  /\ is_white (feedStyle one_axis_arc_app) = true
  /\ is_white (arcRadiusStyle one_axis_arc_app) = true
  /\ snd (@read_axes literal_runtime (position_lbs one_axis_arc_app)
            (checked_axes (axis_cbs (panel one_axis_arc_app)))) = None
  /\ (List.length (checked_axes (axis_cbs (panel one_axis_arc_app))) < 2
      \/ List.length (lastPosition one_axis_arc_app) < 2)%nat
  /\ fst (@log literal_runtime one_axis_arc_app) = Raised [] IndexError.
Proof.
  assert (Hread : snd (@read_axes literal_runtime
                         (position_lbs one_axis_arc_app)
                         (checked_axes (axis_cbs (panel one_axis_arc_app))))
                  = None) by (vm_compute; reflexivity).
  assert (Hshort : (List.length
                      (checked_axes (axis_cbs (panel one_axis_arc_app))) < 2
                    \/ List.length (lastPosition one_axis_arc_app) < 2)%nat)
    by (left; cbn; lia).
  repeat (split; [first [exact Hread | exact Hshort | reflexivity]|]).
  exact (proj1 (arc_needs_two_coordinates literal_runtime one_axis_arc_app
                  CCW eq_refl eq_refl eq_refl eq_refl Hread Hshort)).
Defined.

(* ================================================================== *)
(** ** More on the arc geometry *)

Open Scope R_scope.

Lemma arc_10_0_radius_5 :
  arc_solve CW (10 - 0) (0 - 0) (Some 5) = ArcCenter 5 0.
Proof.
  unfold arc_solve.
  replace (10 - 0) with 10 by ring. replace (0 - 0) with 0 by ring.
  destruct (same_point 10 0) eqn:Hsame.
  - apply same_point_true in Hsame. lra.
  - rewrite sqrt_100.
    destruct (Rlt_dec 5 (10 / 2)) as [Hlt|_]; [lra|].
    replace (5 ^ 2 - (10 / 2) ^ 2) with 0 by field.
    rewrite sqrt_0. f_equal; field.
Qed.

Close Scope R_scope.

Lemma second_arc_line :
  fst (@log literal_runtime second_arc_app)
  = Composed "G2 X10 Y0 Z0 F100 I<float> J<float>".
Proof.
  unfold log, compose.
  cbv -[arc_solve IZR Rminus].
  rewrite arc_10_0_radius_5.
  cbv -[IZR]. reflexivity.
Qed.

Lemma arc_logged_twice_witness :
  moveTypeEnableCB (panel second_arc_app) = true
  /\ direction_of (moveType (panel second_arc_app)) = Some CW
  /\ fst (@log literal_runtime second_arc_app)
     = Composed "G2 X10 Y0 Z0 F100 I<float> J<float>"
  /\ fst (@log literal_runtime (snd (@log literal_runtime second_arc_app)))
     = Returned (DegenerateMove G2).
Proof.
  split; [reflexivity|]. split; [reflexivity|].
  split; [exact second_arc_line|].
  exact (proj1 (arc_logged_twice_is_refused literal_runtime second_arc_app
                  CW _ eq_refl eq_refl second_arc_line)).
Defined.

(* ================================================================== *)
(** ** Ticks *)

Lemma grown_by_refl (a : App) : grown_by 0 a a.
Proof. unfold grown_by. repeat split; lia. Qed.

Lemma grown_by_trans (n m : nat) (a b c : App) :
  grown_by n a b -> grown_by m b c -> grown_by (n + m) a c.
Proof.
  unfold grown_by. intros (H1 & H2 & H3 & H4) (K1 & K2 & K3 & K4).
  repeat split; try congruence; lia.
Qed.

Lemma grown_by_more (n m : nat) (a b : App) :
  (n <= m)%nat -> grown_by n a b -> grown_by m a b.
Proof.
  unfold grown_by. intros Hnm (H1 & H2 & H3 & H4).
  repeat split; try assumption; lia.
Qed.

Section Ticks.
Context {rt : PyRuntime}.

Lemma log_grown (a : App) : grown_by 1 a (snd (log a)).
Proof.
  destruct (log_comment_frame a) as (Hdoc & _ & _ & Hpanel & _).
  unfold document in Hdoc. injection Hdoc as Hp Hg Hq Hc.
  unfold grown_by.
  destruct (fst (log a)) as [line|m|shown e] eqn:Hfst.
  - destruct (log_composed a line Hfst) as [_ Hsnd].
    destruct (write_line_frame line (log_comment a))
      as (Hwpanel & _ & Hwp & Hwq & _).
    rewrite Hsnd.
    cbn [set_logToLine set_lastPosition gcodeLW prescriptLW postscriptLW
         panel].
    assert (Hlen : (List.length (gcodeLW a)
                    <= List.length (gcodeLW (write_line line (log_comment a)))
                    <= List.length (gcodeLW a) + 1)%nat).
    { unfold write_line. destruct (logToLine (log_comment a)) as [row|];
        cbn [set_gcodeLW gcodeLW]; rewrite Hg.
      - rewrite length_takeItem, length_insertItem.
        destruct ((row + 1 <? 0)
                  || (Z.of_nat (S (List.length (gcodeLW a))) <=? row + 1))%Z;
          cbn [Nat.pred]; lia.
      - rewrite length_app. cbn [List.length]. lia. }
    repeat split; try congruence; lia.
  - destruct (log_returned a m Hfst) as [_ ->].
    cbn [mbox prescriptLW postscriptLW panel gcodeLW].
    rewrite Hg. repeat split; try assumption; lia.
  - destruct (log_raises_in_compose a shown e Hfst) as [_ ->].
    pose proof (document_shown shown (log_comment a)) as Hd.
    unfold document in Hd. injection Hd as Hp' Hg' Hq' _.
    assert (Hsame : panel (fold_right mbox (log_comment a) shown)
                    = panel (log_comment a)).
    { clear. induction shown as [|x shown IH]; [reflexivity|].
      cbn [fold_right mbox panel]. exact IH. }
    rewrite Hp', Hg', Hq', Hg, Hsame.
    repeat split; try assumption; lia.
Qed.

Lemma digital_block_grown (c : DigitalConfig) (value : bool)
  (get : App -> bool) (set_latch : bool -> App -> App) (a : App) :
  (forall v, keeps_script (set_latch v)) ->
  grown_by 1 a (snd (digital_block c value get set_latch a)).
Proof.
  intros Hset. unfold digital_block.
  destruct (digital_edge c value (get a)) as [fire after].
  destruct fire.
  - pose proof (log_grown a) as Hlog.
    destruct (log a) as [[line|m|shown e] a']; cbn [snd] in *;
      try exact Hlog;
      apply (grown_by_trans 1 0 a a' _ Hlog); apply Hset.
  - cbn [snd]. apply (grown_by_more 0 1); [lia|]. apply Hset.
Qed.

Lemma analog_block_grown (c : AnalogConfig) (value : float)
  (get : App -> bool) (set_latch : bool -> App -> App)
  (set_style : Style -> App -> App) (a : App) :
  (forall v, keeps_script (set_latch v)) ->
  (forall v, keeps_script (set_style v)) ->
  grown_by 1 a (snd (analog_block c value get set_latch set_style a)).
Proof.
  intros Hset Hstyle. unfold analog_block.
  destruct (a_fire (analog_edge c value (get a))).
  - pose proof (log_grown a) as Hlog.
    destruct (log a) as [[line|m|shown e] a']; cbn [snd] in *;
      try exact Hlog;
      (apply (grown_by_trans 1 0 a a'); [exact Hlog|]);
      (eapply (grown_by_trans 0 0 a'); [apply Hset | apply Hstyle]).
  - cbn [snd]. apply (grown_by_more 0 1); [lia|].
    eapply (grown_by_trans 0 0 a); [apply Hset | apply Hstyle].
Qed.

Lemma and_then_grown (n m : nat) (a : App) (r : option PyExc * App)
  (k : App -> option PyExc * App) :
  grown_by n a (snd r) ->
  (forall x, grown_by m x (snd (k x))) ->
  grown_by (n + m) a (snd (and_then r k)).
Proof.
  intros Hr Hk. destruct r as [[e|] b]; cbn [and_then snd] in *.
  - apply (grown_by_more n); [lia | exact Hr].
  - apply (grown_by_trans n m a b); [exact Hr | apply Hk].
Qed.

End Ticks.

(** X13.  A tick of [update], however it ends, leaves the prescript, the
    postscript and the widgets as they were, removes no line from the log
    list and adds at most four, one for each channel that fired. *)
Theorem update_adds_at_most_four_lines :
  forall (rt : PyRuntime) (s : Stat) (a : App),
    grown_by 4 a (snd (update s a)).
Proof.
  intros rt s a. unfold update.
  destruct (refresh_labels (display (positionCB (panel a)) s)
              (precisionSB (panel a)) (machine_axes (axis_cbs (panel a)))
              (position_lbs a)) as [lbs exc].
  assert (Hlatch : forall set : bool -> App -> App,
             (forall v x, set v x = set_dinLog v x)
             \/ (forall v x, set v x = set_doutLog v x)
             \/ (forall v x, set v x = set_ainLog v x)
             \/ (forall v x, set v x = set_aoutLog v x) ->
             forall v, keeps_script (set v)).
  { intros set [H|[H|[H|H]]] v x; rewrite H; unfold grown_by;
      repeat split; cbn; lia. }
  assert (Hstyle : forall set : Style -> App -> App,
             (forall v x, set v x = set_ainStyle v x)
             \/ (forall v x, set v x = set_aoutStyle v x) ->
             forall v, keeps_script (set v)).
  { intros set [H|H] v x; rewrite H; unfold grown_by;
      repeat split; cbn; lia. }
  apply (and_then_grown 0 4 a (exc, set_position_lbs lbs a)).
  { unfold grown_by. repeat split; cbn; lia. }
  intros x1. apply (and_then_grown 1 3 x1).
  { apply digital_block_grown. apply Hlatch. left. reflexivity. }
  intros x2. apply (and_then_grown 1 2 x2).
  { apply digital_block_grown. apply Hlatch. right; left. reflexivity. }
  intros x3. apply (and_then_grown 1 1 x3).
  { apply analog_block_grown;
      [apply Hlatch; right; right; left; reflexivity
      |apply Hstyle; left; reflexivity]. }
  intros x4. apply analog_block_grown;
    [apply Hlatch; right; right; right; reflexivity
    |apply Hstyle; right; reflexivity].
Qed.

(** X14.  An exception that escapes [log] in the digital-input block
    ends the block before the latch is assigned: the exception escapes
    the block, the document and all four latches are as they were, and
    on the same status the block fires again.  In [update] the blocks
    after it are not run. *)
Theorem raising_log_leaves_latch_clear :
  forall (rt : PyRuntime) (s : Stat) (a : App) (shown : list Message)
         (e : PyExc),
    din_fires s a = true ->
    fst (log a) = Raised shown e ->
    update_din s a = (Some e, snd (log a))
    /\ document (snd (update_din s a)) = document a
    /\ latches (snd (update_din s a)) = latches a
    /\ din_fires s (snd (update_din s a)) = true
    /\ (forall k, and_then (update_din s a) k = (Some e, snd (log a))).
Proof.
  intros rt s a shown e Hfire Hlog.
  assert (Hblock : update_din s a = (Some e, snd (log a))).
  { unfold update_din, digital_block. unfold din_fires in Hfire.
    rewrite (digital_edge_fire _ _ _ Hfire).
    destruct (log a) as [[line|m|shown' e'] a']; cbn [fst snd] in *;
      try discriminate.
    injection Hlog as _ ->. reflexivity. }
  destruct (log_without_line_frame a) as (Hdoc & _ & Hlat);
    [intros line; rewrite Hlog; discriminate|].
  destruct (log_raises_in_compose a shown e Hlog) as [_ Hsnd].
  rewrite Hblock. cbn [snd]. repeat split; try assumption.
  unfold din_fires in *.
  assert (Hpanel : panel (snd (log a)) = panel a).
  { rewrite Hsnd. destruct (log_comment_frame a) as (_ & _ & _ & <- & _).
    clear. induction shown as [|x shown IH]; [reflexivity|].
    cbn [fold_right mbox panel]. exact IH. }
  unfold latches in Hlat. injection Hlat as Hdin _ _ _.
  rewrite Hpanel, Hdin. exact Hfire.
Qed.

Lemma raising_log_witness :
  din_fires high_stat first_arc_din_app = true
  /\ fst (@log literal_runtime first_arc_din_app)
     = Raised [NoPriorPosition G2] IndexError
  /\ fst (@update_din literal_runtime high_stat first_arc_din_app)
     = Some IndexError
  /\ latches (snd (@update_din literal_runtime high_stat first_arc_din_app))
     = latches first_arc_din_app.
Proof.
  assert (H : fst (@log literal_runtime first_arc_din_app)
              = Raised [NoPriorPosition G2] IndexError)
    by (vm_compute; reflexivity).
  pose proof (raising_log_leaves_latch_clear literal_runtime high_stat
                first_arc_din_app _ _ eq_refl H) as T.
  split; [reflexivity|]. split; [exact H|].
  split; [exact (f_equal fst (proj1 T))|].
  exact (proj1 (proj2 (proj2 T))).
Defined.

Lemma update_quiet_witness :
  snd (@refresh_labels literal_runtime
         (display (positionCB (panel yz_app)) high_stat)
         (precisionSB (panel yz_app)) (machine_axes (axis_cbs (panel yz_app)))
         (position_lbs yz_app)) = None
  /\ din_fires high_stat yz_app = false
  /\ dout_fires high_stat yz_app = false
  /\ ain_fires high_stat yz_app = false
  /\ aout_fires high_stat yz_app = false
  /\ fst (@update literal_runtime high_stat yz_app) = None
  /\ document (snd (@update literal_runtime high_stat yz_app))
     = document yz_app.
Proof.
  assert (H : snd (@refresh_labels literal_runtime
                     (display (positionCB (panel yz_app)) high_stat)
                     (precisionSB (panel yz_app))
                     (machine_axes (axis_cbs (panel yz_app)))
                     (position_lbs yz_app)) = None)
    by (vm_compute; reflexivity).
  pose proof (update_quiet literal_runtime high_stat yz_app H
                eq_refl eq_refl eq_refl eq_refl) as T.
  split; [exact H|]. do 4 (split; [reflexivity|]).
  split; [exact (proj1 T) | exact (proj1 (proj2 T))].
Defined.

(* ================================================================== *)
(** ** More on the script file *)

Lemma marker_tests (line : string) :
  is_marker line = false ->
  (line =? ";prescript_start") = false
  /\ (line =? ";prescript_end") = false
  /\ (line =? ";postscript_start") = false
  /\ (line =? ";postscript_end") = false.
Proof.
  unfold is_marker. intros H.
  repeat (apply orb_false_iff in H; destruct H as [H ?]).
  repeat split; assumption.
Qed.

(** The loop of [openFile] over lines of which none is a marker, outside
    any region. *)
Lemma open_unmarked_lines (ls : list string) (a : App) :
  forallb (fun l => negb (is_marker l)) ls = true ->
  fold_left open_line ls (TypeLog, a)
  = (TypeLog, set_gcodeLW (gcodeLW a ++ ls) a).
Proof.
  revert a. induction ls as [|l ls IH]; intros a Hls.
  - destruct a. cbn. rewrite app_nil_r. reflexivity.
  - cbn [forallb] in Hls. apply andb_true_iff in Hls. destruct Hls as [Hl Hls].
    apply negb_true_iff in Hl.
    destruct (marker_tests l Hl) as (T1 & T2 & T3 & T4).
    cbn [fold_left]. unfold open_line at 2. rewrite T1, T2, T3, T4.
    rewrite IH; [|exact Hls].
    cbn. rewrite <- app_assoc. reflexivity.
Qed.

(** A text of one line, without the ['\n'] after it. *)
Lemma file_lines_last (x : string) :
  one_line x = true ->
  file_lines x = if x =? "" then [] else [x].
Proof.
  unfold file_lines.
  assert (H : forall y, one_line y = true ->
                universal_newlines y = y
                /\ lines_of y = match y with
                                | EmptyString => []
                                | _ => [y]
                                end).
  { induction y as [|c y IH]; intros Hy; [split; reflexivity|].
    cbn [one_line] in Hy.
    apply andb_true_iff in Hy. destruct Hy as [Hc Hy].
    apply andb_true_iff in Hc. destruct Hc as [Hlf Hcr].
    apply negb_true_iff in Hlf. apply negb_true_iff in Hcr.
    destruct (IH Hy) as [IH1 IH2]. split.
    - cbn [universal_newlines]. rewrite Hcr, IH1. reflexivity.
    - cbn [lines_of]. rewrite Hlf, IH2. destruct y; reflexivity. }
  intros Hx. destruct (H x Hx) as [-> ->]. destruct x; reflexivity.
Qed.

(** The lines joined by ['\n'], with no ['\n'] after the last. *)
Lemma file_lines_concat (l : list string) :
  forallb one_line l = true ->
  file_lines (String.concat nl l) = without_last_blank l.
Proof.
  induction l as [|x l IH]; intros Hl; [reflexivity|].
  cbn [forallb] in Hl. apply andb_true_iff in Hl. destruct Hl as [Hx Hl].
  destruct l as [|y l].
  - cbn [String.concat without_last_blank]. apply file_lines_last. exact Hx.
  - change (String.concat nl (x :: y :: l))
      with (x ++ nl ++ String.concat nl (y :: l)).
    rewrite (file_lines_cons _ _ Hx), (IH Hl). reflexivity.
Qed.

(** The lines joined by ['\n'] and followed by one more: an empty list
    reads back as one empty line. *)
Lemma file_lines_join_blank (l : list string) (rest : string) :
  forallb one_line l = true ->
  file_lines (String.concat nl l ++ nl ++ rest)
  = (or_blank l ++ file_lines rest)%list.
Proof.
  intros Hl. destruct l as [|x l].
  - cbn [String.concat or_blank app]. apply (file_lines_cons "" rest).
    reflexivity.
  - apply file_lines_join; [discriminate | exact Hl].
Qed.

Lemma or_blank_plain (l : list string) :
  forallb plain_line l = true -> forallb plain_line (or_blank l) = true.
Proof. destruct l; [reflexivity | intros H; exact H]. Qed.

(** What [openFile] keeps, whatever the file holds: the widgets, and a
    prescript or postscript whose check box is cleared; and no line it
    loads is a marker. *)
Lemma open_lines_invariant (ls : list string) (t : GcodeType) (a : App) :
  let b := snd (fold_left open_line ls (t, a)) in
  panel b = panel a
  /\ (prescriptCB (panel a) = false -> prescriptLW b = prescriptLW a)
  /\ (postscriptCB (panel a) = false -> postscriptLW b = postscriptLW a)
  /\ (forallb (fun l => negb (is_marker l)) (gcodeLW a) = true ->
      forallb (fun l => negb (is_marker l)) (gcodeLW b) = true)
  /\ (forallb (fun l => negb (is_marker l)) (prescriptLW a) = true ->
      forallb (fun l => negb (is_marker l)) (prescriptLW b) = true)
  /\ (forallb (fun l => negb (is_marker l)) (postscriptLW a) = true ->
      forallb (fun l => negb (is_marker l)) (postscriptLW b) = true).
Proof.
  revert t a. induction ls as [|l ls IH]; intros t a; cbn zeta.
  - cbn [fold_left snd]. repeat split; intros H; exact H.
  - cbn [fold_left].
    destruct (open_line (t, a) l) as [t' a'] eqn:Hstep.
    specialize (IH t' a'). cbn zeta in IH.
    destruct IH as (I1 & I2 & I3 & I4 & I5 & I6).
    assert (Hstep' :
              panel a' = panel a
              /\ (prescriptCB (panel a) = false
                  -> prescriptLW a' = prescriptLW a)
              /\ (postscriptCB (panel a) = false
                  -> postscriptLW a' = postscriptLW a)
              /\ (forallb (fun l => negb (is_marker l)) (gcodeLW a) = true ->
                  forallb (fun l => negb (is_marker l)) (gcodeLW a') = true)
              /\ (forallb (fun l => negb (is_marker l)) (prescriptLW a) = true
                  -> forallb (fun l => negb (is_marker l)) (prescriptLW a')
                     = true)
              /\ (forallb (fun l => negb (is_marker l)) (postscriptLW a) = true
                  -> forallb (fun l => negb (is_marker l)) (postscriptLW a')
                     = true)).
    { revert Hstep. unfold open_line.
      destruct (l =? ";prescript_start") eqn:T1;
        [intros H; injection H as _ <-; repeat split; intros K; exact K|].
      destruct (l =? ";prescript_end") eqn:T2;
        [intros H; injection H as _ <-; repeat split; intros K; exact K|].
      destruct (l =? ";postscript_start") eqn:T3;
        [intros H; injection H as _ <-; repeat split; intros K; exact K|].
      destruct (l =? ";postscript_end") eqn:T4;
        [intros H; injection H as _ <-; repeat split; intros K; exact K|].
      assert (Hl : negb (is_marker l) = true)
        by (unfold is_marker; rewrite T1, T2, T3, T4; reflexivity).
      destruct t; intros H; injection H as _ <-.
      - cbn [set_gcodeLW panel prescriptLW postscriptLW gcodeLW].
        repeat split; try (intros K; exact K).
        intros K. rewrite forallb_app, K. cbn [forallb]. rewrite Hl.
        reflexivity.
      - destruct (prescriptCB (panel a)) eqn:Hcb;
          cbn [set_prescriptLW panel prescriptLW postscriptLW gcodeLW];
          repeat split; try (intros K; exact K); try discriminate.
        intros K. rewrite forallb_app, K. cbn [forallb]. rewrite Hl.
        reflexivity.
      - destruct (postscriptCB (panel a)) eqn:Hcb;
          cbn [set_postscriptLW panel prescriptLW postscriptLW gcodeLW];
          repeat split; try (intros K; exact K); try discriminate.
        intros K. rewrite forallb_app, K. cbn [forallb]. rewrite Hl.
        reflexivity. }
    destruct Hstep' as (S1 & S2 & S3 & S4 & S5 & S6).
    rewrite S1 in I2, I3.
    repeat split.
    + congruence.
    + intros K. rewrite (I2 K). exact (S2 K).
    + intros K. rewrite (I3 K). exact (S3 K).
    + intros K. exact (I4 (S4 K)).
    + intros K. exact (I5 (S5 K)).
    + intros K. exact (I6 (S6 K)).
Qed.

Lemma string_app_nil_r (s : string) : s ++ "" = s.
Proof.
  induction s as [|c s IH]; [reflexivity|].
  cbn [String.append]. rewrite IH. reflexivity.
Qed.

Lemma plain_lines_unmarked (l : list string) :
  forallb plain_line l = true ->
  forallb (fun x => negb (is_marker x)) l = true.
Proof.
  induction l as [|x l IH]; [reflexivity|].
  cbn [forallb]. intros H. apply andb_true_iff in H. destruct H as [Hx Hl].
  unfold plain_line in Hx. apply andb_true_iff in Hx. destruct Hx as [_ Hx].
  rewrite Hx, (IH Hl). reflexivity.
Qed.

Lemma without_last_blank_forallb (P : string -> bool) (l : list string) :
  forallb P l = true -> forallb P (without_last_blank l) = true.
Proof.
  induction l as [|x l IH]; [reflexivity|].
  cbn [forallb]. intros H. apply andb_true_iff in H. destruct H as [Hx Hl].
  destruct l as [|y l].
  - cbn [without_last_blank]. destruct (x =? ""); [reflexivity|].
    cbn [forallb]. rewrite Hx. reflexivity.
  - change (without_last_blank (x :: y :: l))
      with (x :: without_last_blank (y :: l)).
    cbn [forallb]. rewrite Hx, (IH Hl). reflexivity.
Qed.

Lemma clear_lists_fields (a : App) :
  gcodeLW (clear_lists a) = []
  /\ prescriptLW (clear_lists a)
     = (if prescriptCB (panel a) then [] else prescriptLW a)
  /\ postscriptLW (clear_lists a)
     = (if postscriptCB (panel a) then [] else postscriptLW a)
  /\ panel (clear_lists a) = panel a
  /\ logToLine (clear_lists a) = logToLine a
  /\ lastPosition (clear_lists a) = lastPosition a
  /\ latches (clear_lists a) = latches a.
Proof.
  destruct a as [p lbs fs rs pre g post cur lastp cmt img idx
                 l1 l2 l3 l4 st1 st2 dlg].
  unfold clear_lists. cbn.
  destruct (prescriptCB p); cbn; destruct (postscriptCB p); repeat split.
Qed.

(** The loop of [openFile] writes the three lists only. *)
Lemma open_lines_frame (ls : list string) (t : GcodeType) (a : App) :
  logToLine (snd (fold_left open_line ls (t, a))) = logToLine a
  /\ lastPosition (snd (fold_left open_line ls (t, a))) = lastPosition a
  /\ latches (snd (fold_left open_line ls (t, a))) = latches a.
Proof.
  revert t a. induction ls as [|l ls IH]; intros t a;
    [repeat split|].
  cbn [fold_left].
  destruct (open_line (t, a) l) as [t' a'] eqn:Hstep.
  destruct (IH t' a') as (I1 & I2 & I3). rewrite I1, I2, I3.
  revert Hstep. unfold open_line.
  repeat match goal with
         | |- context [if ?b then _ else _] => destruct b
         end;
    try (intros H; injection H as _ <-; repeat split);
    destruct t; intros H; injection H as _ <-; repeat split.
Qed.

(** X17.  A document saved with both regions enabled and opened with both
    enabled, its lines plain: every non-empty region comes back as it
    was, and an empty region comes back as one empty line. *)
Theorem empty_region_returns_as_blank_line :
  forall (a b : App),
    prescriptCB (panel a) = true ->
    postscriptCB (panel a) = true ->
    prescriptCB (panel b) = true ->
    postscriptCB (panel b) = true ->
    forallb plain_line (prescriptLW a) = true ->
    forallb plain_line (gcodeLW a) = true ->
    forallb plain_line (postscriptLW a) = true ->
    regions (openFile (save a) b)
    = (or_blank (prescriptLW a), or_blank (gcodeLW a),
       or_blank (postscriptLW a)).
Proof.
  intros a b Hp Hq Hpb Hqb Lp Lg Lq.
  assert (Hlines : file_lines (save a)
                   = (";prescript_start" :: or_blank (prescriptLW a)
                      ++ ";prescript_end" :: or_blank (gcodeLW a)
                      ++ ";postscript_start" :: or_blank (postscriptLW a)
                      ++ [";postscript_end"])%list).
  { unfold save. rewrite Hp, Hq. rewrite !string_app_assoc.
    rewrite (file_lines_cons ";prescript_start") by reflexivity.
    rewrite (file_lines_join_blank (prescriptLW a))
      by (apply plain_lines_one_line; exact Lp).
    rewrite (file_lines_cons ";prescript_end") by reflexivity.
    rewrite (file_lines_join_blank (gcodeLW a))
      by (apply plain_lines_one_line; exact Lg).
    rewrite (file_lines_cons ";postscript_start") by reflexivity.
    rewrite (file_lines_join_blank (postscriptLW a))
      by (apply plain_lines_one_line; exact Lq).
    reflexivity. }
  unfold openFile. rewrite Hlines.
  rewrite (clear_lists_checked b Hpb Hqb).
  set (c := set_postscriptLW [] (set_prescriptLW [] (set_gcodeLW [] b))).
  assert (Hpc : prescriptCB (panel c) = true) by exact Hpb.
  assert (Hqc : postscriptCB (panel c) = true) by exact Hqb.
  apply or_blank_plain in Lp. apply or_blank_plain in Lg.
  apply or_blank_plain in Lq.
  cbn [fold_left].
  change (open_line (TypeLog, ?s) ";prescript_start") with (TypePrescript, s).
  rewrite fold_left_app, open_prescript_lines by assumption.
  cbn [fold_left].
  change (open_line (TypePrescript, ?s) ";prescript_end") with (TypeLog, s).
  rewrite fold_left_app, open_log_lines by assumption.
  cbn [fold_left].
  change (open_line (TypeLog, ?s) ";postscript_start")
    with (TypePostscript, s).
  rewrite fold_left_app, open_postscript_lines by assumption.
  reflexivity.
Qed.

Lemma empty_region_witness :
  prescriptCB (panel first_arc_app) = true
  /\ postscriptCB (panel first_arc_app) = true
  /\ forallb plain_line (prescriptLW first_arc_app) = true
  /\ forallb plain_line (gcodeLW first_arc_app) = true
  /\ forallb plain_line (postscriptLW first_arc_app) = true
  /\ gcodeLW first_arc_app = []
  /\ regions (openFile (save first_arc_app) first_arc_app)
     = (["G21"], [""], ["M2"]).
Proof.
  repeat (split; [reflexivity|]).
  exact (empty_region_returns_as_blank_line first_arc_app first_arc_app
           eq_refl eq_refl eq_refl eq_refl eq_refl eq_refl eq_refl).
Defined.

(** X18.  A file without any marker line is loaded whole into the log
    list, line by line in order; the prescript and the postscript are
    emptied when their check box is checked and kept otherwise. *)
Theorem file_without_markers_is_all_log :
  forall (text : string) (a : App),
    forallb (fun l => negb (is_marker l)) (file_lines text) = true ->
    gcodeLW (openFile text a) = file_lines text
    /\ prescriptLW (openFile text a)
       = (if prescriptCB (panel a) then [] else prescriptLW a)
    /\ postscriptLW (openFile text a)
       = (if postscriptCB (panel a) then [] else postscriptLW a).
Proof.
  intros text a Hls. unfold openFile.
  rewrite (open_unmarked_lines _ _ Hls). cbn [snd].
  destruct (clear_lists_fields a) as (Hg & Hp & Hq & _).
  cbn [set_gcodeLW gcodeLW prescriptLW postscriptLW].
  rewrite Hg. repeat split; assumption.
Qed.

Lemma file_without_markers_witness :
  forallb (fun l => negb (is_marker l))
          (file_lines ("G0 X1" ++ nl ++ "G1 X2 F100" ++ nl)) = true
  /\ gcodeLW (openFile ("G0 X1" ++ nl ++ "G1 X2 F100" ++ nl) marker_app)
     = ["G0 X1"; "G1 X2 F100"].
Proof.
  split; [reflexivity|].
  exact (proj1 (file_without_markers_is_all_log
                  ("G0 X1" ++ nl ++ "G1 X2 F100" ++ nl) marker_app eq_refl)).
Defined.

(** X19.  Whatever the file holds, no line that [openFile] loads is one
    of the four markers: the log list, and the prescript and postscript
    when their check boxes are checked, hold none after loading. *)
Theorem open_never_loads_a_marker :
  forall (text : string) (a : App),
    forallb (fun l => negb (is_marker l)) (gcodeLW (openFile text a)) = true
    /\ (prescriptCB (panel a) = true ->
        forallb (fun l => negb (is_marker l)) (prescriptLW (openFile text a))
        = true)
    /\ (postscriptCB (panel a) = true ->
        forallb (fun l => negb (is_marker l)) (postscriptLW (openFile text a))
        = true).
Proof.
  intros text a. unfold openFile.
  destruct (clear_lists_fields a) as (Hg & Hp & Hq & _).
  pose proof (open_lines_invariant (file_lines text) TypeLog (clear_lists a))
    as Hinv. cbn zeta in Hinv.
  destruct Hinv as (_ & _ & _ & I4 & I5 & I6).
  repeat split.
  - apply I4. rewrite Hg. reflexivity.
  - intros Hcb. apply I5. rewrite Hp, Hcb. reflexivity.
  - intros Hcb. apply I6. rewrite Hq, Hcb. reflexivity.
Qed.

(** X20.  [openFile] replaces lists only.  A prescript or postscript
    whose check box is cleared is kept as it was, the file's lines for it
    being dropped; and the cursor, the last position and the latches
    survive the loading of another file. *)
Theorem open_keeps_what_it_does_not_load :
  forall (text : string) (a : App),
    (prescriptCB (panel a) = false ->
     prescriptLW (openFile text a) = prescriptLW a)
    /\ (postscriptCB (panel a) = false ->
        postscriptLW (openFile text a) = postscriptLW a)
    /\ logToLine (openFile text a) = logToLine a
    /\ lastPosition (openFile text a) = lastPosition a
    /\ latches (openFile text a) = latches a.
Proof.
  intros text a. unfold openFile.
  destruct (clear_lists_fields a) as (_ & Hp & Hq & Hpanel & Hc & Hl & Hla).
  pose proof (open_lines_invariant (file_lines text) TypeLog (clear_lists a))
    as Hinv. cbn zeta in Hinv.
  destruct Hinv as (_ & I2 & I3 & _).
  destruct (open_lines_frame (file_lines text) TypeLog (clear_lists a))
    as (F1 & F2 & F3).
  rewrite Hpanel in I2, I3.
  repeat split.
  - intros Hcb. rewrite (I2 Hcb), Hp, Hcb. reflexivity.
  - intros Hcb. rewrite (I3 Hcb), Hq, Hcb. reflexivity.
  - rewrite F1. exact Hc.
  - rewrite F2. exact Hl.
  - rewrite F3. exact Hla.
Qed.

(** X21.  With both regions disabled [save] writes the log lines joined
    by ['\n'] with none after the last, and opening that file gives the
    log lines back, except that a last line that is empty is lost (an
    empty list and a list of one empty line are written as the same
    empty file). *)
Theorem save_open_without_regions :
  forall (a b : App),
    prescriptCB (panel a) = false ->
    postscriptCB (panel a) = false ->
    forallb plain_line (gcodeLW a) = true ->
    save a = String.concat nl (gcodeLW a)
    /\ gcodeLW (openFile (save a) b) = without_last_blank (gcodeLW a).
Proof.
  intros a b Hp Hq Lg.
  assert (Hsave : save a = String.concat nl (gcodeLW a)).
  { unfold save. rewrite Hp, Hq. cbn [String.append].
    apply string_app_nil_r. }
  split; [exact Hsave|].
  rewrite Hsave. unfold openFile.
  rewrite (file_lines_concat _ (plain_lines_one_line _ Lg)).
  rewrite open_unmarked_lines
    by (apply without_last_blank_forallb, plain_lines_unmarked; exact Lg).
  cbn [snd set_gcodeLW gcodeLW].
  destruct (clear_lists_fields b) as (-> & _). reflexivity.
Qed.

Lemma save_open_without_regions_witness :
  prescriptCB (panel plain_log_app) = false
  /\ postscriptCB (panel plain_log_app) = false
  /\ forallb plain_line (gcodeLW plain_log_app) = true
  /\ gcodeLW plain_log_app = ["G0 X1 "; ""]
  /\ gcodeLW (openFile (save plain_log_app) plain_log_app) = ["G0 X1 "].
Proof.
  repeat (split; [reflexivity|]).
  exact (proj2 (save_open_without_regions plain_log_app plain_log_app
                  eq_refl eq_refl eq_refl)).
Defined.

(* ================================================================== *)
(** ** The context menu and the cursor *)

Lemma insertItem_in_range (row : Z) (text : string) (l : list string) :
  (0 <= row <= Z.of_nat (List.length l))%Z ->
  insertItem row text l
  = (firstn (Z.to_nat row) l ++ text :: skipn (Z.to_nat row) l)%list.
Proof.
  intros Hrow. unfold insertItem.
  replace (row <? 0)%Z with false by (symmetry; apply Z.ltb_ge; lia).
  rewrite Nat.min_l by lia. reflexivity.
Qed.

(** The rows below an inserted line are the rows of before, one down. *)
Lemma insertItem_below (row : Z) (text : string) (l : list string) (i : nat) :
  (0 <= row <= Z.of_nat (List.length l))%Z ->
  (Z.to_nat row <= i)%nat ->
  nth_error (insertItem row text l) (S i) = nth_error l i.
Proof.
  intros Hrow Hi. rewrite (insertItem_in_range row text l Hrow).
  assert (Hlen : List.length (firstn (Z.to_nat row) l) = Z.to_nat row)
    by (rewrite length_firstn; lia).
  rewrite nth_error_app2 by (rewrite Hlen; lia).
  rewrite Hlen.
  replace (S i - Z.to_nat row)%nat with (S (i - Z.to_nat row)) by lia.
  cbn [nth_error]. rewrite nth_error_skipn. f_equal. lia.
Qed.

(** X22.  The cursor is a row number and is not moved with the lines.
    After 'Log to this Line' on row [k] and then 'Add Line Above' on a row
    [r] at or above it, a [log] that composes a line writes it to row
    [k] of the list as it is now: the list is one line longer, and the
    line that was chosen, now on row [k+1], is still there. *)
Theorem cursor_is_not_moved_with_the_lines :
  forall (rt : PyRuntime) (a : App) (k r : Z) (line : string),
    logToLine a = Some k ->
    (0 <= r <= k)%Z ->
    (k < Z.of_nat (List.length (gcodeLW a)))%Z ->
    fst (log (eventFilter GcodeList r AddLineAbove a)) = Composed line ->
    List.length (gcodeLW (snd (log (eventFilter GcodeList r AddLineAbove a))))
    = S (List.length (gcodeLW a))
    /\ nth_error
         (gcodeLW (snd (log (eventFilter GcodeList r AddLineAbove a))))
         (Z.to_nat k)
       = Some line
    /\ nth_error
         (gcodeLW (snd (log (eventFilter GcodeList r AddLineAbove a))))
         (S (Z.to_nat k))
       = nth_error (gcodeLW a) (Z.to_nat k).
Proof.
  intros rt a k r line Hcur Hr Hk Hlog.
  set (b := eventFilter GcodeList r AddLineAbove a) in *.
  assert (Hbl : gcodeLW b = insertItem r ";new line" (gcodeLW a))
    by reflexivity.
  assert (Hbc : logToLine b = Some k) by exact Hcur.
  assert (Hlen : List.length (gcodeLW b) = S (List.length (gcodeLW a)))
    by (rewrite Hbl; apply length_insertItem).
  destruct (log_composed b line Hlog) as [_ Hsnd].
  destruct (log_comment_frame b) as (Hdoc & _).
  unfold document in Hdoc. injection Hdoc as _ Hg _ Hc.
  assert (Hlines : gcodeLW (snd (log b))
                   = (firstn (Z.to_nat k) (gcodeLW b)
                      ++ line :: skipn (S (Z.to_nat k)) (gcodeLW b))%list).
  { assert (Hcb : logToLine (log_comment b) = Some k)
      by (rewrite Hc; exact Hcur).
    rewrite Hsnd. cbn [set_logToLine set_lastPosition gcodeLW].
    unfold write_line. rewrite Hcb. cbn [set_gcodeLW gcodeLW].
    rewrite Hg. apply take_insert. lia. }
  assert (Hn : (Z.to_nat k < List.length (gcodeLW b))%nat) by lia.
  destruct (replaced_row line (gcodeLW b) (Z.to_nat k) Hn) as (H1 & H2 & H3).
  rewrite Hlines. repeat split.
  - rewrite H1. exact Hlen.
  - exact H2.
  - rewrite H3 by lia. rewrite Hbl. apply insertItem_below; lia.
Qed.

Lemma cursor_is_not_moved_witness :
  logToLine (log_to_this_line 1 three_lines_app) = Some 1%Z
  /\ (0 <= 0 <= 1)%Z
  /\ (1 < Z.of_nat (List.length
                      (gcodeLW (log_to_this_line 1 three_lines_app))))%Z
  /\ fst (@log literal_runtime
            (eventFilter GcodeList 0 AddLineAbove
               (log_to_this_line 1 three_lines_app)))
     = Composed "1, 2, 3, "
  /\ gcodeLW (snd (@log literal_runtime
                     (eventFilter GcodeList 0 AddLineAbove
                        (log_to_this_line 1 three_lines_app))))
     = [";new line"; "1, 2, 3, "; "b"; "c"]
  /\ List.length
       (gcodeLW (snd (@log literal_runtime
                        (eventFilter GcodeList 0 AddLineAbove
                           (log_to_this_line 1 three_lines_app)))))
     = S (List.length (gcodeLW (log_to_this_line 1 three_lines_app))).
Proof.
  assert (H1 : (0 <= 0 <= 1)%Z) by lia.
  assert (H2 : (1 < Z.of_nat (List.length
                                (gcodeLW (log_to_this_line 1
                                            three_lines_app))))%Z)
    by (cbn; lia).
  assert (H3 : fst (@log literal_runtime
                      (eventFilter GcodeList 0 AddLineAbove
                         (log_to_this_line 1 three_lines_app)))
               = Composed "1, 2, 3, ") by (vm_compute; reflexivity).
  split; [reflexivity|]. split; [exact H1|]. split; [exact H2|].
  split; [exact H3|]. split; [vm_compute; reflexivity|].
  exact (proj1 (cursor_is_not_moved_with_the_lines literal_runtime
                  (log_to_this_line 1 three_lines_app) 1 0 "1, 2, 3, "
                  eq_refl H1 H2 H3)).
Defined.

(* ================================================================== *)
(** ** The axes of the machine *)

Lemma setup_loop_boxes (bit : nat -> bool) (indices : list nat)
  (row col : nat) :
  map (fun cell => match cell with Some _ => Some true | None => None end)
      (setup_loop bit indices row col)
  = map (fun i => if bit i then Some true else None) indices.
Proof.
  revert row col. induction indices as [|i rest IH]; intros row col;
    [reflexivity|].
  cbn [setup_loop map]. destruct (bit i); cbn [map];
    [|rewrite IH; reflexivity].
  destruct (S row =? 6)%nat; rewrite IH; reflexivity.
Qed.

Lemma nth_error_table (A : Type) (f : nat -> A) (n i : nat) :
  (i < n)%nat -> nth_error (map f (seq 0 n)) i = Some (f i).
Proof.
  intros Hi. rewrite nth_error_map.
  rewrite (nth_error_nth' (seq 0 n) 0%nat) by (rewrite length_seq; exact Hi).
  rewrite seq_nth by exact Hi. reflexivity.
Qed.

(** X23.  [setupAxes] makes a check box and a label exactly for the axes
    of the mask, every box checked: so the axes [update] refreshes and the
    axes a first [log] reads are the axes of the mask, in the order
    X, Y, Z, A, B, C, U, V, W. *)
Theorem setupAxes_follows_the_mask :
  forall (axis_mask : Z),
    setup_axis_cbs axis_mask
    = map (fun i => if axis_bit axis_mask i then Some true else None)
          (seq 0 9)
    /\ machine_axes (setup_axis_cbs axis_mask) = axes_of_mask axis_mask
    /\ checked_axes (setup_axis_cbs axis_mask) = axes_of_mask axis_mask
    /\ List.length (setup_position_lbs axis_mask) = 9%nat.
Proof.
  intros m.
  assert (Hcbs : setup_axis_cbs m
                 = map (fun i => if axis_bit m i then Some true else None)
                       (seq 0 9))
    by apply setup_loop_boxes.
  split; [exact Hcbs|].
  unfold machine_axes, checked_axes, axes_of_mask. rewrite Hcbs.
  rewrite length_map, length_seq.
  split; [|split].
  - apply filter_ext_in. intros i Hi. apply in_seq in Hi.
    rewrite nth_error_table by lia. destruct (axis_bit m i); reflexivity.
  - apply filter_ext_in. intros i Hi. apply in_seq in Hi.
    rewrite nth_error_table by lia. destruct (axis_bit m i); reflexivity.
  - unfold setup_position_lbs. rewrite length_map, length_seq. reflexivity.
Qed.

Lemma setup_loop_ext (bit bit' : nat -> bool) (indices : list nat)
  (row col : nat) :
  (forall i, In i indices -> bit i = bit' i) ->
  setup_loop bit indices row col = setup_loop bit' indices row col.
Proof.
  revert row col. induction indices as [|i rest IH]; intros row col Hext;
    [reflexivity|].
  cbn [setup_loop]. rewrite <- (Hext i) by (left; reflexivity).
  assert (Hrest : forall j, In j rest -> bit j = bit' j)
    by (intros j Hj; apply Hext; right; exact Hj).
  destruct (bit i); [destruct (S row =? 6)%nat|]; rewrite IH by exact Hrest;
    reflexivity.
Qed.

Lemma all_bits_complete (bits : list bool) :
  In bits (all_bits (List.length bits)).
Proof.
  induction bits as [|b bits IH]; [left; reflexivity|].
  cbn [List.length all_bits]. apply in_or_app.
  destruct b; [left|right]; apply in_map; exact IH.
Qed.

(** Every one of the 512 tables of nine bits gives a good grid. *)
Lemma every_grid_ok : forallb grid_ok (all_bits 9) = true.
Proof. vm_compute. reflexivity. Qed.

(** X24.  [setupAxes] never puts two widgets into one cell of the grid:
    the check boxes and labels of the axes of any mask lie in distinct
    cells, within six rows and four columns. *)
Theorem setupAxes_cells_are_distinct :
  forall (axis_mask : Z),
    distinct_cells (occupied_cells (setup_cells axis_mask)) = true
    /\ forallb in_grid (occupied_cells (setup_cells axis_mask)) = true.
Proof.
  intros m. unfold setup_cells.
  set (bits := map (axis_bit m) (seq 0 9)).
  assert (Hext : setup_loop (axis_bit m) (seq 0 9) 0 0
                 = setup_loop (bit_at bits) (seq 0 9) 0 0).
  { apply setup_loop_ext. intros i Hi. apply in_seq in Hi.
    unfold bit_at, bits.
    rewrite (nth_indep _ false (axis_bit m 0))
      by (rewrite length_map, length_seq; lia).
    rewrite (map_nth (axis_bit m) (seq 0 9) 0%nat i).
    rewrite seq_nth by lia. reflexivity. }
  rewrite Hext.
  assert (Hin : In bits (all_bits 9)).
  { replace 9%nat with (List.length bits)
      by (unfold bits; rewrite length_map, length_seq; reflexivity).
    apply all_bits_complete. }
  pose proof (proj1 (forallb_forall grid_ok (all_bits 9)) every_grid_ok
                bits Hin) as Hok.
  unfold grid_ok in Hok. apply andb_true_iff in Hok. exact Hok.
Qed.

(* ================================================================== *)
(** ** The labels *)

Lemma list_set_same (A : Type) (i : nat) (v : A) (l : list A) :
  (i < List.length l)%nat -> nth_error (list_set i v l) i = Some v.
Proof.
  revert i. induction l as [|x l IH]; intros i Hi; [inversion Hi|].
  destruct i as [|i]; [reflexivity|].
  cbn [list_set nth_error]. apply IH. cbn [List.length] in Hi. lia.
Qed.

Lemma list_set_other (A : Type) (i j : nat) (v : A) (l : list A) :
  i <> j -> nth_error (list_set i v l) j = nth_error l j.
Proof.
  revert i j. induction l as [|x l IH]; intros i j Hij;
    [destruct i; reflexivity|].
  destruct i as [|i], j as [|j]; try reflexivity; [contradiction|].
  cbn [list_set nth_error]. apply IH. congruence.
Qed.

Lemma list_set_length (A : Type) (i : nat) (v : A) (l : list A) :
  List.length (list_set i v l) = List.length l.
Proof.
  revert i. induction l as [|x l IH]; intros i; [destruct i; reflexivity|].
  destruct i as [|i]; [reflexivity|]. cbn [list_set List.length].
  rewrite IH. reflexivity.
Qed.

Section Labels.
Context {rt : PyRuntime}.
Variables (shown : list R) (precision : Z).

(** The loop keeps the length of the list and the axes without label,
    and never brings back a label that shows what it should. *)
Lemma refresh_labels_keeps (axes : list nat) (lbs : list (option string)) :
  List.length (fst (refresh_labels shown precision axes lbs))
  = List.length lbs
  /\ (forall i, nth_error lbs i = Some None ->
                nth_error (fst (refresh_labels shown precision axes lbs)) i
                = Some None)
  /\ (forall i x, nth_error shown i = Some x ->
                  nth_error lbs i = Some (Some (format_f precision x)) ->
                  nth_error (fst (refresh_labels shown precision axes lbs)) i
                  = Some (Some (format_f precision x))).
Proof.
  revert lbs. induction axes as [|a axes IH]; intros lbs;
    [repeat split; intros; assumption|].
  cbn [refresh_labels].
  destruct (nth_error lbs a) as [[old|]|] eqn:Ha;
    [|apply IH|repeat split; intros; assumption].
  destruct (nth_error shown a) as [y|] eqn:Hy;
    [|repeat split; intros; assumption].
  destruct (IH (list_set a (Some (format_f precision y)) lbs))
    as (I1 & I2 & I3).
  repeat split.
  - rewrite I1. apply list_set_length.
  - intros i Hi. apply I2.
    rewrite list_set_other; [exact Hi|]. intros ->. congruence.
  - intros i x Hx Hi. apply I3; [exact Hx|].
    destruct (Nat.eq_dec a i) as [->|Hne].
    + rewrite list_set_same by (apply nth_error_Some; congruence).
      congruence.
    + rewrite list_set_other by exact Hne. exact Hi.
Qed.

(** X26.  When the loop over the axes ends without exception, the label
    of every axis of the list that has one shows the formatted value
    displayed for that axis; the axes without label stay without, and the
    list keeps its length. *)
Theorem refresh_labels_shows_the_display :
  forall (axes : list nat) (lbs : list (option string)),
    snd (refresh_labels shown precision axes lbs) = None ->
    (forall i old,
        In i axes ->
        nth_error lbs i = Some (Some old) ->
        exists x, nth_error shown i = Some x
                  /\ nth_error (fst (refresh_labels shown precision axes lbs))
                       i
                     = Some (Some (format_f precision x)))
    /\ (forall i, nth_error lbs i = Some None ->
                  nth_error (fst (refresh_labels shown precision axes lbs)) i
                  = Some None)
    /\ List.length (fst (refresh_labels shown precision axes lbs))
       = List.length lbs.
Proof.
  intros axes lbs Hok.
  destruct (refresh_labels_keeps axes lbs) as (K1 & K2 & _).
  split; [|split; assumption].
  clear K1 K2. revert lbs Hok.
  induction axes as [|a axes IH]; intros lbs Hok i old Hin Hi;
    [contradiction|].
  cbn [refresh_labels] in Hok |- *.
  destruct (nth_error lbs a) as [[olda|]|] eqn:Ha; [| |discriminate].
  - destruct (nth_error shown a) as [y|] eqn:Hy; [|discriminate].
    destruct (Nat.eq_dec a i) as [->|Hne].
    + exists y. split; [exact Hy|].
      apply (proj2 (proj2 (refresh_labels_keeps axes _))); [exact Hy|].
      apply list_set_same. apply nth_error_Some. congruence.
    + destruct Hin as [Heq|Hin]; [contradiction|].
      apply (IH _ Hok i old Hin).
      rewrite list_set_other by exact Hne. exact Hi.
  - destruct Hin as [->|Hin]; [congruence|].
    apply (IH _ Hok i old Hin Hi).
Qed.

End Labels.

Lemma refresh_labels_witness :
  snd (@refresh_labels literal_runtime (display Absolute high_stat) 4
         (machine_axes yz_checked) (xyz_labels "1" "2" "3")) = None
  /\ List.length
       (fst (@refresh_labels literal_runtime (display Absolute high_stat) 4
               (machine_axes yz_checked) (xyz_labels "1" "2" "3")))
     = List.length (xyz_labels "1" "2" "3").
Proof.
  assert (H : snd (@refresh_labels literal_runtime
                     (display Absolute high_stat) 4
                     (machine_axes yz_checked) (xyz_labels "1" "2" "3"))
              = None) by (vm_compute; reflexivity).
  split; [exact H|].
  exact (proj2 (proj2 (@refresh_labels_shows_the_display literal_runtime
                         (display Absolute high_stat) 4
                         (machine_axes yz_checked) (xyz_labels "1" "2" "3")
                         H))).
Defined.

(* ================================================================== *)
(** * The channels in [update] *)

(** ** A tick that returns *)

Section Returning.
Context {rt : PyRuntime}.

Lemma log_panel (a : App) : panel (snd (log a)) = panel a.
Proof. exact (proj1 (proj2 (proj2 (log_grown a)))). Qed.

(** A block that returns has assigned its latch; [log] ran before if
    the edge function said so. *)
Lemma digital_block_returns (c : DigitalConfig) (value : bool)
  (get : App -> bool) (set_latch : bool -> App -> App) (a a' : App) :
  digital_block c value get set_latch a = (None, a') ->
  a' = set_latch (snd (digital_edge c value (get a)))
         (if fst (digital_edge c value (get a)) then snd (log a) else a).
Proof.
  unfold digital_block.
  destruct (digital_edge c value (get a)) as [fire after]. cbn [fst snd].
  destruct fire.
  - destruct (log a) as [[line|m|shown e] b]; cbn [snd]; intros H;
      first [discriminate | injection H as <-; reflexivity].
  - intros H. injection H as <-. reflexivity.
Qed.

Lemma analog_block_returns (c : AnalogConfig) (value : float)
  (get : App -> bool) (set_latch : bool -> App -> App)
  (set_style : Style -> App -> App) (a a' : App) :
  analog_block c value get set_latch set_style a = (None, a') ->
  a' = set_style (a_style (analog_edge c value (get a)))
         (set_latch (a_latch (analog_edge c value (get a)))
            (if a_fire (analog_edge c value (get a))
             then snd (log a) else a)).
Proof.
  unfold analog_block.
  destruct (a_fire (analog_edge c value (get a))).
  - destruct (log a) as [[line|m|shown e] b]; cbn [snd]; intros H;
      first [discriminate | injection H as <-; reflexivity].
  - intros H. injection H as <-. reflexivity.
Qed.

(** The state [log] is run on or not: the widgets and the latches are
    those of [a]. *)
Lemma after_log_or_not (fire : bool) (a : App) :
  panel (if fire then snd (log a) else a) = panel a
  /\ latches (if fire then snd (log a) else a) = latches a.
Proof.
  destruct fire; [|split; reflexivity].
  split; [apply log_panel | apply log_latches].
Qed.

Lemma update_din_returns (s : Stat) (a a' : App) :
  update_din s a = (None, a') ->
  panel a' = panel a
  /\ latches a'
     = (snd (digital_edge (din (panel a)) (din_value a s) (dinLog a)),
        doutLog a, ainLog a, aoutLog a).
Proof.
  unfold update_din, din_value. intros H.
  apply digital_block_returns in H. subst a'.
  destruct (after_log_or_not
              (fst (digital_edge (din (panel a))
                      (stat_din s (dInput (din (panel a)))) (dinLog a))) a)
    as [Hp Hl].
  unfold latches in *. injection Hl as H1 H2 H3 H4.
  cbn [set_dinLog panel dinLog doutLog ainLog aoutLog].
  rewrite Hp, H2, H3, H4. split; reflexivity.
Qed.

Lemma update_dout_returns (s : Stat) (a a' : App) :
  update_dout s a = (None, a') ->
  panel a' = panel a
  /\ latches a'
     = (dinLog a,
        snd (digital_edge (dout (panel a)) (dout_value a s) (doutLog a)),
        ainLog a, aoutLog a).
Proof.
  unfold update_dout, dout_value. intros H.
  apply digital_block_returns in H. subst a'.
  destruct (after_log_or_not
              (fst (digital_edge (dout (panel a))
                      (stat_dout s (dInput (dout (panel a)))) (doutLog a))) a)
    as [Hp Hl].
  unfold latches in *. injection Hl as H1 H2 H3 H4.
  cbn [set_doutLog panel dinLog doutLog ainLog aoutLog].
  rewrite Hp, H1, H3, H4. split; reflexivity.
Qed.

Lemma update_ain_returns (s : Stat) (a a' : App) :
  update_ain s a = (None, a') ->
  panel a' = panel a
  /\ latches a'
     = (dinLog a, doutLog a,
        a_latch (analog_edge (ain (panel a)) (ain_value a s) (ainLog a)),
        aoutLog a).
Proof.
  unfold update_ain, ain_value. intros H.
  apply analog_block_returns in H. subst a'.
  destruct (after_log_or_not
              (a_fire (analog_edge (ain (panel a))
                         (stat_ain s (aInput (ain (panel a)))) (ainLog a))) a)
    as [Hp Hl].
  unfold latches in *. injection Hl as H1 H2 H3 H4.
  cbn [set_ainStyle set_ainLog panel dinLog doutLog ainLog aoutLog].
  rewrite Hp, H1, H2, H4. split; reflexivity.
Qed.

Lemma update_aout_returns (s : Stat) (a a' : App) :
  update_aout s a = (None, a') ->
  panel a' = panel a
  /\ latches a'
     = (dinLog a, doutLog a, ainLog a,
        a_latch (analog_edge (aout (panel a)) (aout_value a s) (aoutLog a))).
Proof.
  unfold update_aout, aout_value. intros H.
  apply analog_block_returns in H. subst a'.
  destruct (after_log_or_not
              (a_fire (analog_edge (aout (panel a))
                         (stat_aout s (aInput (aout (panel a)))) (aoutLog a)))
              a)
    as [Hp Hl].
  unfold latches in *. injection Hl as H1 H2 H3 H4.
  cbn [set_aoutStyle set_aoutLog panel dinLog doutLog ainLog aoutLog].
  rewrite Hp, H1, H2, H3. split; reflexivity.
Qed.

(** A tick of [update] that returns has run its four blocks: the widgets
    are as they were, and each latch holds what the edge function of its
    channel computes from the sample and the latch before. *)
Lemma update_returns_latches (s : Stat) (a : App) :
  fst (update s a) = None ->
  panel (snd (update s a)) = panel a
  /\ latches (snd (update s a))
     = (snd (digital_edge (din (panel a)) (din_value a s) (dinLog a)),
        snd (digital_edge (dout (panel a)) (dout_value a s) (doutLog a)),
        a_latch (analog_edge (ain (panel a)) (ain_value a s) (ainLog a)),
        a_latch (analog_edge (aout (panel a)) (aout_value a s) (aoutLog a))).
Proof.
  unfold update.
  destruct (refresh_labels (display (positionCB (panel a)) s)
              (precisionSB (panel a)) (machine_axes (axis_cbs (panel a)))
              (position_lbs a)) as [lbs exc].
  destruct exc as [e|]; [discriminate|]. cbn [and_then].
  destruct (update_din s (set_position_lbs lbs a)) as [[e|] a2] eqn:E1;
    [discriminate|].
  apply update_din_returns in E1. destruct E1 as [Hp2 Hl2].
  cbn [and_then].
  destruct (update_dout s a2) as [[e|] a3] eqn:E2; [discriminate|].
  apply update_dout_returns in E2. destruct E2 as [Hp3 Hl3].
  cbn [and_then].
  destruct (update_ain s a3) as [[e|] a4] eqn:E3; [discriminate|].
  apply update_ain_returns in E3. destruct E3 as [Hp4 Hl4].
  cbn [and_then].
  destruct (update_aout s a4) as [[e|] a5] eqn:E4; [discriminate|].
  apply update_aout_returns in E4. destruct E4 as [Hp5 Hl5].
  cbn [fst snd]. intros _.
  unfold latches, din_value, dout_value, ain_value, aout_value in *.
  cbn [set_position_lbs panel dinLog doutLog ainLog aoutLog] in Hp2, Hl2.
  injection Hl2 as L1 L2 L3 L4.
  injection Hl3 as M1 M2 M3 M4.
  injection Hl4 as N1 N2 N3 N4.
  injection Hl5 as O1 O2 O3 O4.
  split; [congruence|].
  rewrite O1, O2, O3, O4, Hp4, N1, N2, N3, N4, Hp3, M1, M2, M3, M4, Hp2,
    L1, L2, L3, L4.
  reflexivity.
Qed.

(** The latches one by one. *)
Lemma update_returns_fields (s : Stat) (a : App) :
  fst (update s a) = None ->
  panel (snd (update s a)) = panel a
  /\ dinLog (snd (update s a))
     = snd (digital_edge (din (panel a)) (din_value a s) (dinLog a))
  /\ doutLog (snd (update s a))
     = snd (digital_edge (dout (panel a)) (dout_value a s) (doutLog a))
  /\ ainLog (snd (update s a))
     = a_latch (analog_edge (ain (panel a)) (ain_value a s) (ainLog a))
  /\ aoutLog (snd (update s a))
     = a_latch (analog_edge (aout (panel a)) (aout_value a s) (aoutLog a)).
Proof.
  intros H. destruct (update_returns_latches s a H) as [Hp Hl].
  unfold latches in Hl. injection Hl as H1 H2 H3 H4.
  repeat split; assumption.
Qed.

End Returning.

Lemma digital_edge_latched (c : DigitalConfig) (value : bool) :
  fst (digital_edge c value true) = false.
Proof.
  unfold digital_edge.
  destruct (dLogic c), value, (dCB c); reflexivity.
Qed.

Lemma analog_edge_latched (c : AnalogConfig) (value : float) :
  a_fire (analog_edge c value true) = false.
Proof.
  unfold analog_edge.
  destruct (aOnLogic c);
    repeat match goal with
           | |- context [if ?b then _ else _] => destruct b eqn:?
           end; cbn [a_fire]; try reflexivity;
    match goal with
    | H : _ && negb true = true |- _ =>
        rewrite andb_false_r in H; discriminate
    end.
Qed.





(** ** The analog channels over ticks *)

(** C5 as stated fails in two ways.  On a channel whose check box is
    cleared: the thresholds are ordered, the value 6 satisfies the
    on-comparator and the latch is clear, yet the latch stays clear and
    the values 1, 6, 6, 1 never fire.  And on an enabled channel when an
    exception escapes [log]: a G2 move with no axis box checked, the analog
    input at 6; the block calls [log], which ends in IndexError, the latch
    stays clear although the value satisfies the on-comparator, and the
    same value fires again on the next tick. *)
Lemma analog_latch_needs_the_check_box_and_a_log_that_returns :
  (thresholds_ordered (analog_5_2 false) = true
   /\ satisfies_on (analog_5_2 false) 6%float = true
   /\ a_latch (analog_edge (analog_5_2 false) 6%float false) = false
   /\ map a_fire (analog_run (analog_5_2 false) false
                    [1%float; 6%float; 6%float; 1%float])
      = [false; false; false; false])
  /\ (thresholds_ordered (ain (panel no_axis_arc_app)) = true
      /\ aCB (ain (panel no_axis_arc_app)) = true
      /\ ainLog no_axis_arc_app = false
      /\ satisfies_on (ain (panel no_axis_arc_app))
           (ain_value no_axis_arc_app (sample_stat false 6)) = true
      /\ fst (@update literal_runtime (sample_stat false 6) no_axis_arc_app)
         = Some IndexError
      /\ ainLog (snd (@update literal_runtime (sample_stat false 6)
                        no_axis_arc_app)) = false
      /\ fires_of ain_fires
           (@ticks literal_runtime
              [sample_stat false 6; sample_stat false 6] no_axis_arc_app)
         = [true; true]).
Proof.
  split; [repeat split|].
  repeat (split; [vm_compute; reflexivity|]).
  vm_compute. reflexivity.
Qed.

(** The cases of an enabled, validly configured analog block. *)
Lemma analog_edge_latch_cases (c : AnalogConfig) (value : float)
  (latch : bool) :
  thresholds_ordered c = true ->
  aCB c = true ->
  (latch = false ->
   a_latch (analog_edge c value latch) = satisfies_on c value)
  /\ (latch = true ->
      a_latch (analog_edge c value latch) = negb (satisfies_off c value))
  /\ a_fire (analog_edge c value latch)
     = negb latch && a_latch (analog_edge c value latch).
Proof.
  intros Hord Hcb.
  rewrite (analog_edge_ordered c value latch Hord), Hcb.
  repeat split.
  - intros ->. destruct (satisfies_on c value), (satisfies_off c value);
      reflexivity.
  - intros ->. destruct (satisfies_on c value), (satisfies_off c value);
      reflexivity.
  - destruct latch, (satisfies_on c value), (satisfies_off c value);
      reflexivity.
Qed.

(** A channel with [onThreshold=5, offThreshold=2, GreaterThan], enabled,
    whatever the index of its pin. *)
Lemma analog_edge_5_2 (c : AnalogConfig) (value : float) (latch : bool) :
  aOnLogic c = GreaterThan ->
  aOnValue c = 5%float ->
  aOffValue c = 2%float ->
  aCB c = true ->
  analog_edge c value latch = analog_edge (analog_5_2 true) value latch.
Proof.
  intros Hlogic Hon Hoff Hcb. unfold analog_edge.
  rewrite Hlogic, Hon, Hoff, Hcb. reflexivity.
Qed.

(** Four ticks that return, on the samples 1, 6, 6, 1. *)
Lemma run_1_6_6_1 (rt : PyRuntime)
  (config : Panel -> AnalogConfig) (value : App -> Stat -> float)
  (latch : App -> bool) (ss : list Stat) (a : App) :
  (forall s x, fst (update s x) = None ->
               panel (snd (update s x)) = panel x
               /\ latch (snd (update s x))
                  = a_latch (analog_edge (config (panel x)) (value x s)
                               (latch x))) ->
  (forall x y s, panel x = panel y -> value x s = value y s) ->
  Forall tick_returns (ticks ss a) ->
  aOnLogic (config (panel a)) = GreaterThan ->
  aOnValue (config (panel a)) = 5%float ->
  aOffValue (config (panel a)) = 2%float ->
  aCB (config (panel a)) = true ->
  latch a = false ->
  map (value a) ss = [1%float; 6%float; 6%float; 1%float] ->
  fires_of (fun s x => a_fire (analog_edge (config (panel x)) (value x s)
                                 (latch x)))
    (ticks ss a)
  = [false; true; false; false].
Proof.
  intros Hstep Hvalue Hrun Hlogic Hon Hoff Hcb Hlatch Hmap.
  destruct ss as [|s1 [|s2 [|s3 [|s4 [|s5 ss]]]]]; try discriminate.
  injection Hmap as V1 V2 V3 V4.
  cbn [ticks] in *.
  apply Forall_cons_iff in Hrun. destruct Hrun as [T1 Hrun].
  apply Forall_cons_iff in Hrun. destruct Hrun as [T2 Hrun].
  apply Forall_cons_iff in Hrun. destruct Hrun as [T3 Hrun].
  apply Forall_cons_iff in Hrun. destruct Hrun as [T4 _].
  unfold tick_returns in T1, T2, T3, T4. cbn [fst snd] in T1, T2, T3, T4.
  set (a1 := snd (update s1 a)) in *.
  set (a2 := snd (update s2 a1)) in *.
  set (a3 := snd (update s3 a2)) in *.
  destruct (Hstep s1 a T1) as [P1 L1]. fold a1 in P1, L1.
  destruct (Hstep s2 a1 T2) as [P2 L2]. fold a2 in P2, L2.
  destruct (Hstep s3 a2 T3) as [P3 L3]. fold a3 in P3, L3.
  rewrite P2, P1 in P3. rewrite P1 in P2.
  assert (E : forall v l, analog_edge (config (panel a)) v l
                          = analog_edge (analog_5_2 true) v l)
    by (intros v l; apply analog_edge_5_2; assumption).
  rewrite P1, (Hvalue a1 a s2 P1), V2 in L2.
  rewrite (Hvalue a2 a s3 P2) in L3. rewrite P2, V3 in L3.
  rewrite V1, Hlatch, E in L1.
  rewrite L1, E in L2. rewrite L2, E in L3.
  cbn [fires_of map fst snd].
  rewrite (Hvalue a1 a s2 P1), (Hvalue a2 a s3 P2), (Hvalue a3 a s4 P3).
  rewrite P1, P2, P3, V1, V2, V3, V4, Hlatch, L1, L2, L3, !E.
  reflexivity.
Qed.


(** C5, over ticks that return.  For an analog channel (input or
    output) whose thresholds are ordered and whose check box is checked,
    on a tick of [update] that does not end in an exception: a clear
    latch becomes set exactly when the sample satisfies the on-comparator
    against the on threshold; a set latch clears exactly when the sample
    satisfies the complementary comparator against the off threshold;
    and [log] is called exactly when the latch goes from clear to set.
    With thresholds 5 and 2, GreaterThan and the latch clear, a run of
    four such ticks on the samples 1, 6, 6, 1 calls [log] once, at the
    first 6. *)
Theorem enabled_analog_latch_in_update :
  forall (rt : PyRuntime) (s : Stat) (a : App),
    tick_returns (s, a) ->
    (thresholds_ordered (ain (panel a)) = true ->
     aCB (ain (panel a)) = true ->
     (ainLog a = false ->
      ainLog (snd (update s a))
      = satisfies_on (ain (panel a)) (ain_value a s))
     /\ (ainLog a = true ->
         ainLog (snd (update s a))
         = negb (satisfies_off (ain (panel a)) (ain_value a s)))
     /\ ain_fires s a = negb (ainLog a) && ainLog (snd (update s a)))
    /\ (thresholds_ordered (aout (panel a)) = true ->
        aCB (aout (panel a)) = true ->
        (aoutLog a = false ->
         aoutLog (snd (update s a))
         = satisfies_on (aout (panel a)) (aout_value a s))
        /\ (aoutLog a = true ->
            aoutLog (snd (update s a))
            = negb (satisfies_off (aout (panel a)) (aout_value a s)))
        /\ aout_fires s a = negb (aoutLog a) && aoutLog (snd (update s a)))
    /\ (forall ss,
          Forall tick_returns (ticks ss a) ->
          aOnLogic (ain (panel a)) = GreaterThan ->
          aOnValue (ain (panel a)) = 5%float ->
          aOffValue (ain (panel a)) = 2%float ->
          aCB (ain (panel a)) = true ->
          ainLog a = false ->
          map (ain_value a) ss = [1%float; 6%float; 6%float; 1%float] ->
          fires_of ain_fires (ticks ss a) = [false; true; false; false])
    /\ (forall ss,
          Forall tick_returns (ticks ss a) ->
          aOnLogic (aout (panel a)) = GreaterThan ->
          aOnValue (aout (panel a)) = 5%float ->
          aOffValue (aout (panel a)) = 2%float ->
          aCB (aout (panel a)) = true ->
          aoutLog a = false ->
          map (aout_value a) ss = [1%float; 6%float; 6%float; 1%float] ->
          fires_of aout_fires (ticks ss a) = [false; true; false; false]).
Proof.
  intros rt s a Ht. unfold tick_returns in Ht. cbn [fst snd] in Ht.
  destruct (update_returns_fields s a Ht) as (_ & _ & _ & Hi & Ho).
  split; [|split; [|split]].
  - intros Hord Hcb. unfold ain_fires. fold (ain_value a s). rewrite Hi.
    apply analog_edge_latch_cases; assumption.
  - intros Hord Hcb. unfold aout_fires. fold (aout_value a s). rewrite Ho.
    apply analog_edge_latch_cases; assumption.
  - intros ss Hrun Hlogic Hon Hoff Hcb Hlatch Hmap.
    apply (run_1_6_6_1 rt ain ain_value ainLog); try assumption.
    + intros s0 x Hx.
      destruct (update_returns_fields s0 x Hx) as (Hp & _ & _ & Hd & _).
      split; assumption.
    + intros x y s0 Hxy. unfold ain_value. rewrite Hxy. reflexivity.
  - intros ss Hrun Hlogic Hon Hoff Hcb Hlatch Hmap.
    apply (run_1_6_6_1 rt aout aout_value aoutLog); try assumption.
    + intros s0 x Hx.
      destruct (update_returns_fields s0 x Hx) as (Hp & _ & _ & _ & Hd).
      split; assumption.
    + intros x y s0 Hxy. unfold aout_value. rewrite Hxy. reflexivity.
Qed.

Lemma enabled_analog_latch_in_update_witness :
  @tick_returns literal_runtime (sample_stat false 6, watch_app)
  /\ thresholds_ordered (ain (panel watch_app)) = true
  /\ aCB (ain (panel watch_app)) = true
  /\ ainLog (snd (@update literal_runtime (sample_stat false 6) watch_app))
     = satisfies_on (ain (panel watch_app))
         (ain_value watch_app (sample_stat false 6))
  /\ ain_fires (sample_stat false 6) watch_app = true
  /\ Forall (@tick_returns literal_runtime)
       (@ticks literal_runtime
          [sample_stat false 1; sample_stat false 6; sample_stat false 6;
           sample_stat false 1] watch_app)
  /\ fires_of ain_fires
       (@ticks literal_runtime
          [sample_stat false 1; sample_stat false 6; sample_stat false 6;
           sample_stat false 1] watch_app)
     = [false; true; false; false].
Proof.
  assert (H : @tick_returns literal_runtime (sample_stat false 6, watch_app))
    by (vm_compute; reflexivity).
  assert (Hrun : Forall (@tick_returns literal_runtime)
                   (@ticks literal_runtime
                      [sample_stat false 1; sample_stat false 6;
                       sample_stat false 6; sample_stat false 1] watch_app)).
  { repeat constructor; vm_compute; reflexivity. }
  pose proof (enabled_analog_latch_in_update literal_runtime
                (sample_stat false 6) watch_app H) as T.
  split; [exact H|]. split; [reflexivity|]. split; [reflexivity|].
  split; [exact (proj1 (proj1 T eq_refl eq_refl) eq_refl)|].
  split; [reflexivity|]. split; [exact Hrun|].
  exact (proj1 (proj2 (proj2 T)) _ Hrun eq_refl eq_refl eq_refl eq_refl
           eq_refl eq_refl).
Defined.

(** X2.  After a tick that returns and on which a channel called [log],
    the next tick does not call [log] for that channel, whatever its
    status: the latch the block assigned holds the channel back. *)
Theorem no_fire_on_the_tick_after_a_fire :
  forall (rt : PyRuntime) (s s' : Stat) (a : App),
    tick_returns (s, a) ->
    (din_fires s a = true -> din_fires s' (snd (update s a)) = false)
    /\ (dout_fires s a = true -> dout_fires s' (snd (update s a)) = false)
    /\ (ain_fires s a = true -> ain_fires s' (snd (update s a)) = false)
    /\ (aout_fires s a = true -> aout_fires s' (snd (update s a)) = false).
Proof.
  intros rt s s' a Ht. unfold tick_returns in Ht. cbn [fst snd] in Ht.
  destruct (update_returns_fields s a Ht) as (Hp & Hd & Ho & Hi & Hu).
  unfold din_value, dout_value, ain_value, aout_value in *.
  unfold din_fires, dout_fires, ain_fires, aout_fires.
  repeat split; intros Hfire.
  - rewrite Hd, (digital_edge_fire _ _ _ Hfire). cbn [snd].
    apply digital_edge_latched.
  - rewrite Ho, (digital_edge_fire _ _ _ Hfire). cbn [snd].
    apply digital_edge_latched.
  - rewrite Hi, (analog_edge_fire _ _ _ Hfire). cbn [a_latch].
    apply analog_edge_latched.
  - rewrite Hu, (analog_edge_fire _ _ _ Hfire). cbn [a_latch].
    apply analog_edge_latched.
Qed.

Lemma no_fire_after_a_fire_witness :
  @tick_returns literal_runtime (sample_stat true 6, watch_app)
  /\ din_fires (sample_stat true 6) watch_app = true
  /\ ain_fires (sample_stat true 6) watch_app = true
  /\ din_fires (sample_stat true 6)
       (snd (@update literal_runtime (sample_stat true 6) watch_app)) = false
  /\ ain_fires (sample_stat true 6)
       (snd (@update literal_runtime (sample_stat true 6) watch_app)) = false
  /\ gcodeLW (snd (@update literal_runtime (sample_stat true 6) watch_app))
     = [""; ""].
Proof.
  assert (H : @tick_returns literal_runtime (sample_stat true 6, watch_app))
    by (vm_compute; reflexivity).
  pose proof (no_fire_on_the_tick_after_a_fire literal_runtime
                (sample_stat true 6) (sample_stat true 6) watch_app H) as T.
  split; [exact H|]. split; [reflexivity|]. split; [reflexivity|].
  split; [exact (proj1 T eq_refl)|].
  split; [exact (proj1 (proj2 (proj2 T)) eq_refl)|].
  vm_compute. reflexivity.
Defined.

(* ================================================================== *)
(** ** Errors of an attempt, and the latch *)

(** C7, as the code has it.  An error that [log] reports and returns from
    (MissingFeedRate, the missing arc radius, DegenerateMove or
    RadiusTooSmall; never NoPriorPosition) leaves the document with its
    cursor, the last position and the four latches as they were, the
    dialog shown.  A ConfigurationError of an analog channel changes
    neither the document nor a latch, and its block returns.  And whenever
    [log] returns, with a line or with one of these errors, the block of
    the channel that fired returns too, with that channel's latch set and
    the other latches and the document as [log] left them. *)
Theorem log_errors_keep_the_document_and_the_latch_is_set :
  forall (rt : PyRuntime) (a : App),
    (forall m, fst (log a) = Returned m ->
       document (snd (log a)) = document a
       /\ lastPosition (snd (log a)) = lastPosition a
       /\ latches (snd (log a)) = latches a
       /\ dialogs (snd (log a)) = m :: dialogs a
       /\ (forall mt, m <> NoPriorPosition mt))
    /\ (forall s, thresholds_ordered (ain (panel a)) = false ->
          fst (update_ain s a) = None
          /\ document (snd (update_ain s a)) = document a
          /\ latches (snd (update_ain s a)) = latches a
          /\ ainStyle (snd (update_ain s a)) = Yellow)
    /\ (forall s, thresholds_ordered (aout (panel a)) = false ->
          fst (update_aout s a) = None
          /\ document (snd (update_aout s a)) = document a
          /\ latches (snd (update_aout s a)) = latches a
          /\ aoutStyle (snd (update_aout s a)) = Yellow)
    /\ ((forall shown e, fst (log a) <> Raised shown e) ->
        forall s,
          (din_fires s a = true ->
           fst (update_din s a) = None
           /\ document (snd (update_din s a)) = document (snd (log a))
           /\ latches (snd (update_din s a))
              = (true, doutLog a, ainLog a, aoutLog a))
          /\ (dout_fires s a = true ->
              fst (update_dout s a) = None
              /\ document (snd (update_dout s a)) = document (snd (log a))
              /\ latches (snd (update_dout s a))
                 = (dinLog a, true, ainLog a, aoutLog a))
          /\ (ain_fires s a = true ->
              fst (update_ain s a) = None
              /\ document (snd (update_ain s a)) = document (snd (log a))
              /\ latches (snd (update_ain s a))
                 = (dinLog a, doutLog a, true, aoutLog a))
          /\ (aout_fires s a = true ->
              fst (update_aout s a) = None
              /\ document (snd (update_aout s a)) = document (snd (log a))
              /\ latches (snd (update_aout s a))
                 = (dinLog a, doutLog a, ainLog a, true))).
Proof.
  intros rt a. split; [|split; [|split]].
  - intros m Hlog.
    destruct (log_returned a m Hlog) as [Hc Hsnd].
    assert (Hno : forall line, fst (log a) <> Composed line)
      by (intros line; rewrite Hlog; discriminate).
    destruct (log_without_line_frame a Hno) as (Hdoc & Hlast & Hlatch).
    repeat split; try assumption.
    + rewrite Hsnd. cbn [mbox dialogs]. f_equal. apply log_comment_frame.
    + intros mt Heq. subst m.
      destruct (compose_returned _ _ Hc) as [H|[H|[H|[r H]]]];
        discriminate.
  - intros s Hbad. unfold update_ain, analog_block.
    rewrite (analog_edge_misconfigured _ _ _ Hbad). repeat split.
  - intros s Hbad. unfold update_aout, analog_block.
    rewrite (analog_edge_misconfigured _ _ _ Hbad). repeat split.
  - intros Hok s.
    pose proof (log_latches rt a) as Hlat.
    unfold latches in Hlat. injection Hlat as H1 H2 H3 H4.
    unfold update_din, update_dout, update_ain, update_aout,
      din_fires, dout_fires, ain_fires, aout_fires.
    split; [|split; [|split]]; intros Hfire;
      first [ rewrite (digital_block_fired _ _ _ _ _ Hfire Hok)
            | rewrite (analog_block_fired _ _ _ _ _ _ Hfire Hok) ];
      (split; [reflexivity|]); split;
      unfold document, latches; cbn; congruence.
Qed.

Lemma log_errors_witness :
  fst (@log literal_runtime no_feed_app) = Returned (MissingFeedRate G1)
  /\ document (snd (@log literal_runtime no_feed_app)) = document no_feed_app
  /\ (forall shown e,
        fst (@log literal_runtime no_feed_app) <> Raised shown e)
  /\ din_fires high_stat no_feed_app = true
  /\ fst (@update_din literal_runtime high_stat no_feed_app) = None
  /\ latches (snd (@update_din literal_runtime high_stat no_feed_app))
     = (true, false, false, false).
Proof.
  assert (H : fst (@log literal_runtime no_feed_app)
              = Returned (MissingFeedRate G1)) by (vm_compute; reflexivity).
  assert (Hok : forall shown e,
             fst (@log literal_runtime no_feed_app) <> Raised shown e)
    by (intros shown e; rewrite H; discriminate).
  pose proof (log_errors_keep_the_document_and_the_latch_is_set
                literal_runtime no_feed_app) as T.
  split; [exact H|].
  split; [exact (proj1 (proj1 T _ H))|].
  split; [exact Hok|]. split; [reflexivity|].
  destruct (proj1 (proj2 (proj2 (proj2 T)) Hok high_stat) eq_refl)
    as (R1 & _ & R3).
  split; [exact R1 | exact R3].
Defined.

(* ================================================================== *)
(** ** The arc with the X box cleared *)

(** C10 at an arc move with the X box cleared.  The labels show X = 1,
    Y = 10 and Z = 0, the last log recorded Y = 0 and Z = 0.  The values
    read for the move are those of Y and Z, so [dx] and [dy] of lines
    689-690 are the differences of Y and of Z; the line carries the I and
    J words computed from them, and [lastPosition] then holds Y and Z,
    not the X/Y pair the labels show. *)
Theorem arc_without_x_is_solved_on_y_and_z :
  map axis_value
    (fst (@read_axes literal_runtime (position_lbs yz_arc_app)
            (checked_axes (axis_cbs (panel yz_arc_app)))))
  = [10%R; 0%R]
  /\ lastPosition yz_arc_app = [0%R; 0%R]
  /\ fst (@log literal_runtime yz_arc_app)
     = Composed "G2 Y10 Z0 F100 I<float> J<float>"
  /\ lastPosition (snd (@log literal_runtime yz_arc_app)) = [10%R; 0%R]
  /\ @xy_pair literal_runtime yz_arc_app = Some [1%R; 10%R].
Proof.
  assert (Hlog : @log literal_runtime yz_arc_app
                 = (Composed "G2 Y10 Z0 F100 I<float> J<float>",
                    snd (@log literal_runtime yz_arc_app))).
  { unfold log, compose.
    cbv -[arc_solve IZR Rminus].
    rewrite arc_10_0_radius_5.
    cbv -[IZR]. reflexivity. }
  split; [reflexivity|]. split; [reflexivity|].
  split; [rewrite Hlog; reflexivity|].
  split; [|reflexivity].
  unfold log, compose.
  cbv -[arc_solve IZR Rminus].
  rewrite arc_10_0_radius_5.
  cbv -[IZR]. reflexivity.
Qed.

(* ================================================================== *)
(** ** The arc arithmetic in doubles *)

(** C2, as the code has it.  Lines 689-718 in double arithmetic, for
    every start point, end point, radius and direction.  When both
    differences are 0 the move is refused as DegenerateMove.  Otherwise,
    when [atan2], the two squares and the square root return their
    values: a radius below half the distance is refused as RadiusTooSmall
    carrying half the distance; for any other radius, when its square,
    the square of half the distance, the square root, the cosine and the
    sine return their values, the I and J words are the midpoint plus
    the square root of radius squared minus half the distance squared,
    times the cosine and the sine of the angle of travel minus pi/2 for
    clockwise, plus pi/2 for counter-clockwise.  On a C library that
    squares 10 and 5 exactly and has atan2(0, 10) = 0, the cosine of
    -pi/2 at 6.123233995736766e-17 and its sine at -1, the move from
    (0, 0) to (10, 0) with radius 5, clockwise, gives I = 5 and J = 0. *)
Theorem arc_lines_cases :
  forall (libm : LibM) (d : Direction)
         (start_x start_y end_x end_y radius : float),
    ((end_x - start_x =? 0)%float && (end_y - start_y =? 0)%float = true ->
     arc_lines d start_x start_y end_x end_y radius = DegenerateMoveError)
    /\ (forall angle dx2 dy2 distance,
          (end_x - start_x =? 0)%float && (end_y - start_y =? 0)%float
          = false ->
          math_atan2 (end_y - start_y) (end_x - start_x) = Val angle ->
          float_square (end_x - start_x) = Val dx2 ->
          float_square (end_y - start_y) = Val dy2 ->
          math_sqrt (dx2 + dy2) = Val distance ->
          ((radius <? distance / 2)%float = true ->
           arc_lines d start_x start_y end_x end_y radius
           = RadiusTooSmallError (distance / 2))
          /\ (forall radius2 half2 center_offset c s,
                (radius <? distance / 2)%float = false ->
                float_square radius = Val radius2 ->
                float_square (distance / 2) = Val half2 ->
                math_sqrt (radius2 - half2) = Val center_offset ->
                math_cos (match d with
                          | CW => angle - math_pi / 2
                          | CCW => angle + math_pi / 2
                          end) = Val c ->
                math_sin (match d with
                          | CW => angle - math_pi / 2
                          | CCW => angle + math_pi / 2
                          end) = Val s ->
                arc_lines d start_x start_y end_x end_y radius
                = IJ ((end_x - start_x) / 2 + center_offset * c)
                     ((end_y - start_y) / 2 + center_offset * s)))
    /\ (libm_pow 10 2 = 100%float ->
        libm_pow 5 2 = 25%float ->
        libm_atan2 0 10 = 0%float ->
        libm_cos (0 - math_pi / 2) = 0x1.1a62633145c07p-54%float ->
        libm_sin (0 - math_pi / 2) = (-1)%float ->
        arc_lines CW 0 0 10 0 5 = IJ 5 0).
Proof.
  intros libm d start_x start_y end_x end_y radius.
  split; [|split].
  - intros Hsame. unfold arc_lines. rewrite Hsame. reflexivity.
  - intros angle dx2 dy2 distance Hsame Hangle Hdx Hdy Hdist.
    unfold arc_lines. rewrite Hsame, Hangle. cbn [arith_bind].
    rewrite Hdx. cbn [arith_bind]. rewrite Hdy. cbn [arith_bind].
    rewrite Hdist. cbn [arith_bind].
    split.
    + intros ->. reflexivity.
    + intros radius2 half2 center_offset c s -> Hr Hh Hoff Hc Hs.
      rewrite Hr. cbn [arith_bind]. rewrite Hh. cbn [arith_bind].
      rewrite Hoff. cbn [arith_bind]. rewrite Hc. cbn [arith_bind].
      rewrite Hs. reflexivity.
  - intros H10 H5 Hatan Hcos Hsin.
    cbv -[libm_cos] in Hcos. cbv -[libm_sin] in Hsin.
    unfold arc_lines, math_atan2, math_cos, math_sin, math_sqrt, math_1,
      float_square.
    cbv -[libm_pow libm_atan2 libm_cos libm_sin]. rewrite Hatan.
    cbv -[libm_pow libm_atan2 libm_cos libm_sin]. rewrite H10.
    cbv -[libm_pow libm_atan2 libm_cos libm_sin]. rewrite H5.
    cbv -[libm_pow libm_atan2 libm_cos libm_sin]. rewrite Hcos.
    cbv -[libm_pow libm_atan2 libm_cos libm_sin]. rewrite Hsin.
    reflexivity.
Qed.

(** The three cases on the example library; in the last one the half
    distance of (0, 0) and (0.09, 0.4) is rounded to 0.20500000000000002,
    and the radius 0.205 is refused. *)
Lemma arc_lines_witness :
  @arc_lines table_libm CW 0 0 10 0 5 = IJ 5 0
  /\ @arc_lines table_libm CCW 0 0 10 0 4 = RadiusTooSmallError 5
  /\ @arc_lines table_libm CCW 3 4 3 4 4 = DegenerateMoveError
  /\ @arc_lines table_libm CW 0 0 0x1.70a3d70a3d70ap-4 0x1.999999999999ap-2
       0x1.a3d70a3d70a3dp-3
     = RadiusTooSmallError 0x1.a3d70a3d70a3ep-3.
Proof.
  pose proof (arc_lines_cases table_libm CW 0 0 10 0 5) as T.
  pose proof (arc_lines_cases table_libm CCW 0 0 10 0 4) as U.
  pose proof (arc_lines_cases table_libm CCW 3 4 3 4 4) as V.
  pose proof (arc_lines_cases table_libm CW 0 0 0x1.70a3d70a3d70ap-4
                0x1.999999999999ap-2 0x1.a3d70a3d70a3dp-3) as W.
  split; [exact (proj2 (proj2 T) eq_refl eq_refl eq_refl eq_refl eq_refl)|].
  split; [|split; [exact (proj1 V eq_refl)|]].
  - exact (proj1 (proj1 (proj2 U) 0%float 100%float 0%float 10%float
                    eq_refl eq_refl eq_refl eq_refl eq_refl) eq_refl).
  - exact (proj1 (proj1 (proj2 W) 0%float _ _ _
                    eq_refl eq_refl eq_refl eq_refl eq_refl) eq_refl).
Defined.

(** C2 as stated fails at the ends of the range of the doubles, on a C
    library whose square is the rounded product.  With the radius 1e200
    the move from (0, 0) to (10, 0) is neither refused nor solved: the
    square of the radius overflows and OverflowError escapes.  And from
    (0, 0) to (1e-200, 0) the square of the difference underflows, the
    distance computed is 0, and yet the move is solved, the end point
    being different from the start point. *)
Lemma arc_squares_overflow_and_underflow :
  (0 <? 0x1.4e718d7d7625ap+664)%float = true
  /\ @arc_lines table_libm CW 0 0 10 0 0x1.4e718d7d7625ap+664
     = ArcRaises OverflowError
  /\ @float_square table_libm (0x1.87e92154ef7acp-665 - 0) = Val 0
  /\ @float_square table_libm (0 - 0) = Val 0
  /\ math_sqrt (0 + 0) = Val 0
  /\ @arc_lines table_libm CW 0 0 0x1.87e92154ef7acp-665 0 5
     = IJ 0x1.60fafbfd97309p-52 (-5)
  /\ @arc_lines table_libm CW 0 0 0x1.87e92154ef7acp-665 0 5
     <> DegenerateMoveError.
Proof.
  repeat (split; [vm_compute; reflexivity|]).
  vm_compute. discriminate.
Qed.
